(* ===== verification/_CoqProject ===== *)
-Q . S2P
Prelude.v
Js.v
Form.v
Pages.v
LoginPage.v
RegisterPage.v
ProfilePage.v
Server.v
CredentialStore.v
Authenticator.v
SocialGraph.v
PostStore.v
Feed.v
EndToEnd.v
ProfileFlow.v
ServerBoot.v
