(* ===== verification/Prelude.v ===== *)
(** * nsocial2: a verification development of the social-network client and server

    The repository holds a React client ([src/project/src/pages/Login.jsx],
    [Register.jsx], [Profile.jsx], [src/project/src/components/index.js])
    and an Express bootstrap ([src/server/index.js]).  The backend domain
    logic its specification describes (credential store, authenticator,
    social graph, post store, feed composer) is not in [src/]; it is
    modelled from the specification and marked as such in the map.

    ** How the parts interact

    The pages call the server over HTTP (axios): Login posts
    [{email, password}] and on success stores [newData] through the
    [login] action of the user store and navigates to ["/"]; Register posts
    the five inputs and redirects to ["/login"] from an interval timer;
    Profile calls [getUserInfo(token, id)] and fetches
    ["/posts/get-user-post/" + id] on every navigation, and deletes or
    likes posts.  The server wires cors, morgan
    and the body parsers but mounts no router, so every one of these
    requests ends in a 404 (or 204/400/413/415) — [Server.serve_status].  The
    specified backend is a chain: Authenticator → Credential Store;
    Social Graph → Credential Store; Post Store → Credential Store; Feed →
    Post Store and Social Graph.  Each dependency is a typeclass
    interface: [Credentials] (verify / known user, in Authenticator.v,
    implemented by the credential store), [Friendships] (symmetric
    friendship test, in Feed.v, implemented by the social graph), and the
    clients' theorems are proved against the class.

    ** Files

    - [Prelude] (this file): the [nsocial] hint database, association lists
      with JavaScript's in-place update, event-driven machines ([run],
      [reachable], [reachable_invariant]), the [result] error type and its
      [let!] notation, the listing lemma on gmaps.
    - [Js]: JavaScript values ([jval]), optional chaining ([Js.oget]),
      truthiness, [||] and object spread ([Js.spread], CopyDataProperties).
    - [Form]: the react-hook-form contract the pages use: [register] rules
      ([required] then [validate]), [handleSubmit] and [mode: "onChange"],
      which re-validates only the changed field.
    - [Js] also gives ToString ([Js.to_str], [None] where it throws) and
      the comparison [v > 0] with JavaScript's conversions ([Js.gt_zero]:
      ToPrimitive, then StringToNumber with trimming, [0x]/[0o]/[0b],
      [Infinity], and decimals that round to +0).
    - [Form] keeps each error with the rule that produced it
      ([required]/[validate]), as react-hook-form's [errors.x.type].
    - [Pages]: the alert and submit-button rendering shared by Login and
      Register ([Pages.alert_view], [Pages.submit_view]), the [TextInput]
      props and the [error] text an input shows ([Pages.message_or_empty]).
    - [LoginPage], [RegisterPage]: each page as a Record of its [useState]
      hooks and form, events for input, submit, axios resolution/rejection
      (and the interval for Register), and [step : state → event → option
      state]; the handlers [onSubmit]/[onResponse]/[onFailure] follow the
      source line by line; [view] renders the form column (heading, inputs
      with their error text, alert, submit area, links) and [page] the
      whole page ([Pages.page]: logo, row direction, form column and the
      static right-hand panel [right_panel]).  A submit is only
      possible while the button is
      rendered.
    - [ProfilePage]: the two [useEffect] fetches, the delete/like buttons,
      the render (including the [.map] crash on a non-array), with a queue
      of in-flight requests; responses are delivered in any order ([step])
      or in sending order ([fifo_step]) by a server given as Section
      variables; [step_signed_out] is the same page without a session,
      whose effect sends only the profile request.
    - [Server]: [bytes] size parsing, the middleware stack of index.js in
      order, body-parser's [req._body] skip and its charset, encoding, size,
      length and parser checks in raw-body's order, cors preflight, morgan
      and finalhandler's 404.
    - [ServerBoot]: the start-up of index.js as a trace of effects:
      [dotenv.config()] (a defined variable is never overwritten), [PORT],
      [dbConnection()] (not awaited), the [app.use] calls, [app.listen] and
      its log line.
    - [CredentialStore], [Authenticator], [SocialGraph], [PostStore],
      [Feed]: the backend of spec §4, over stdpp's gmap and gset; each
      store is also a machine ([step]) whose well-formedness is invariant.
    - [EndToEnd]: the transport of spec §6 that would serve the pages from
      that backend ([Transport]: routes, wire encodings of ids, tokens,
      users and posts), and the login and register pages composed with it
      into one machine each ([LoginSystem], [RegisterSystem]): the page's
      own events, [Deliver] (the route answers the pending body) and
      [Drop] (a network failure).
    - [ProfileFlow]: the profile page against a backend that changes: the
      viewer is the session [user.token] names, a completed delete or like
      is first performed on the world ([ProfileFlow.serve]) and the page
      then reads the new world.

    ** Theorems

    - Client pages: single flight of the login request in every reachable
      state, which responses log the user in (any status other than the
      string ["failed"]), what is sent on submit, the stale confirmation
      error from any state of Register, and that Register arms exactly one
      redirect timer per accepted answer and reaches ["/login"] only after
      one (an invariant over every run, counting the trace); on Profile, the stale
      profile after navigation (out of order, and even in order after a
      delete), consistency when delivery is in order, and that in-order
      delivery always settles the page or leaves it dead on an answer it
      cannot render, whatever the server answers (liveness, by a weight on
      the queue), while without
      user input the completions of requests terminate (a well-founded
      relation); the inputs of the login page only ever show their
      [required] messages and those of the register page only the
      message of their own rule, the register page reports an empty last
      name with ["Last Name do no match"]; the profile page dies (no event
      enabled) exactly when comparing a posts answer's [length] with 0
      throws or holds of an answer that is not an array, and without a session its spinner never clears
      ([ProfilePage.step_signed_out]: [getPosts] throws at [user.token]).
    - Server start-up: which [PORT] the server listens on and logs.
    - Server: the status of every request, the 100kb limit that wins over
      the configured 10mb, that the second pair of parsers is dead
      (equivalence with the stack without them), and when morgan logs.
    - End to end: a new user registers, follows the redirect, logs in and
      holds a token of a live session; a refused login shows one message
      whatever the cause (§7) and creates no session; a network failure
      is silent on the login page; a taken e-mail is reported without a
      redirect; submitting again after a successful registration is
      refused as a duplicate and still redirects; a profile shows exactly the backend's user, friends and
      posts, newest first; through the cards, the author's delete removes
      the post, anyone else's is refused and changes nothing, liking twice
      is liking once, and a like with an expired session changes nothing.
    - Backend: the testable properties of spec §8 (email uniqueness,
      login/authenticate round trip, idempotent like, friendship symmetry,
      feed completeness, the ownership gate, the concrete scenario,
      evaluated by [vm_compute]), error behaviour of every operation,
      invariants by rule induction over each store's [step], and the
      refinement of [listFriends] (computed from the stored pairs) by the
      [areFriends] predicate.

    ** Bounds and fuel

    No definition uses fuel: every page step, middleware run and backend
    operation is structurally recursive or non-recursive.  The one
    liveness statement ([ProfilePage.profile_requests_drain]) and the
    termination statement ([ProfilePage.completions_terminate]) are proved
    by a measure on the request queue (a delete or like weighs 2, as it
    issues one refetch), so they hold for every queue length.
    Body sizes are [Z], as Node's byte counts are unbounded for this
    purpose; session expiry and post timestamps are [Z] seconds.

    ** Not modelled

    [src/project/src/components/index.js] only re-exports the UI
    components, whose sources are not in [src/]; styling (class names),
    icons and the image source; the socket
    behind [app.listen] and the database module [./dbConfig], which is not
    in [src/]; the salted slow hash is an abstract function and constant-time
    comparison is not observable in this model; concurrency of §5 is
    represented by each store operation being one atomic step of its
    machine, not by interleaved sub-steps. *)

From stdpp Require Import base list strings gmap.
From Stdlib Require Import ZArith Lia.

Declare Scope nsocial_scope.
Delimit Scope nsocial_scope with ns.
Open Scope nsocial_scope.

Create HintDb nsocial discriminated.
Create Rewrite HintDb nsocial_rw.

(** ** Association lists with in-place update

    JavaScript objects keep their own properties in insertion order; writing
    an existing key replaces its value where it stands, writing a new key
    appends it.  [alist_get] and [alist_set] are exactly these two
    operations. *)
Section Alist.
Context {K V : Type} `{EqDecision K}.

Fixpoint alist_get (k : K) (l : list (K * V)) : option V :=
  match l with
  | [] => None
  | (k', v) :: l' => if decide (k = k') then Some v else alist_get k l'
  end.

Fixpoint alist_set (k : K) (v : V) (l : list (K * V)) : list (K * V) :=
  match l with
  | [] => [(k, v)]
  | (k', v') :: l' =>
      if decide (k = k') then (k', v) :: l' else (k', v') :: alist_set k v l'
  end.

Lemma alist_get_set_eq k v (l : list (K * V)) :
  alist_get k (alist_set k v l) = Some v.
Proof.
  induction l as [|[k' v'] l IH]; simpl; [by rewrite decide_True|].
  case_decide; simpl; [subst; by rewrite decide_True|].
  by rewrite decide_False.
Qed.

Lemma alist_get_set_ne k k' v (l : list (K * V)) :
  k ≠ k' → alist_get k' (alist_set k v l) = alist_get k' l.
Proof.
  intros Hne. induction l as [|[k'' v'] l IH]; simpl.
  - by rewrite decide_False.
  - case_decide; simpl; subst.
    + by case_decide.
    + case_decide; [done|]. exact IH.
Qed.

Lemma alist_get_filter_key k name (l : list (K * V)) :
  alist_get k (filter (λ kv, kv.1 ≠ name) l) = if decide (k = name) then None else alist_get k l.
Proof.
  induction l as [|[k' v'] l IH]; [simpl; by case_decide|].
  rewrite filter_cons. cbn [fst].
  destruct (decide (k' ≠ name)) as [Hk'|Hk']; cbn [alist_get]; rewrite IH.
  - repeat case_decide; subst; done.
  - assert (k' = name) as -> by (by apply dec_stable). repeat case_decide; subst; done.
Qed.

Lemma alist_keys_set k v (l : list (K * V)) :
  k ∈ l.*1 → (alist_set k v l).*1 = l.*1.
Proof.
  induction l as [|[k' v'] l IH]; simpl; [set_solver|].
  intros Hin. case_decide; simpl; [done|].
  f_equal. apply IH. set_solver.
Qed.

Lemma alist_keys_set_new k v (l : list (K * V)) :
  k ∉ l.*1 → (alist_set k v l).*1 = l.*1 ++ [k].
Proof.
  induction l as [|[k' v'] l IH]; simpl; [done|].
  intros Hin. rewrite decide_False by set_solver. simpl.
  f_equal. apply IH. set_solver.
Qed.

Lemma alist_set_NoDup k v (l : list (K * V)) :
  NoDup l.*1 → NoDup (alist_set k v l).*1.
Proof.
  intros Hnd. destruct (decide (k ∈ l.*1)).
  - by rewrite alist_keys_set.
  - rewrite alist_keys_set_new by done.
    apply NoDup_app. split; [done|]. split; [set_solver|]. apply NoDup_singleton.
Qed.

Lemma alist_get_Some_in k v (l : list (K * V)) :
  alist_get k l = Some v → k ∈ l.*1.
Proof.
  induction l as [|[k' v'] l IH]; simpl; [done|].
  case_decide; [subst; set_solver|]. intros Hg. specialize (IH Hg). set_solver.
Qed.
End Alist.

#[export] Hint Resolve alist_get_set_eq alist_set_NoDup : nsocial.

(** ** Removing an element of a list by index (stdpp's [delete]) *)

Lemma elem_of_delete_ne {A} (l : list A) k x r :
  x ∈ l → l !! k = Some r → x ≠ r → x ∈ delete k l.
Proof.
  revert k. induction l as [|y l IH]; intros k Hx Hk Hne; [set_solver|].
  destruct k as [|k]; simpl in *.
  - simplify_eq. set_solver.
  - apply elem_of_cons in Hx as [->|Hx]; [set_solver|]. apply elem_of_cons. right. by eapply IH.
Qed.
#[export] Hint Rewrite @alist_get_set_eq : nsocial_rw.

(** ** Event-driven machines

    The pages and stores of the program are modelled as a step function
    [step : S -> E -> option S]: [None] means the event is not enabled in
    the state (a button that is not rendered cannot be clicked, a response
    cannot arrive for a request that was never sent).  [run] replays a
    finite sequence of events, [reachable] is the set of states some
    sequence reaches. *)
Section Machine.
Context {S E : Type} (step : S → E → option S).

Fixpoint run (s : S) (es : list E) : option S :=
  match es with
  | [] => Some s
  | e :: es' => match step s e with Some s' => run s' es' | None => None end
  end.

Inductive reachable (s0 : S) : S → Prop :=
| reach_init : reachable s0 s0
| reach_step s e s' : reachable s0 s → step s e = Some s' → reachable s0 s'.

Lemma reachable_invariant (P : S → Prop) s0 :
  P s0 →
  (∀ s e s', P s → step s e = Some s' → P s') →
  ∀ s, reachable s0 s → P s.
Proof. intros H0 Hstep s Hr. induction Hr; eauto. Qed.

Lemma run_cons s e es :
  run s (e :: es) = match step s e with Some s' => run s' es | None => None end.
Proof. reflexivity. Qed.

Lemma run_app s es1 es2 :
  run s (es1 ++ es2) = match run s es1 with Some s' => run s' es2 | None => None end.
Proof.
  revert s. induction es1 as [|e es1 IH]; intros s; simpl; [done|].
  destruct (step s e); [apply IH|done].
Qed.

Lemma run_reachable_from s0 s es s' :
  reachable s0 s → run s es = Some s' → reachable s0 s'.
Proof.
  revert s. induction es as [|e es IH]; intros s Hr Hrun; simpl in Hrun.
  - by simplify_eq.
  - destruct (step s e) as [s1|] eqn:Hs; [|done].
    eapply IH; [|done]. econstructor; eauto.
Qed.

Lemma run_reachable s0 es s : run s0 es = Some s → reachable s0 s.
Proof. apply run_reachable_from. constructor. Qed.
End Machine.

Arguments reach_init {_ _ _ _}.
#[export] Hint Constructors reachable : nsocial.
#[export] Hint Resolve run_reachable : nsocial.

(** ** Listings read off a finite map

    A listing filters the entries of a map and orders them; it names each
    key at most once. *)
Lemma NoDup_fst_filter_map {K V} `{Countable K} (P : K * V → Prop) `{∀ x, Decision (P x)}
    (m : gmap K V) (l : list (K * V)) :
  l ≡ₚ filter P (map_to_list m) → NoDup l.*1.
Proof.
  intros Hl. rewrite Hl. apply NoDup_fmap_fst.
  - intros x y1 y2 H1 H2. apply list_elem_of_filter in H1 as [_ H1], H2 as [_ H2].
    apply elem_of_map_to_list in H1, H2. congruence.
  - apply NoDup_filter, NoDup_map_to_list.
Qed.

(** ** Results of fallible operations

    The backend operations of the specification either succeed with a
    value or fail with one error of a per-component error type. *)
Inductive result (E A : Type) :=
| Ok (a : A)
| Err (e : E).

Arguments Ok {_ _} _.
Arguments Err {_ _} _.

Definition rbind {E A B} (m : result E A) (k : A → result E B) : result E B :=
  match m with Ok a => k a | Err e => Err e end.

Notation "'let!' x := m 'in' k" := (rbind m (λ x, k))
  (at level 10, x name, m at level 100, k at level 200) : nsocial_scope.

Lemma rbind_Ok {E A B} (m : result E A) (k : A → result E B) b :
  rbind m k = Ok b ↔ ∃ a, m = Ok a ∧ k a = Ok b.
Proof. destruct m; simpl; split; [eauto|intros (? & ? & ?); congruence|done|intros (? & ? & ?); done]. Qed.
