(* ===== verification/Js.v ===== *)
(** * Js: the fragment of JavaScript values and operators the sources use

    The client pages and the server entry point manipulate JSON-like values
    (API responses, form data, redux state) with a handful of operators:
    property access and optional chaining ([res?.status]), ToBoolean
    ([errMsg?.message && ...], [process.env.PORT || 8800]), strict equality
    against a string literal ([res?.status === "failed"]) and object spread
    ([{ token: res?.token, ...res?.user }]), ToString in a template
    literal and the relational comparison [posts?.length > 0].  This file
    gives each its ECMAScript meaning on a value type [jval].  Numbers are
    kept as [Z]: the sources only produce integral numbers (ports,
    lengths, HTTP codes); a numeric string is converted exactly where the
    comparison needs it. *)

From S2P Require Import Prelude.
From stdpp Require Import base list strings pretty sets.
From Stdlib Require Import ZArith Ascii DecimalString DecimalZ.

#[warnings="-register-all"]
Inductive jval :=
| JUndefined
| JNull
| JBool (b : bool)
| JNum (n : Z)
| JStr (s : string)
| JArr (items : list jval)
| JObj (props : list (string * jval)).

Module Js.

(** Canonical array-index keys: ["0"], ["1"], ... *)
Definition index_key (k : string) (n : nat) : option nat :=
  snd <$> list_find (λ i, pretty i = k) (seq 0 n).

(** [GetV] on a value that is not [null] or [undefined]; properties of
    the prototype chain other than [length] are not modelled. *)
Definition prop (v : jval) (k : string) : jval :=
  match v with
  | JObj ps => default JUndefined (alist_get k ps)
  | JArr xs =>
      if decide (k = "length") then JNum (Z.of_nat (length xs))
      else match index_key k (length xs) ≫= (xs !!.) with
           | Some x => x | None => JUndefined end
  | JStr s =>
      if decide (k = "length") then JNum (Z.of_nat (String.length s))
      else match index_key k (String.length s) ≫= (λ i, String.get i s) with
           | Some c => JStr (String c EmptyString) | None => JUndefined end
  | _ => JUndefined
  end.

(** [v.k]: a [TypeError] ([None]) on [null] and [undefined]. *)
Definition get (v : jval) (k : string) : option jval :=
  match v with
  | JNull | JUndefined => None
  | _ => Some (prop v k)
  end.

(** [v?.k]: short-circuits to [undefined] on [null] and [undefined]. *)
Definition oget (v : jval) (k : string) : jval :=
  match v with
  | JNull | JUndefined => JUndefined
  | _ => prop v k
  end.

(** ToBoolean (NaN is not a value of this model). *)
Definition truthy (v : jval) : bool :=
  match v with
  | JUndefined | JNull => false
  | JBool b => b
  | JNum n => negb (Z.eqb n 0)
  | JStr s => negb (String.eqb s "")
  | JArr _ | JObj _ => true
  end.

(** [a || b] *)
Definition or (a b : jval) : jval := if truthy a then a else b.

(** [v === "lit"] *)
Definition is_str (v : jval) (lit : string) : bool :=
  match v with JStr s => String.eqb s lit | _ => false end.

(** The own enumerable properties that a spread copies, in order:
    strings and arrays spread their indices, other primitives nothing. *)
Definition own_props (v : jval) : list (string * jval) :=
  match v with
  | JObj ps => ps
  | JArr xs => imap (λ i x, (pretty i, x)) xs
  | JStr s => imap (λ i c, (pretty i, JStr (String c EmptyString))) (String.list_ascii_of_string s)
  | _ => []
  end.

(** [{ ...props, ...src }]: CopyDataProperties into an object under
    construction; an existing key keeps its place and takes the new value. *)
Definition spread (props : list (string * jval)) (src : jval) : list (string * jval) :=
  foldl (λ acc kv, alist_set kv.1 kv.2 acc) props (own_props src).

(** A JSON object, as produced by [JSON.parse]: no repeated key. *)
Definition wf_props (ps : list (string * jval)) : Prop := NoDup ps.*1.


(** ** Lemmas on spread *)

Definition set_all (acc l : list (string * jval)) : list (string * jval) :=
  foldl (λ acc kv, alist_set kv.1 kv.2 acc) acc l.

Lemma set_all_get_notin k acc l :
  k ∉ l.*1 → alist_get k (set_all acc l) = alist_get k acc.
Proof.
  revert acc. induction l as [|[k' v'] l IH]; intros acc Hk; simpl; [done|].
  unfold set_all in IH. rewrite IH by set_solver.
  apply alist_get_set_ne. set_solver.
Qed.

Lemma set_all_get_in k v acc l :
  NoDup l.*1 → alist_get k l = Some v → alist_get k (set_all acc l) = Some v.
Proof.
  revert acc. induction l as [|[k' v'] l IH]; intros acc Hnd Hk; [done|].
  apply NoDup_cons in Hnd as [Hnotin Hnd]. simpl in Hk.
  change (set_all acc ((k', v') :: l)) with (set_all (alist_set k' v' acc) l).
  case_decide as Heq.
  - subst k'. injection Hk as <-.
    rewrite set_all_get_notin by done. apply alist_get_set_eq.
  - by apply IH.
Qed.

Lemma spread_get_notin k (ps : list (string * jval)) src :
  k ∉ (own_props src).*1 → alist_get k (spread ps src) = alist_get k ps.
Proof. apply set_all_get_notin. Qed.

Lemma spread_get_in k v (ps : list (string * jval)) src :
  NoDup (own_props src).*1 → alist_get k (own_props src) = Some v →
  alist_get k (spread ps src) = Some v.
Proof. apply set_all_get_in. Qed.

Lemma spread_NoDup (ps : list (string * jval)) src :
  wf_props ps → wf_props (spread ps src).
Proof.
  unfold wf_props, spread. generalize (own_props src) as l. intros l.
  revert ps. induction l as [|kv l IH]; intros ps Hnd; simpl; [done|].
  apply IH. by apply alist_set_NoDup.
Qed.

(** ** ToString and the comparison [v > 0]

    A character of a [string] stands for the UTF-16 code unit of the same
    value (U+0000 to U+00FF). *)

(** ToString, [None] where it throws: values parsed from JSON have
    [Object.prototype], so an object converts to ["[object Object]"]
    unless it has an own [toString] property, which is not callable
    (OrdinaryToPrimitive then throws a TypeError, whichever of [valueOf]
    and [toString] it tries first); an array joins its elements with
    commas, [null] and [undefined] giving [""]. *)
Fixpoint to_str (v : jval) : option string :=
  match v with
  | JUndefined => Some "undefined"
  | JNull => Some "null"
  | JBool b => Some (if b then "true" else "false")
  | JNum n => Some (NilEmpty.string_of_int (Z.to_int n))
  | JStr s => Some s
  | JArr xs =>
      String.concat "," <$>
        (fix items (l : list jval) : option (list string) :=
           match l with
           | [] => Some []
           | x :: l' =>
               let sx := match x with JUndefined | JNull => Some "" | _ => to_str x end in
               match sx, items l' with Some s, Some ss => Some (s :: ss) | _, _ => None end
           end) xs
  | JObj ps => match alist_get "toString" ps with Some _ => None | None => Some "[object Object]" end
  end.

(** [`${v}`] where ToString does not throw ([index.js] applies it to
    [PORT], a string or a number). *)
Definition to_string (v : jval) : string := default "" (to_str v).

(** StrWhiteSpaceChar below U+0100: TAB, LF, VT, FF, CR, SP, NBSP. *)
Definition js_space (a : ascii) : bool :=
  bool_decide (nat_of_ascii a ∈ [9; 10; 11; 12; 13; 32; 160]%nat).

Fixpoint trim_start (l : list ascii) : list ascii :=
  match l with a :: l' => if js_space a then trim_start l' else l | [] => [] end.

Definition trim (l : list ascii) : list ascii := reverse (trim_start (reverse (trim_start l))).

Definition chr (n : nat) : ascii := ascii_of_nat n.

(** The value of a digit in [base] (2, 8, 10 or 16). *)
Definition digit_val (base : nat) (a : ascii) : option nat :=
  let n := nat_of_ascii a in
  let d := if (48 <=? n) && (n <=? 57) then Some (n - 48)
           else if (97 <=? n) && (n <=? 102) then Some (n - 87)
           else if (65 <=? n) && (n <=? 70) then Some (n - 55) else None in
  match d with Some v => if v <? base then Some v else None | None => None end.

(** The longest prefix of digits, their values, and the rest. *)
Fixpoint span_digits (base : nat) (l : list ascii) : list nat * list ascii :=
  match l with
  | a :: l' => match digit_val base a with
               | Some d => let '(ds, r) := span_digits base l' in (d :: ds, r)
               | None => ([], l)
               end
  | [] => ([], [])
  end.

Definition digits_Z (ds : list nat) : Z := foldl (λ acc d, 10 * acc + Z.of_nat d)%Z 0%Z ds.

(** ExponentPart, or nothing: [Some e]; anything else left over: [None]. *)
Definition exponent (l : list ascii) : option Z :=
  match l with
  | [] => Some 0%Z
  | e :: r =>
      if (nat_of_ascii e =? 101) || (nat_of_ascii e =? 69) then
        let '(neg, r1) := match r with
                          | s :: r' => if nat_of_ascii s =? 45 then (true, r')
                                       else if nat_of_ascii s =? 43 then (false, r') else (false, r)
                          | [] => (false, r)
                          end in
        match span_digits 10 r1 with
        | ((_ :: _) as ds, []) => Some (if neg then - digits_Z ds else digits_Z ds)%Z
        | _ => None
        end
      else None
  end.

(** A positive decimal [M × 10^k] stays positive as a Number unless it is
    at most half the least subnormal, 2^-1075, and rounds to +0. *)
Definition survives_rounding (ds : list nat) (k : Z) : bool :=
  let m := digits_Z ds in
  if (m =? 0)%Z then false
  else if (0 <=? k)%Z then true
  else if (Z.of_nat (length ds) + 324 <? - k)%Z then false
  else (10 ^ (- k) <? m * 2 ^ 1075)%Z.

(** StrDecimalLiteral: an optional sign, then [Infinity] or digits with an
    optional fraction and exponent; [true] when its value is above 0. *)
Definition decimal_positive (l : list ascii) : bool :=
  let '(neg, l1) := match l with
                    | s :: r => if nat_of_ascii s =? 45 then (true, r)
                                else if nat_of_ascii s =? 43 then (false, r) else (false, l)
                    | [] => (false, l)
                    end in
  if String.eqb (String.string_of_list_ascii l1) "Infinity" then negb neg
  else
    let '(ip, l2) := span_digits 10 l1 in
    let '(fp, l3) := match l2 with
                     | d :: r => if nat_of_ascii d =? 46 then span_digits 10 r else ([], l2)
                     | [] => ([], l2)
                     end in
    if bool_decide (ip = [] ∧ fp = []) then false
    else match exponent l3 with
         | Some e => negb neg && survives_rounding (ip ++ fp) (e - Z.of_nat (length fp))
         | None => false
         end.

(** NonDecimalIntegerLiteral ([0x], [0o], [0b] and digits, no sign):
    [Some] its positivity, [None] when the string does not start so. *)
Definition nondecimal_positive (l : list ascii) : option bool :=
  match l with
  | z :: c :: r =>
      if nat_of_ascii z =? 48 then
        let c' := nat_of_ascii c in
        let base := if (c' =? 120) || (c' =? 88) then 16
                    else if (c' =? 111) || (c' =? 79) then 8
                    else if (c' =? 98) || (c' =? 66) then 2 else 0 in
        if base =? 0 then None
        else Some (match span_digits base r with
                   | ((_ :: _) as ds, []) => existsb (λ d, negb (d =? 0)) ds
                   | _ => false
                   end)
      else None
  | _ => None
  end.

(** StringToNumber(s) > 0; the empty string is 0 and an ill-formed one NaN. *)
Definition str_positive (s : string) : bool :=
  let l := trim (String.list_ascii_of_string s) in
  match nondecimal_positive l with
  | Some b => b
  | None => decimal_positive l
  end.

(** [v > 0]: IsLessThan(0, v) converts [v] by ToPrimitive (hint number)
    and ToNumber; [None] when that throws. *)
Definition gt_zero (v : jval) : option bool :=
  match v with
  | JUndefined => Some false
  | JNull => Some false
  | JBool b => Some b
  | JNum n => Some (0 <? n)%Z
  | JStr s => Some (str_positive s)
  | JArr _ | JObj _ => str_positive <$> to_str v
  end.

Lemma or_truthy a b : truthy a = true → or a b = a.
Proof. unfold or. by intros ->. Qed.

Lemma or_falsy a b : truthy a = false → or a b = b.
Proof. unfold or. by intros ->. Qed.

End Js.

#[export] Hint Resolve Js.spread_NoDup : nsocial.
