(* ===== verification/Form.v ===== *)
(** * Form: the react-hook-form behaviour the two authentication pages rely on

    [Login.jsx] and [Register.jsx] call [useForm({ mode: "onChange" })],
    [register(name, rules)] for every input and [handleSubmit(onSubmit)] on
    the form.  This file models that library contract: a form is a list of
    registered fields with their rules; [handle_submit] validates every
    field in registration order and calls the submit callback with the
    values object only when no field has an error; in [onChange] mode a
    change re-validates the changed field only.  A [required] rule fails on
    the empty string (a string of blanks passes); a [validate] function
    returns an error message or nothing. *)

From S2P Require Import Prelude Js.
From stdpp Require Import base list strings sets.

Module Form.

Definition values := list (string * string).

Record field := mk_field {
  fname : string;
  required : option string;
  validate : option (values → string → option string)
}.

(** A field error: the rule that failed ([type]) and its [message]. *)
Record error := mk_error {
  etype : string;
  message : string
}.

Record state := mk_state {
  vals : values;
  errors : list (string * error)
}.

(** An input that was never typed in holds the empty string. *)
Definition value_of (vs : values) (name : string) : string :=
  default "" (alist_get name vs).

Definition init (fs : list field) : state :=
  mk_state ((λ f, (fname f, "")) <$> fs) [].

(** The first failing rule of a field: [required] is checked before
    [validate]. *)
Definition validate_field (vs : values) (f : field) : option error :=
  let v := value_of vs (fname f) in
  let by_validate :=
    match validate f with Some g => mk_error "validate" <$> g vs v | None => None end in
  match required f with
  | Some msg => if String.eqb v "" then Some (mk_error "required" msg) else by_validate
  | None => by_validate
  end.

Fixpoint validate_all (vs : values) (fs : list field) : list (string * error) :=
  match fs with
  | [] => []
  | f :: fs' =>
      match validate_field vs f with
      | Some msg => (fname f, msg) :: validate_all vs fs'
      | None => validate_all vs fs'
      end
  end.

(** The object handed to [onSubmit]: every registered field, as a string. *)
Definition data (fs : list field) (vs : values) : jval :=
  JObj ((λ f, (fname f, JStr (value_of vs (fname f)))) <$> fs).

(** [handleSubmit(onSubmit)]: the new form state, and the data passed to
    [onSubmit] when validation succeeds. *)
Definition handle_submit (fs : list field) (s : state) : state * option jval :=
  match validate_all (vals s) fs with
  | [] => (mk_state (vals s) [], Some (data fs (vals s)))
  | errs => (mk_state (vals s) errs, None)
  end.

Definition clear_error (name : string) (errs : list (string * error)) :=
  filter (λ kv, kv.1 ≠ name) errs.

(** An input event in [mode: "onChange"]: store the value, re-validate
    that field alone. *)
Definition on_change (fs : list field) (name v : string) (s : state) : state :=
  let vs := alist_set name v (vals s) in
  match list_find (λ f, fname f = name) fs with
  | Some (_, f) =>
      match validate_field vs f with
      | Some msg => mk_state vs (alist_set name msg (errors s))
      | None => mk_state vs (clear_error name (errors s))
      end
  | None => mk_state vs (errors s)
  end.

(** [errors.name?.message] and [errors.name?.type]. *)
Definition error_of (s : state) (name : string) : option string :=
  message <$> alist_get name (errors s).

Definition error_type (s : state) (name : string) : option string :=
  etype <$> alist_get name (errors s).

(** ** Lemmas *)

Lemma validate_all_nil_iff vs fs :
  validate_all vs fs = [] ↔ Forall (λ f, validate_field vs f = None) fs.
Proof.
  induction fs as [|f fs IH]; simpl; [split; auto|].
  rewrite Forall_cons. destruct (validate_field vs f); [split; [done|intros [? _]; done]|].
  rewrite IH. naive_solver.
Qed.

Lemma handle_submit_ok fs s d :
  (handle_submit fs s).2 = Some d →
  d = data fs (vals s) ∧ Forall (λ f, validate_field (vals s) f = None) fs.
Proof.
  unfold handle_submit. destruct (validate_all (vals s) fs) eqn:E; simpl; [|done].
  intros [= <-]. split; [done|]. by apply validate_all_nil_iff.
Qed.

Lemma handle_submit_vals fs s : vals (handle_submit fs s).1 = vals s.
Proof. unfold handle_submit. by destruct (validate_all _ _). Qed.

Lemma value_of_set_eq vs name v : value_of (alist_set name v vs) name = v.
Proof. unfold value_of. by rewrite alist_get_set_eq. Qed.

Lemma value_of_set_ne vs name name' v :
  name ≠ name' → value_of (alist_set name v vs) name' = value_of vs name'.
Proof. intros Hne. unfold value_of. by rewrite alist_get_set_ne. Qed.

Lemma on_change_vals fs name v s : vals (on_change fs name v s) = alist_set name v (vals s).
Proof. unfold on_change. by repeat case_match. Qed.

(** A change re-validates only the changed field: every other field
    keeps the error it had. *)
Lemma on_change_error_other fs name v s k :
  k ≠ name → alist_get k (errors (on_change fs name v s)) = alist_get k (errors s).
Proof.
  intros Hk. unfold on_change. repeat case_match; simpl; try done.
  - by apply alist_get_set_ne.
  - unfold clear_error. rewrite alist_get_filter_key. by case_decide.
Qed.

(** ** Every stored error is one a rule of its field produces *)

Definition errors_wf (fs : list field) (st : state) : Prop :=
  ∀ k e, alist_get k (errors st) = Some e →
         ∃ f vs, f ∈ fs ∧ fname f = k ∧ validate_field vs f = Some e.

Lemma errors_wf_init fs : errors_wf fs (init fs).
Proof. done. Qed.

Lemma validate_all_get vs fs k e :
  alist_get k (validate_all vs fs) = Some e → ∃ f, f ∈ fs ∧ fname f = k ∧ validate_field vs f = Some e.
Proof.
  induction fs as [|f fs IH]; simpl; [done|].
  destruct (validate_field vs f) as [e'|] eqn:Hv; simpl.
  - case_decide; [intros [= <-]; subst; exists f; split; [left|done]|].
    intros (f' & ? & ? & ?)%IH. exists f'. split; [right|]; done.
  - intros (f' & ? & ? & ?)%IH. exists f'. split; [right|]; done.
Qed.

Lemma handle_submit_errors_wf fs st : errors_wf fs (handle_submit fs st).1.
Proof.
  unfold handle_submit. destruct (validate_all _ _) as [|kv l] eqn:E; simpl; [done|].
  intros k e Hk. rewrite <-E in Hk. apply validate_all_get in Hk as (f & ? & ? & ?). by exists f, (vals st).
Qed.

Lemma on_change_errors_wf fs name v st :
  errors_wf fs st → errors_wf fs (on_change fs name v st).
Proof.
  intros Hwf. unfold on_change.
  destruct (list_find _ _) as [[i f]|] eqn:Hf; [|done].
  apply list_find_Some in Hf as (Hi & Hname & _). apply list_elem_of_lookup_2 in Hi.
  destruct (validate_field _ f) as [e'|] eqn:Hv; intros k e; simpl.
  - destruct (decide (k = name)) as [->|Hne].
    + rewrite alist_get_set_eq. intros [= <-]. by exists f, (alist_set name v (vals st)).
    + rewrite alist_get_set_ne by done. apply Hwf.
  - unfold clear_error. rewrite alist_get_filter_key. case_decide; [done|]. apply Hwf.
Qed.

End Form.

#[export] Hint Rewrite Form.value_of_set_eq Form.on_change_vals : nsocial_rw.
