(* ===== verification/Pages.v ===== *)
(** * Pages: the rendering decisions shared by the authentication pages

    [Login.jsx] and [Register.jsx] render the same two fragments below
    their inputs: the message alert [{errMsg?.message && <span ...>}],
    coloured red when [errMsg?.status === "failed"] and green otherwise,
    and the submit area [{isSubmitting ? <Loading/> : <CustomButton/>}].
    Both pages also render their inputs as [<TextInput/>] elements with an
    [error] prop computed from the form's [errors], and links.  The views
    are data: what React puts on screen for a given state. *)

From S2P Require Import Prelude Js Form.
From stdpp Require Import base list strings.
From Stdlib Require Import ZArith.

Module Pages.

(** What [{cond && <span/>}] renders: nothing for [undefined], [null],
    [false] and [""]; the number [0] itself as text; the span otherwise. *)
Inductive alert :=
| NoAlert
| RawText (text : string)
| Alert (red : bool) (message : jval).

Definition alert_view (errMsg : jval) : alert :=
  let m := Js.oget errMsg "message" in
  if Js.truthy m then Alert (Js.is_str (Js.oget errMsg "status") "failed") m
  else match m with JNum 0%Z => RawText "0" | _ => NoAlert end.

Inductive submit_area :=
| ShowLoading
| ShowButton (title : string).

Definition submit_view (isSubmitting : bool) (title : string) : submit_area :=
  if isSubmitting then ShowLoading else ShowButton title.

(** The props of a [<TextInput/>] that decide what it shows: [name]
    (absent on some inputs), [label], [placeholder], [type], the field
    its [register(...)] binds, and the [error] text. *)
Record text_input := mk_input {
  iname : option string;
  label : string;
  placeholder : string;
  itype : string;
  binds : string;
  error_text : string
}.

(** [errors.f ? errors.f.message : ""]: an error object is truthy. *)
Definition message_or_empty (fs : Form.state) (f : string) : string :=
  match alist_get f (Form.errors fs) with Some e => Form.message e | None => "" end.

(** A form page: heading, inputs in order, the alert, the submit area and
    the [<Link to=...>] targets with their text. *)
Record form_view := mk_form_view {
  heading : string;
  subheading : option string;
  inputs : list text_input;
  alert_area : alert;
  submit : submit_area;
  links : list (string * string)
}.

(** The decorative column: the image's [alt], the three badges over it
    and the two lines of text under it. *)
Record side_panel := mk_panel {
  image_alt : string;
  badges : list string;
  tagline : string;
  subtitle : string
}.

(** A whole page: the name beside the logo, whether the row is
    [flex-row-reverse] (form column on the right), the form column and the
    decorative column. *)
Record page := mk_page {
  brand : string;
  reversed : bool;
  form_col : form_view;
  panel : side_panel
}.

Lemma alert_view_initial : alert_view (JStr "") = NoAlert.
Proof. reflexivity. Qed.

Lemma submit_view_button b t t' : submit_view b t = ShowButton t' → b = false.
Proof. unfold submit_view. by destruct b. Qed.

End Pages.
