(* ===== verification/LoginPage.v ===== *)
(** * LoginPage: [src/project/src/pages/Login.jsx]

    The page keeps [errMsg] (initially [""]) and [isSubmitting] in React
    state, a react-hook-form over [email] and [password], and talks to two
    outside parties: the API ([apiRequest] to [/auth/login]) and the redux
    store ([dispatch(UserLogin(newData))]), then leaves for ["/"] with
    [window.location.replace].  [onSubmit] is split at its [await]: the
    [Submit] event runs it up to the request, [Response res] resumes it
    with the resolved value, [Failure] with a rejection (the [catch]).
    [view] and [page] give what the page renders. *)

From S2P Require Import Prelude Js Form Pages.
From stdpp Require Import base list strings sets.

Module LoginPage.

Definition path : string := "/login".

(** [register("email", { required: ... })], [register("password", ...)] *)
Definition fields : list Form.field :=
  [ Form.mk_field "email" (Some "Email Address is required!") None;
    Form.mk_field "password" (Some "Password is required!") None ].

Record state := mk_state {
  form : Form.state;
  errMsg : jval;
  isSubmitting : bool;
  pending : option jval;        (** body of the request awaiting its answer *)
  user : option jval;           (** what [UserLogin] put in the redux store *)
  location : string
}.

Definition init : state :=
  mk_state (Form.init fields) (JStr "") false None None path.

Inductive event :=
| Change (name value : string)
| Submit
| Response (res : jval)
| Failure.

(** [{ token: res?.token, ...res?.user }] *)
Definition newData (res : jval) : jval :=
  JObj (Js.spread [("token", Js.oget res "token")] (Js.oget res "user")).

(** [onSubmit] up to its [await]: [setIsSubmitting(true)], [setErrMsg("")],
    then [apiRequest({ url: "/auth/login", data, method: "POST" })]. *)
Definition onSubmit (s : state) (data : jval) : state :=
  mk_state (form s) (JStr "") true (Some data) (user s) (location s).

(** The continuation of [onSubmit] once [apiRequest] resolves. *)
Definition onResponse (s : state) (res : jval) : state :=
  if Js.is_str (Js.oget res "status") "failed"
  then mk_state (form s) res false None (user s) (location s)
  else mk_state (form s) (JStr "") false None (Some (newData res)) "/".

(** The [catch]: [console.log(error)], [setIsSubmitting(false)]. *)
Definition onFailure (s : state) : state :=
  mk_state (form s) (errMsg s) false None (user s) (location s).

(** [handleSubmit(onSubmit)] *)
Definition submit (s : state) : state :=
  match Form.handle_submit fields (form s) with
  | (f, Some data) => onSubmit (mk_state f (errMsg s) (isSubmitting s) (pending s) (user s) (location s)) data
  | (f, None) => mk_state f (errMsg s) (isSubmitting s) (pending s) (user s) (location s)
  end.

Definition change (s : state) (name v : string) : state :=
  mk_state (Form.on_change fields name v (form s)) (errMsg s) (isSubmitting s)
    (pending s) (user s) (location s).

(** Events are enabled while the page is loaded; the submit button
    exists only when the submit area shows it; an answer needs a request. *)
Definition step (s : state) (e : event) : option state :=
  if decide (location s = path) then
    match e with
    | Change name v => Some (change s name v)
    | Submit =>
        match Pages.submit_view (isSubmitting s) "Login" with
        | Pages.ShowButton _ => Some (submit s)
        | Pages.ShowLoading => None
        end
    | Response res => match pending s with Some _ => Some (onResponse s res) | None => None end
    | Failure => match pending s with Some _ => Some (onFailure s) | None => None end
    end
  else None.


(** The left column as rendered: the heading, the two inputs with their
    [error] props, the [Forgot Password ?] link, the alert, the submit area
    and the [Create Account] link. *)
Definition view (s : state) : Pages.form_view :=
  Pages.mk_form_view "Log in to your account" (Some "Welcome back,")
    [ Pages.mk_input (Some "email") "Email Address" "email@example.com" "email" "email"
        (Pages.message_or_empty (form s) "email");
      Pages.mk_input (Some "password") "Password" "Password" "password" "password"
        (Pages.message_or_empty (form s) "password") ]
    (Pages.alert_view (errMsg s)) (Pages.submit_view (isSubmitting s) "Login")
    [("/reset-password", "Forgot Password ?"); ("/register", "Create Account")].

(** The right column, lines 144-173. *)
Definition right_panel : Pages.side_panel :=
  Pages.mk_panel "Bg Image" ["Share"; "Connect"; "Interact"]
    "Connect with friedns & have share for fun" "Share memories with friends and the world.".

(** The page: the [NBOOK] logo over the form column on the left, the
    decorative column on the right. *)
Definition page (s : state) : Pages.page := Pages.mk_page "NBOOK" false (view s) right_panel.

(** ** Properties *)

Definition single_flight (s : state) : Prop :=
  isSubmitting s = true ↔ pending s ≠ None.

Lemma submit_single_flight s : single_flight s → single_flight (submit s).
Proof.
  unfold submit, single_flight. destruct (Form.handle_submit _ _) as [f [d|]]; simpl; [|done].
  split; [done|auto].
Qed.

Lemma step_single_flight s e s' :
  single_flight s → step s e = Some s' → single_flight s'.
Proof.
  unfold step. intros Hinv Hs. case_decide; [|done].
  destruct e; simpl in Hs.
  - simplify_eq. exact Hinv.
  - revert Hs. repeat case_match; intros Hs; simplify_eq. by apply submit_single_flight.
  - destruct (pending s); simplify_eq. unfold onResponse.
    destruct (Js.is_str _ _); split; simpl; done.
  - destruct (pending s); simplify_eq. split; simpl; done.
Qed.

(** At most one login request is in flight: in every reachable state the
    page shows its spinner exactly when a request awaits its answer. *)
Theorem login_single_flight s :
  reachable step init s → isSubmitting s = true ↔ pending s ≠ None.
Proof.
  apply (reachable_invariant step single_flight); [|exact step_single_flight].
  split; simpl; done.
Qed.


(** C4: No second login request can be sent while one is in flight: the
    submit button is not rendered, so [Submit] is not enabled. *)
Theorem login_no_double_submit s :
  reachable step init s → pending s ≠ None → step s Submit = None.
Proof.
  intros Hr Hp. apply login_single_flight in Hr. apply Hr in Hp.
  unfold step. case_decide; [|done]. by rewrite Hp.
Qed.

(** C31: A response whose [status] is the string ["failed"] is shown as the
    error message; the user is not logged in and the page stays. *)
Theorem login_response_failed s d res :
  location s = path → pending s = Some d →
  Js.is_str (Js.oget res "status") "failed" = true →
  step s (Response res) = Some (mk_state (form s) res false None (user s) path).
Proof.
  intros Hl Hp Hf. unfold step. rewrite decide_True by done. rewrite Hp.
  unfold onResponse. by rewrite Hf, Hl.
Qed.

(** C2: Any other resolved value, whatever its shape, logs the user in:
    [newData] goes to the store and the page leaves for ["/"]. *)
Theorem login_response_accepted s d res :
  location s = path → pending s = Some d →
  Js.is_str (Js.oget res "status") "failed" = false →
  step s (Response res) = Some (mk_state (form s) (JStr "") false None (Some (newData res)) "/").
Proof.
  intros Hl Hp Hf. unfold step. rewrite decide_True by done. rewrite Hp.
  unfold onResponse. by rewrite Hf.
Qed.

(** C27: The stored user object carries every property of [res.user] with
    its value, and the session token of [res.token] unless [res.user]
    has a [token] property of its own, which then wins. *)
Theorem newData_props res ups :
  Js.oget res "user" = JObj ups → Js.wf_props ups →
  (∀ k v, alist_get k ups = Some v → Js.prop (newData res) k = v) ∧
  ("token" ∉ ups.*1 → Js.prop (newData res) "token" = Js.oget res "token").
Proof.
  intros Hu Hwf. unfold newData, Js.prop. rewrite Hu. split.
  - intros k v Hk. by rewrite (Js.spread_get_in k v _ (JObj ups)).
  - intros Hn. rewrite (Js.spread_get_notin "token" _ (JObj ups)) by done.
    done.
Qed.

Lemma validate_fields_ok vs :
  Form.value_of vs "email" ≠ "" → Form.value_of vs "password" ≠ "" →
  Form.validate_all vs fields = [].
Proof.
  intros He Hp. unfold fields. simpl. unfold Form.validate_field. simpl.
  by rewrite (proj2 (String.eqb_neq _ _) He), (proj2 (String.eqb_neq _ _) Hp).
Qed.

(** A valid submit, and the answer to a pending request. *)
Lemma login_submit_step s em pw :
  location s = path → isSubmitting s = false →
  Form.value_of (Form.vals (form s)) "email" = em → em ≠ "" →
  Form.value_of (Form.vals (form s)) "password" = pw → pw ≠ "" →
  step s Submit =
    Some (mk_state (Form.mk_state (Form.vals (form s)) []) (JStr "") true
            (Some (JObj [("email", JStr em); ("password", JStr pw)])) (user s) path).
Proof.
  intros Hl Hs He Hem Hp Hpw. subst em pw.
  unfold step. rewrite decide_True by done. rewrite Hs. simpl.
  unfold submit, Form.handle_submit. rewrite validate_fields_ok by done.
  simpl. by rewrite Hl.
Qed.

(** C30: With both inputs non-empty, [Submit] sends exactly
    [{ email, password }] as typed, clears the message and shows the
    spinner. *)
Theorem login_submit_sends s em pw :
  location s = path → isSubmitting s = false →
  Form.value_of (Form.vals (form s)) "email" = em → em ≠ "" →
  Form.value_of (Form.vals (form s)) "password" = pw → pw ≠ "" →
  step s Submit =
    Some (mk_state (Form.mk_state (Form.vals (form s)) []) (JStr "") true
            (Some (JObj [("email", JStr em); ("password", JStr pw)])) (user s) path).
Proof. apply login_submit_step. Qed.

Lemma login_response_step s d res :
  location s = path → pending s = Some d → step s (Response res) = Some (onResponse s res).
Proof. intros Hl Hp. unfold step. rewrite decide_True by done. by rewrite Hp. Qed.

(** C37: With an empty email, [Submit] sends nothing and the email input
    shows ["Email Address is required!"]. *)
Theorem login_submit_requires_email s :
  location s = path → isSubmitting s = false →
  Form.value_of (Form.vals (form s)) "email" = "" →
  ∃ s', step s Submit = Some s' ∧ pending s' = pending s ∧
        isSubmitting s' = false ∧
        Form.error_of (form s') "email" = Some "Email Address is required!".
Proof.
  intros Hl Hs He. unfold step. rewrite decide_True by done. rewrite Hs. simpl.
  eexists; split; [reflexivity|].
  unfold submit, Form.handle_submit. simpl. unfold Form.validate_field. simpl.
  rewrite He. simpl. destruct (String.eqb _ _); simpl; rewrite ?Hs; repeat split; done.
Qed.
(** ** What the inputs display *)

Lemma submit_form s : form (submit s) = (Form.handle_submit fields (form s)).1.
Proof. unfold submit. by destruct (Form.handle_submit _ _) as [f [d|]]. Qed.

Lemma step_errors_wf s e s' :
  Form.errors_wf fields (form s) → step s e = Some s' → Form.errors_wf fields (form s').
Proof.
  unfold step. intros Hwf Hs. case_decide; [|done].
  destruct e; repeat case_match; simplify_eq;
    first [done | by apply Form.on_change_errors_wf
          | rewrite submit_form; apply Form.handle_submit_errors_wf
          | unfold onResponse; by case_match].
Qed.

(** An error of a login input is the [required] message of that input. *)
Lemma errors_wf_message st f :
  Form.errors_wf fields st →
  Pages.message_or_empty st f = "" ∨
  (f = "email" ∧ Pages.message_or_empty st f = "Email Address is required!") ∨
  (f = "password" ∧ Pages.message_or_empty st f = "Password is required!").
Proof.
  intros Hwf. unfold Pages.message_or_empty.
  destruct (alist_get f (Form.errors st)) as [e|] eqn:He; [|by left].
  destruct (Hwf _ _ He) as (fd & vs & Hin & <- & Hv). right.
  unfold fields in Hin. repeat (apply elem_of_cons in Hin as [->|Hin]); [..|by apply elem_of_nil in Hin];
    unfold Form.validate_field in Hv; simpl in Hv; destruct (String.eqb _ _); simplify_eq;
    [left|right]; done.
Qed.

(** C14: In every reachable state of the login page, the email input shows
    no error or ["Email Address is required!"], and the password input no
    error or ["Password is required!"]: no other text can appear there. *)
Theorem login_input_errors s :
  reachable step init s →
  ∃ ie ip, Pages.inputs (view s) = [ie; ip] ∧
    Pages.binds ie = "email" ∧ Pages.error_text ie ∈ [""; "Email Address is required!"] ∧
    Pages.binds ip = "password" ∧ Pages.error_text ip ∈ [""; "Password is required!"].
Proof.
  intros Hr. assert (Hwf : Form.errors_wf fields (form s)).
  { apply (reachable_invariant step (λ s, Form.errors_wf fields (form s)) init); [done| |done].
    intros ???. apply step_errors_wf. }
  pose proof (errors_wf_message _ "email" Hwf) as He.
  pose proof (errors_wf_message _ "password" Hwf) as Hp.
  do 2 eexists. split; [reflexivity|]. simpl. rewrite !list_elem_of_In. simpl.
  split; [done|]. split; [destruct He as [->|[[_ ->]|[? _]]]; [tauto|tauto|done]|].
  split; [done|]. destruct Hp as [->|[[? _]|[_ ->]]]; [tauto|done|tauto].
Qed.

(** ** Witnesses, on the scenario of the specification (alice logs in) *)

Definition scenario : list event :=
  [Change "email" "alice@x.com"; Change "password" "pw123456"; Submit].

Definition typed : state := change (change init "email" "alice@x.com") "password" "pw123456".

Definition sent : state := submit typed.

Lemma scenario_run : run step init scenario = Some sent.
Proof. reflexivity. Qed.

Lemma login_no_double_submit_witness :
  reachable step init sent ∧ pending sent ≠ None ∧ step sent Submit = None.
Proof.
  assert (Hr : reachable step init sent) by (apply (run_reachable step init scenario); reflexivity).
  assert (Hp : pending sent ≠ None) by (vm_compute; discriminate).
  split; [exact Hr|]. split; [exact Hp|]. exact (login_no_double_submit sent Hr Hp).
Defined.

Lemma login_single_flight_witness :
  reachable step init sent ∧ (isSubmitting sent = true ↔ pending sent ≠ None).
Proof.
  assert (Hr : reachable step init sent) by (apply (run_reachable step init scenario); reflexivity).
  split; [exact Hr|]. exact (login_single_flight sent Hr).
Defined.

Definition failed_res : jval :=
  JObj [("status", JStr "failed"); ("message", JStr "Invalid email or password")].

Lemma login_response_failed_witness :
  step sent (Response failed_res) =
    Some (mk_state (form sent) failed_res false None None path).
Proof.
  apply (login_response_failed sent
           (JObj [("email", JStr "alice@x.com"); ("password", JStr "pw123456")]));
    reflexivity.
Defined.

(** An error answer whose [status] is the boolean [false] rather than the
    string ["failed"]. *)
Definition false_status_res : jval :=
  JObj [("status", JBool false); ("message", JStr "User not found")].

Lemma login_response_accepted_witness :
  step sent (Response false_status_res) =
    Some (mk_state (form sent) (JStr "") false None
            (Some (JObj [("token", JUndefined)])) "/").
Proof.
  apply (login_response_accepted sent
           (JObj [("email", JStr "alice@x.com"); ("password", JStr "pw123456")]));
    reflexivity.
Defined.

Definition ok_res : jval :=
  JObj [("success", JBool true); ("token", JStr "t0k3n");
        ("user", JObj [("_id", JStr "u1"); ("firstName", JStr "Alice")])].

Lemma newData_props_witness :
  Js.prop (newData ok_res) "firstName" = JStr "Alice" ∧
  Js.prop (newData ok_res) "token" = JStr "t0k3n".
Proof.
  destruct (newData_props ok_res [("_id", JStr "u1"); ("firstName", JStr "Alice")])
    as [Hall Htok].
  - reflexivity.
  - unfold Js.wf_props. simpl. repeat constructor; set_solver.
  - split; [apply Hall; reflexivity|]. apply Htok. simpl. set_solver.
Defined.

Lemma login_submit_sends_witness :
  step typed Submit =
    Some (mk_state (Form.mk_state (Form.vals (form typed)) []) (JStr "") true
            (Some (JObj [("email", JStr "alice@x.com"); ("password", JStr "pw123456")]))
            (user typed) path).
Proof.
  apply (login_submit_sends typed "alice@x.com" "pw123456"); try reflexivity; discriminate.
Defined.

Lemma login_submit_requires_email_witness :
  ∃ s', step (change init "password" "pw123456") Submit = Some s' ∧
        Form.error_of (form s') "email" = Some "Email Address is required!".
Proof.
  destruct (login_submit_requires_email (change init "password" "pw123456"))
    as (s' & Hs & _ & _ & He); try reflexivity.
  exists s'. split; [exact Hs|exact He].
Defined.

(** A well-formed value, checked by computation. *)
Lemma login_input_errors_witness :
  reachable step init (submit init) ∧
  ∃ ie ip, Pages.inputs (view (submit init)) = [ie; ip] ∧
    Pages.binds ie = "email" ∧ Pages.error_text ie ∈ [""; "Email Address is required!"] ∧
    Pages.binds ip = "password" ∧ Pages.error_text ip ∈ [""; "Password is required!"].
Proof.
  assert (Hr : reachable step init (submit init)) by (apply (run_reachable step init [Submit]); reflexivity).
  split; [exact Hr|]. exact (login_input_errors (submit init) Hr).
Defined.

End LoginPage.
