(* ===== verification/RegisterPage.v ===== *)
(** * RegisterPage: [src/project/src/pages/Register.jsx]

    The same structure as the login page: [errMsg], [isSubmitting], a
    react-hook-form over five inputs, [apiRequest] to [/auth/register].
    It differs in three ways the model keeps: [onSubmit] does not clear
    [errMsg] before sending; on success it shows the answer (green) and
    arms [setInterval(() => window.location.replace("/login"), 5000)], a
    repeating timer that nothing clears; the [cPassword] input has a
    [validate] rule comparing it with [password] via [getValues()]. *)

From S2P Require Import Prelude Js Form Pages.
From stdpp Require Import base list strings sets.

Module RegisterPage.

Definition path : string := "/register".

(** [validate: (value) => { const { password } = getValues();
    if (password != value) return "Passwords do no match"; }] *)
Definition cPassword_validate (vs : Form.values) (value : string) : option string :=
  if negb (String.eqb (Form.value_of vs "password") value)
  then Some "Passwords do no match" else None.

Definition fields : list Form.field :=
  [ Form.mk_field "firstName" (Some "First Name is required!") None;
    Form.mk_field "lastName" (Some "Last Name do no match") None;
    Form.mk_field "email" (Some "Email Address is required!") None;
    Form.mk_field "password" (Some "Password is required!") None;
    Form.mk_field "cPassword" None (Some cPassword_validate) ].

Record state := mk_state {
  form : Form.state;
  errMsg : jval;
  isSubmitting : bool;
  pending : option jval;
  intervals : nat;          (** armed [setInterval] redirects *)
  location : string
}.

Definition init : state := mk_state (Form.init fields) (JStr "") false None 0 path.

Inductive event :=
| Change (name value : string)
| Submit
| Response (res : jval)
| Failure
| IntervalFires.

(** [onSubmit] up to its [await]: [setIsSubmitting(true)] then the
    request; [errMsg] keeps whatever it showed. *)
Definition onSubmit (s : state) (data : jval) : state :=
  mk_state (form s) (errMsg s) true (Some data) (intervals s) (location s).

(** After [apiRequest] resolves: [setErrMsg(res)] on both branches, and
    on success one more interval; then [setIsSubmitting(false)]. *)
Definition onResponse (s : state) (res : jval) : state :=
  if Js.is_str (Js.oget res "status") "failed"
  then mk_state (form s) res false None (intervals s) (location s)
  else mk_state (form s) res false None (S (intervals s)) (location s).

Definition onFailure (s : state) : state :=
  mk_state (form s) (errMsg s) false None (intervals s) (location s).

(** The interval callback: [window.location.replace("/login")]; the
    interval itself stays armed. *)
Definition onInterval (s : state) : state :=
  mk_state (form s) (errMsg s) (isSubmitting s) (pending s) (intervals s) "/login".

Definition submit (s : state) : state :=
  match Form.handle_submit fields (form s) with
  | (f, Some data) => onSubmit (mk_state f (errMsg s) (isSubmitting s) (pending s) (intervals s) (location s)) data
  | (f, None) => mk_state f (errMsg s) (isSubmitting s) (pending s) (intervals s) (location s)
  end.

Definition change (s : state) (name v : string) : state :=
  mk_state (Form.on_change fields name v (form s)) (errMsg s) (isSubmitting s)
    (pending s) (intervals s) (location s).

Definition step (s : state) (e : event) : option state :=
  if decide (location s = path) then
    match e with
    | Change name v => Some (change s name v)
    | Submit =>
        match Pages.submit_view (isSubmitting s) "Create Account" with
        | Pages.ShowButton _ => Some (submit s)
        | Pages.ShowLoading => None
        end
    | Response res => match pending s with Some _ => Some (onResponse s res) | None => None end
    | Failure => match pending s with Some _ => Some (onFailure s) | None => None end
    | IntervalFires => if decide (0 < intervals s) then Some (onInterval s) else None
    end
  else None.

(** [errors.cPassword && errors.cPassword.type === "validate" ?
    errors.cPassword?.message : ""] *)
Definition confirm_error (fs : Form.state) : string :=
  match alist_get "cPassword" (Form.errors fs) with
  | Some e => if String.eqb (Form.etype e) "validate" then Form.message e else ""
  | None => ""
  end.

(** The form column as rendered.  The last-name and confirmation inputs
    have no [name] prop, and the last name's [type] is ["lastName"]. *)
Definition view (s : state) : Pages.form_view :=
  Pages.mk_form_view "Create your account" None
    [ Pages.mk_input (Some "firstName") "First Name" "First Name" "text" "firstName"
        (Pages.message_or_empty (form s) "firstName");
      Pages.mk_input None "Last Name" "Last Name" "lastName" "lastName"
        (Pages.message_or_empty (form s) "lastName");
      Pages.mk_input (Some "email") "Email Address" "email@example.com" "email" "email"
        (Pages.message_or_empty (form s) "email");
      Pages.mk_input (Some "password") "Password" "Password" "password" "password"
        (Pages.message_or_empty (form s) "password");
      Pages.mk_input None "Confirm Password" "Password" "password" "cPassword"
        (confirm_error (form s)) ]
    (Pages.alert_view (errMsg s)) (Pages.submit_view (isSubmitting s) "Create Account")
    [("/login", "Login")].

(** The right column, lines 178-207. *)
Definition right_panel : Pages.side_panel :=
  Pages.mk_panel "Bg Image" ["Share"; "Connect"; "Interact"]
    "Connect with friedns & have share for fun" "Share memories with friends and the world.".

(** The page: the row is [flex-row-reverse], so the form column with the
    [ShareFun] logo is on the right. *)
Definition page (s : state) : Pages.page := Pages.mk_page "ShareFun" true (view s) right_panel.

(** ** Properties *)

Ltac split_required :=
  repeat match goal with
  | |- context [String.eqb ?a ""] => destruct (String.eqb a "")
  end.

Lemma validate_all_confirm vs :
  Form.value_of vs "password" ≠ Form.value_of vs "cPassword" →
  alist_get "cPassword" (Form.validate_all vs fields) = Some (Form.mk_error "validate" "Passwords do no match").
Proof.
  intros Hne. unfold fields, Form.validate_all, Form.validate_field, cPassword_validate. simpl.
  rewrite (proj2 (String.eqb_neq _ _) Hne). simpl.
  split_required; reflexivity.
Qed.

Lemma validate_all_ok vs :
  Form.value_of vs "firstName" ≠ "" → Form.value_of vs "lastName" ≠ "" →
  Form.value_of vs "email" ≠ "" → Form.value_of vs "password" ≠ "" →
  Form.value_of vs "cPassword" = Form.value_of vs "password" →
  Form.validate_all vs fields = [].
Proof.
  intros H1 H2 H3 H4 H5. unfold fields, Form.validate_all, Form.validate_field, cPassword_validate. simpl.
  rewrite H5, String.eqb_refl.
  by rewrite (proj2 (String.eqb_neq _ _) H1), (proj2 (String.eqb_neq _ _) H2),
    (proj2 (String.eqb_neq _ _) H3), (proj2 (String.eqb_neq _ _) H4).
Qed.

(** C29: When the confirmation differs from the password, [Submit] sends
    nothing and the confirmation input shows ["Passwords do no match"]. *)
Theorem register_submit_mismatch s :
  location s = path → isSubmitting s = false →
  Form.value_of (Form.vals (form s)) "password" ≠ Form.value_of (Form.vals (form s)) "cPassword" →
  ∃ s', step s Submit = Some s' ∧ pending s' = pending s ∧
        Form.error_of (form s') "cPassword" = Some "Passwords do no match".
Proof.
  intros Hl Hs Hne. unfold step. rewrite decide_True by done. rewrite Hs. simpl.
  eexists; split; [reflexivity|]. unfold submit, Form.handle_submit.
  pose proof (validate_all_confirm _ Hne) as Hc.
  destruct (Form.validate_all _ _) eqn:E; [done|].
  split; [done|]. unfold Form.error_of. cbn [form Form.errors]. by rewrite Hc.
Qed.

(** The step a valid submit takes. *)
Lemma register_submit_step s :
  location s = path → isSubmitting s = false →
  let v := Form.value_of (Form.vals (form s)) in
  v "firstName" ≠ "" → v "lastName" ≠ "" → v "email" ≠ "" → v "password" ≠ "" →
  v "cPassword" = v "password" →
  step s Submit =
    Some (mk_state (Form.mk_state (Form.vals (form s)) []) (errMsg s) true
            (Some (JObj [("firstName", JStr (v "firstName")); ("lastName", JStr (v "lastName"));
                         ("email", JStr (v "email")); ("password", JStr (v "password"));
                         ("cPassword", JStr (v "password"))]))
            (intervals s) path).
Proof.
  intros Hl Hs v H1 H2 H3 H4 H5. unfold step. rewrite decide_True by done. rewrite Hs. simpl.
  unfold submit, Form.handle_submit. rewrite validate_all_ok by done.
  unfold v in H5. unfold Form.data. simpl. rewrite H5, Hl. reflexivity.
Qed.

(** C28: With every input filled in and the confirmation equal to the
    password, [Submit] sends all five inputs, [cPassword] included, and
    leaves the previous message on screen. *)
Theorem register_submit_sends s :
  location s = path → isSubmitting s = false →
  let v := Form.value_of (Form.vals (form s)) in
  v "firstName" ≠ "" → v "lastName" ≠ "" → v "email" ≠ "" → v "password" ≠ "" →
  v "cPassword" = v "password" →
  step s Submit =
    Some (mk_state (Form.mk_state (Form.vals (form s)) []) (errMsg s) true
            (Some (JObj [("firstName", JStr (v "firstName")); ("lastName", JStr (v "lastName"));
                         ("email", JStr (v "email")); ("password", JStr (v "password"));
                         ("cPassword", JStr (v "password"))]))
            (intervals s) path).
Proof. apply register_submit_step. Qed.

Lemma register_response_step s d res :
  location s = path → pending s = Some d →
  step s (Response res) =
    Some (mk_state (form s) res false None
            (if Js.is_str (Js.oget res "status") "failed" then intervals s else S (intervals s))
            path).
Proof.
  intros Hl Hp. unfold step. rewrite decide_True by done. rewrite Hp.
  unfold onResponse. rewrite Hl. by destruct (Js.is_str _ _).
Qed.

(** C36: Typing a confirmation that differs from the password, then
    changing the password to the same text, leaves "Passwords do no match"
    under a confirmation input that now matches, from any state of the
    page: in [onChange] mode a change re-validates only the changed
    input, and the [cPassword] rule has no dependency on [password]. *)
Theorem register_stale_confirm_error s c :
  location s = path → Form.value_of (Form.vals (form s)) "password" ≠ c →
  ∃ s1 s2, step s (Change "cPassword" c) = Some s1 ∧ step s1 (Change "password" c) = Some s2 ∧
           Form.value_of (Form.vals (form s2)) "password" = c ∧
           Form.value_of (Form.vals (form s2)) "cPassword" = c ∧
           confirm_error (form s2) = "Passwords do no match".
Proof.
  intros Hl Hp. do 2 eexists. split; [unfold step; by rewrite decide_True|].
  split; [unfold step; cbn [location change]; by rewrite decide_True|].
  cbn [change form]. rewrite !Form.on_change_vals, Form.value_of_set_eq.
  rewrite Form.value_of_set_ne, Form.value_of_set_eq by done. do 2 (split; [done|]).
  unfold confirm_error. rewrite Form.on_change_error_other by done.
  unfold Form.on_change. simpl. unfold Form.validate_field, cPassword_validate. simpl.
  rewrite Form.value_of_set_ne, Form.value_of_set_eq by done.
  rewrite (proj2 (String.eqb_neq _ _) Hp). simpl. by rewrite alist_get_set_eq.
Qed.

(** The answers of a run that the page accepts: [res?.status] is not
    ["failed"]. *)
Definition is_accepted (e : event) : bool :=
  match e with Response res => negb (Js.is_str (Js.oget res "status") "failed") | _ => false end.

Definition accepted (es : list event) : nat := length (filter (λ e, is_accepted e = true) es).

Definition armed_inv (s : state) : Prop := location s ≠ path → 0 < intervals s.

(** One step arms one interval per accepted answer and leaves only by an
    armed one. *)
Lemma step_intervals s e s' :
  armed_inv s → step s e = Some s' →
  intervals s' = intervals s + accepted [e] ∧ armed_inv s'.
Proof.
  unfold step, armed_inv, accepted. intros Hinv Hs. case_decide as Hl; [|done].
  rewrite filter_cons, filter_nil.
  destruct e; repeat case_match; simplify_eq;
    unfold submit, change, onResponse, onFailure, onInterval, is_accepted in *;
    repeat (case_match; simplify_eq); simpl in *;
    repeat case_decide; simpl in *; (split; [lia|]); intros; first [congruence | lia].
Qed.

Lemma accepted_cons e es : accepted (e :: es) = accepted [e] + accepted es.
Proof. unfold accepted. rewrite !filter_cons, filter_nil. case_decide; simpl; lia. Qed.

Lemma run_intervals s es s' :
  armed_inv s → run step s es = Some s' → intervals s' = intervals s + accepted es ∧ armed_inv s'.
Proof.
  revert s. induction es as [|e es IH]; intros s Hinv Hrun; simpl in Hrun.
  - simplify_eq. unfold accepted. simpl. split; [lia|done].
  - destruct (step s e) as [s1|] eqn:Hs; [|done].
    destruct (step_intervals _ _ _ Hinv Hs) as [H1 Hinv1].
    destruct (IH s1 Hinv1 Hrun) as [H2 Hinv2]. split; [|done].
    rewrite H2, H1, (accepted_cons e es). lia.
Qed.

(** C38: Whatever the visitor does, the page arms exactly one redirect
    timer per accepted answer, never clears one, and reaches ["/login"]
    only after an answer was accepted: a refused registration never
    redirects by itself. *)
Theorem register_redirect_after_success es s :
  run step init es = Some s →
  intervals s = accepted es ∧ (location s = "/login" → 0 < accepted es).
Proof.
  intros Hrun. destruct (run_intervals init es s) as [Hi Hinv]; [by intros []|done|].
  simpl in Hi. split; [exact Hi|]. intros Hl. rewrite <-Hi. apply Hinv. by rewrite Hl.
Qed.

Lemma validate_all_lastName vs :
  Form.value_of vs "lastName" = "" →
  alist_get "lastName" (Form.validate_all vs fields) = Some (Form.mk_error "required" "Last Name do no match").
Proof.
  intros He. unfold fields, Form.validate_all, Form.validate_field, cPassword_validate. simpl.
  rewrite He. simpl. split_required; simpl; repeat case_match; reflexivity.
Qed.

(** C13: Submitting with an empty last name blocks the request and shows,
    under the last-name input, the message the source gives its
    [required] rule: ["Last Name do no match"]. *)
Theorem register_lastName_message s :
  location s = path → isSubmitting s = false →
  Form.value_of (Form.vals (form s)) "lastName" = "" →
  ∃ s' i, step s Submit = Some s' ∧ pending s' = pending s ∧
          Pages.inputs (view s') !! 1 = Some i ∧ Pages.binds i = "lastName" ∧
          Pages.error_text i = "Last Name do no match".
Proof.
  intros Hl Hs He. unfold step. rewrite decide_True by done. rewrite Hs. simpl.
  unfold submit, Form.handle_submit.
  pose proof (validate_all_lastName _ He) as Hc.
  destruct (Form.validate_all _ _) eqn:E; [done|].
  do 2 eexists; split; [reflexivity|].
  split; [done|]. split; [reflexivity|]. split; [done|].
  unfold Pages.message_or_empty. cbn [form Form.errors]. by rewrite Hc.
Qed.

(** ** The error each input can show *)

Lemma register_submit_form s : form (submit s) = (Form.handle_submit fields (form s)).1.
Proof. unfold submit. by destruct (Form.handle_submit _ _) as [f [d|]]. Qed.

Lemma register_step_errors_wf s e s' :
  Form.errors_wf fields (form s) → step s e = Some s' → Form.errors_wf fields (form s').
Proof.
  unfold step. intros Hwf Hs. case_decide; [|done].
  destruct e; repeat case_match; simplify_eq;
    first [done | by apply Form.on_change_errors_wf
          | rewrite register_submit_form; apply Form.handle_submit_errors_wf
          | unfold onResponse; by case_match].
Qed.

(** A stored error is the [required] error of one of the four required
    inputs, or the [validate] error of the confirmation. *)
Lemma errors_wf_get st k e :
  Form.errors_wf fields st → alist_get k (Form.errors st) = Some e →
  (k = "firstName" ∧ e = Form.mk_error "required" "First Name is required!") ∨
  (k = "lastName" ∧ e = Form.mk_error "required" "Last Name do no match") ∨
  (k = "email" ∧ e = Form.mk_error "required" "Email Address is required!") ∨
  (k = "password" ∧ e = Form.mk_error "required" "Password is required!") ∨
  (k = "cPassword" ∧ e = Form.mk_error "validate" "Passwords do no match").
Proof.
  intros Hwf He. destruct (Hwf _ _ He) as (fd & vs & Hin & <- & Hv).
  unfold fields in Hin. repeat (apply elem_of_cons in Hin as [->|Hin]); [..|by apply elem_of_nil in Hin];
    unfold Form.validate_field, cPassword_validate in Hv; simpl in Hv; repeat case_match; simpl in Hv;
    simplify_eq; simpl; tauto.
Qed.

Lemma register_reachable_wf s : reachable step init s → Form.errors_wf fields (form s).
Proof.
  intros Hr. apply (reachable_invariant step (λ s, Form.errors_wf fields (form s)) init); [done| |done].
  intros ???. apply register_step_errors_wf.
Qed.

(** C18: In every reachable state of the register page the five inputs, in
    order, show no error or the one message of their rule: the four
    [required] messages (the last name's being "Last Name do no match")
    and, under the confirmation, "Passwords do no match". *)
Theorem register_input_errors s :
  reachable step init s →
  Forall2 (λ i be, Pages.binds i = be.1 ∧ Pages.error_text i ∈ [""; be.2]) (Pages.inputs (view s))
    [("firstName", "First Name is required!"); ("lastName", "Last Name do no match");
     ("email", "Email Address is required!"); ("password", "Password is required!");
     ("cPassword", "Passwords do no match")].
Proof.
  intros Hr%register_reachable_wf. unfold view, Pages.message_or_empty, confirm_error. cbn [Pages.inputs].
  repeat (apply Forall2_cons; split); [..|constructor]; cbn [Pages.binds Pages.error_text fst snd];
    (split; [done|]); repeat case_match; rewrite ?list_elem_of_In; simpl; auto;
    match goal with H : alist_get _ _ = Some _ |- _ => apply (errors_wf_get _ _ _ Hr) in H end;
    naive_solver.
Qed.

(** ** Witnesses: bob registers, as in the scenario of the specification *)

Definition typed (confirm : string) : state :=
  fold_left (λ st nv, change st nv.1 nv.2)
    [("firstName", "Bob"); ("lastName", "Builder"); ("email", "bob@x.com");
     ("password", "pw123456"); ("cPassword", confirm)] init.

Definition sent : state := submit (typed "pw123456").

Definition ok_res : jval :=
  JObj [("success", JBool true); ("message", JStr "Account created successfully")].

Lemma register_submit_mismatch_witness :
  ∃ s', step (typed "pw12345") Submit = Some s' ∧
        Form.error_of (form s') "cPassword" = Some "Passwords do no match".
Proof.
  destruct (register_submit_mismatch (typed "pw12345")) as (s' & Hs & _ & He);
    [reflexivity|reflexivity|vm_compute; discriminate|].
  exists s'. split; [exact Hs|exact He].
Defined.

Lemma register_submit_sends_witness :
  step (typed "pw123456") Submit =
    Some (mk_state (Form.mk_state (Form.vals (form (typed "pw123456"))) []) (JStr "") true
            (Some (JObj [("firstName", JStr "Bob"); ("lastName", JStr "Builder");
                         ("email", JStr "bob@x.com"); ("password", JStr "pw123456");
                         ("cPassword", JStr "pw123456")]))
            0 path).
Proof.
  apply (register_submit_sends (typed "pw123456")); try reflexivity; vm_compute; discriminate.
Defined.

(** Bob types a confirmation that differs, then the same password. *)
Lemma register_stale_confirm_error_witness :
  location init = path ∧ Form.value_of (Form.vals (form init)) "password" ≠ "pw123456" ∧
  ∃ s1 s2, step init (Change "cPassword" "pw123456") = Some s1 ∧
           step s1 (Change "password" "pw123456") = Some s2 ∧
           Form.value_of (Form.vals (form s2)) "password" = "pw123456" ∧
           Form.value_of (Form.vals (form s2)) "cPassword" = "pw123456" ∧
           confirm_error (form s2) = "Passwords do no match".
Proof.
  assert (Hl : location init = path) by reflexivity.
  assert (Hp : Form.value_of (Form.vals (form init)) "password" ≠ "pw123456") by discriminate.
  split; [exact Hl|]. split; [exact Hp|]. exact (register_stale_confirm_error init "pw123456" Hl Hp).
Defined.

(** Bob registers and the timer fires. *)
Definition bob_run : list event :=
  [Change "firstName" "Bob"; Change "lastName" "Builder"; Change "email" "bob@x.com";
   Change "password" "pw123456"; Change "cPassword" "pw123456"; Submit; Response ok_res; IntervalFires].

Lemma register_redirect_after_success_witness :
  ∃ s, run step init bob_run = Some s ∧ intervals s = accepted bob_run ∧
       (location s = "/login" → 0 < accepted bob_run).
Proof.
  destruct (run step init bob_run) as [s|] eqn:E; [|vm_compute in E; discriminate].
  exists s. split; [reflexivity|]. exact (register_redirect_after_success bob_run s E).
Defined.

Lemma register_lastName_message_witness :
  ∃ s' i, step init Submit = Some s' ∧ pending s' = pending init ∧
          Pages.inputs (view s') !! 1 = Some i ∧ Pages.binds i = "lastName" ∧
          Pages.error_text i = "Last Name do no match".
Proof. apply register_lastName_message; reflexivity. Defined.

(** Bob types a wrong confirmation: the confirmation input shows its error. *)
Lemma register_input_errors_witness :
  reachable step init (typed "nope") ∧
  Forall2 (λ i be, Pages.binds i = be.1 ∧ Pages.error_text i ∈ [""; be.2]) (Pages.inputs (view (typed "nope")))
    [("firstName", "First Name is required!"); ("lastName", "Last Name do no match");
     ("email", "Email Address is required!"); ("password", "Password is required!");
     ("cPassword", "Passwords do no match")].
Proof.
  assert (Hr : reachable step init (typed "nope")).
  { apply (run_reachable step init [Change "firstName" "Bob"; Change "lastName" "Builder";
      Change "email" "bob@x.com"; Change "password" "pw123456"; Change "cPassword" "nope"]).
    reflexivity. }
  split; [exact Hr|]. exact (register_input_errors _ Hr).
Defined.

End RegisterPage.
