(* ===== verification/ProfilePage.v ===== *)
(** * ProfilePage: [src/project/src/pages/Profile.jsx]

    The page reads the profile id from the route, keeps [userInfo] and
    [loading] in React state and the post list in the redux store
    ([state.posts.posts], written by [fetchPosts] through [dispatch]).
    [useEffect(..., [id])] sets [loading] and starts [getUser()] and
    [getPosts()] without awaiting them; the post cards call [handleDelete]
    and [handleLikePost], which await their request and then [getPosts()].
    Requests are modelled as a list of in-flight calls that the network may
    complete in any order ([Complete k] finishes the [k]-th); each carries
    what its closure captured ([id], [uri]).  The server is a pair of pure
    functions from a user id and a post URI to the data they return.
    The page is modelled with a session and, in [step_signed_out], without
    one: there [getPosts()] throws at [user.token] before any request. *)

From S2P Require Import Prelude Js.
From stdpp Require Import base list strings sets.
From Stdlib Require Import ZArith Wellfounded.Inclusion Wellfounded.Inverse_Image Arith.Wf_nat.

Module ProfilePage.

(** [const uri = "/posts/get-user-post/" + id;] *)
Definition post_uri (id : string) : string := "/posts/get-user-post/" +:+ id.

Inductive request :=
| GetUser (id : string)                    (** [getUserInfo(user?.token, id)] *)
| FetchPosts (uri : string)                (** [fetchPosts(user.token, dispatch, uri)] *)
| DeletePost (postId uri : string)         (** [deletePost(id, user.token)], then [getPosts()] *)
| LikePost (likeUri uri : string).         (** [likePost({ uri, token })], then [getPosts()] *)

Record state := mk_state {
  route_id : string;      (** [useParams().id] *)
  userInfo : jval;        (** [useState(null)] *)
  posts : jval;           (** redux [state.posts.posts] *)
  loading : bool;         (** [useState(false)] *)
  inflight : list request
}.

(** The centre column: [loading ? <Loading/> : posts?.length > 0 ?
    posts?.map(...) : "No Post Available"].  The comparison converts
    [length] as JavaScript does ([Js.gt_zero]: ["3"], [true] or [[5]] are
    above 0) and may itself throw; a value that passes it and is not an
    array has no callable [map]: rendering throws ([None]). *)
Inductive center :=
| CLoading
| CCards (items : list jval)
| CNoPost.

Definition center_view (loading : bool) (posts : jval) : option center :=
  if loading then Some CLoading
  else match Js.gt_zero (Js.oget posts "length") with
       | None => None
       | Some true => match posts with JArr xs => Some (CCards xs) | _ => None end
       | Some false => Some CNoPost
       end.

#[global] Arguments center_view : simpl never.

Lemma center_view_loading p : center_view true p = Some CLoading.
Proof. reflexivity. Qed.

(** A loaded array renders its cards, or the empty message when empty. *)
Lemma center_view_arr xs :
  center_view false (JArr xs) = Some (match xs with [] => CNoPost | _ => CCards xs end).
Proof. unfold center_view. by destruct xs. Qed.

Record view := mk_view {
  profile_card : jval;          (** [<ProfileCard user={userInfo} />] *)
  friends_card : jval;          (** [<FriendsCard friends={userInfo?.friends} />] *)
  center_area : option center;
  stray_text : string           (** the literal [-] before the right column *)
}.

Definition render (s : state) : view :=
  mk_view (userInfo s) (Js.oget (userInfo s) "friends") (center_view (loading s) (posts s)) "-".

(** The effect body: [setLoading(true); getUser(); getPosts();] *)
Definition effect (s : state) : state :=
  mk_state (route_id s) (userInfo s) (posts s) true
    (inflight s ++ [GetUser (route_id s); FetchPosts (post_uri (route_id s))]).

(** The first render and its effect. *)
Definition mount (posts0 : jval) (id : string) : state :=
  effect (mk_state id JNull posts0 false []).

Inductive event :=
| Navigate (id : string)
| Complete (k : nat)
| ClickDelete (postId : string)
| ClickLike (likeUri : string).

Definition issue (s : state) (r : request) : state :=
  mk_state (route_id s) (userInfo s) (posts s) (loading s) (inflight s ++ [r]).

Definition cards (s : state) : option (list jval) :=
  match center_view (loading s) (posts s) with Some (CCards xs) => Some xs | _ => None end.

Section WithServer.
Variable srv_user : string → jval.
Variable srv_posts : string → jval.

(** The code after the [await] of a finished request. *)
Definition resume (s : state) (r : request) : state :=
  match r with
  | GetUser id => mk_state (route_id s) (srv_user id) (posts s) (loading s) (inflight s)
  | FetchPosts uri => mk_state (route_id s) (userInfo s) (srv_posts uri) false (inflight s)
  | DeletePost _ uri | LikePost _ uri => issue s (FetchPosts uri)
  end.

Definition complete (s : state) (k : nat) : option state :=
  match inflight s !! k with
  | Some r => Some (resume (mk_state (route_id s) (userInfo s) (posts s) (loading s)
                              (delete k (inflight s))) r)
  | None => None
  end.

(** A state whose render throws has crashed the app: nothing is enabled. *)
Definition step (s : state) (e : event) : option state :=
  match center_view (loading s) (posts s) with
  | None => None
  | Some _ =>
      match e with
      | Navigate id =>
          Some (if decide (id = route_id s) then s
                else effect (mk_state id (userInfo s) (posts s) (loading s) (inflight s)))
      | Complete k => complete s k
      | ClickDelete pid =>
          match cards s with
          | Some xs =>
              if existsb (λ p, Js.is_str (Js.oget p "_id") pid) xs
              then Some (issue s (DeletePost pid (post_uri (route_id s)))) else None
          | None => None
          end
      | ClickLike u =>
          match cards s with
          | Some (_ :: _) => Some (issue s (LikePost u (post_uri (route_id s))))
          | _ => None
          end
      end
  end.

End WithServer.

(** Delivery in the order of sending (a FIFO network). *)
Definition fifo_step (srv_user srv_posts : string → jval) (s : state) (e : event) : option state :=
  match e with
  | Complete k => if decide (k = 0) then step srv_user srv_posts s e else None
  | _ => step srv_user srv_posts s e
  end.

(** The id of the last profile request in flight. *)
Fixpoint last_user (rs : list request) : option string :=
  match rs with
  | [] => None
  | r :: rs' =>
      match last_user rs' with
      | Some id => Some id
      | None => match r with GetUser id => Some id | _ => None end
      end
  end.

(** ** Properties *)

(** One step of a symbolic run: unfold the next [step], reduce the
    projections, and let a loading page render. *)
Ltac go := unfold step at 1; cbn [loading posts]; rewrite ?center_view_loading; simpl.

Section Props.
Variable srv_user : string → jval.
Variable srv_posts : string → jval.

Lemma last_user_app rs rs' :
  last_user (rs ++ rs') = match last_user rs' with Some id => Some id | None => last_user rs end.
Proof.
  induction rs as [|r rs IH]; simpl; [by destruct (last_user rs')|].
  rewrite IH. by destruct (last_user rs').
Qed.

Lemma last_user_None rs : (∀ id, GetUser id ∉ rs) → last_user rs = None.
Proof.
  induction rs as [|r rs IH]; intros Hn; simpl; [done|].
  rewrite IH by set_solver. destruct r as [id'| | |]; [|done..].
  exfalso. apply (Hn id'). set_solver.
Qed.

Definition user_consistent (s : state) : Prop :=
  match last_user (inflight s) with
  | Some id => id = route_id s
  | None => userInfo s = srv_user (route_id s)
  end.

Lemma fifo_step_user_consistent s e s' :
  user_consistent s → fifo_step srv_user srv_posts s e = Some s' → user_consistent s'.
Proof.
  unfold user_consistent, fifo_step, step.
  intros Hinv Hs. destruct (center_view _ _); [|destruct e; try case_decide; done].
  destruct e as [id|k|pid|u].
  - simplify_eq. case_decide; [done|]. simpl. by rewrite last_user_app.
  - case_decide; [subst k|done]. unfold complete in Hs.
    destruct (inflight s) as [|r rs] eqn:Hin; [done|]. simpl in Hs, Hinv.
    simplify_eq. simpl.
    destruct r; simpl; rewrite ?last_user_app; simpl;
      destruct (last_user rs); simpl in *; subst; done.
  - destruct (cards s); [|done]. destruct (existsb _ _); [|done]. simplify_eq.
    simpl. by rewrite last_user_app.
  - destruct (cards s) as [[|]|]; [done| |done]. simplify_eq.
    simpl. by rewrite last_user_app.
Qed.

(** C32: When responses arrive in the order the requests were sent, the
    profile card shows the user of the current route as soon as no
    profile request is in flight. *)
Theorem profile_fifo_user_consistent p0 id s :
  reachable (fifo_step srv_user srv_posts) (mount p0 id) s →
  (∀ x, GetUser x ∉ inflight s) →
  userInfo s = srv_user (route_id s).
Proof.
  intros Hr Hnone.
  assert (Hc : user_consistent s).
  { apply (reachable_invariant (fifo_step srv_user srv_posts) user_consistent (mount p0 id)); [done| |done].
    apply fifo_step_user_consistent. }
  unfold user_consistent in Hc. by rewrite last_user_None in Hc.
Qed.

Lemma center_view_JArr b xs : ∃ c, center_view b (JArr xs) = Some c.
Proof. unfold center_view. destruct b; [eauto|]. simpl. destruct (Z.ltb _ _); eauto. Qed.


Lemma center_view_cards xs : xs ≠ [] → center_view false (JArr xs) = Some (CCards xs).
Proof.
  intros Hne. destruct xs as [|x xs]; [done|]. unfold center_view. simpl.
  done.
Qed.

(** C3: Responses arriving out of order leave the profile page of [b]
    showing the profile card and the posts of the previously visited
    [a], with nothing left in flight: [getUser] and [getPosts] results
    are applied whatever route they were started for. *)
Theorem profile_stale_after_navigation p0 a b :
  a ≠ b → (∀ u, ∃ xs, srv_posts u = JArr xs) →
  ∃ s, run (step srv_user srv_posts) (mount p0 a)
         [Navigate b; Complete 2; Complete 0; Complete 1; Complete 0] = Some s ∧
       route_id s = b ∧ inflight s = [] ∧ loading s = false ∧
       userInfo s = srv_user a ∧ posts s = srv_posts (post_uri a).
Proof.
  intros Hab Harr. destruct (Harr (post_uri b)) as [xs Hxs].
  eexists. split.
  { simpl. rewrite decide_False by congruence. repeat go.
    rewrite Hxs. destruct (center_view_JArr false xs) as [c ->]. simpl.
    reflexivity. }
  simpl. repeat split; done.
Qed.

(** C26: Even with in-order delivery, deleting a post and then leaving for
    another profile before the deletion is acknowledged ends with the
    new profile showing the old profile's posts: [handleDelete] refetches
    the [uri] its render captured. *)
Theorem profile_stale_posts_fifo p0 a b pid xs :
  a ≠ b → (∀ u, ∃ ys, srv_posts u = JArr ys) →
  srv_posts (post_uri a) = JArr xs →
  existsb (λ q, Js.is_str (Js.oget q "_id") pid) xs = true →
  ∃ s, run (fifo_step srv_user srv_posts) (mount p0 a)
         [Complete 0; Complete 0; ClickDelete pid; Navigate b;
          Complete 0; Complete 0; Complete 0; Complete 0] = Some s ∧
       route_id s = b ∧ inflight s = [] ∧ loading s = false ∧
       userInfo s = srv_user b ∧ posts s = srv_posts (post_uri a).
Proof.
  intros Hab Harr Ha Hpid. destruct (Harr (post_uri b)) as [ys Hys].
  assert (Hne : xs ≠ []) by (intros ->; discriminate).
  eexists. split.
  { simpl. rewrite Ha. repeat go.
    rewrite (center_view_cards xs Hne). unfold cards. cbn [loading posts].
    rewrite (center_view_cards xs Hne), Hpid. simpl.
    rewrite (center_view_cards xs Hne), decide_False by congruence. simpl.
    rewrite ?center_view_loading. simpl.
    rewrite Hys. destruct (center_view_JArr false ys) as [c ->]. simpl.
    reflexivity. }
  simpl. repeat split; done.
Qed.

(** ** The spinner and the request queue *)

Definition loading_inv (s : state) : Prop :=
  loading s = true → ∃ u, FetchPosts u ∈ inflight s.

Lemma issue_inflight s r : inflight (issue s r) = inflight s ++ [r].
Proof. done. Qed.

Lemma step_loading_inv s e s' :
  loading_inv s → step srv_user srv_posts s e = Some s' → loading_inv s'.
Proof.
  unfold loading_inv, step. intros Hinv Hs. destruct (center_view _ _); [|done].
  destruct e as [id|k|pid|u].
  - simplify_eq. case_decide; [done|]. simpl. intros _. exists (post_uri id). set_solver.
  - unfold complete in Hs. destruct (inflight s !! k) as [r|] eqn:Hk; [|done]. simplify_eq.
    destruct r as [id|uri|pid uri|lu uri]; simpl; intros Hl.
    + destruct (Hinv Hl) as [u Hu]. exists u. by eapply elem_of_delete_ne.
    + done.
    + exists uri. set_solver.
    + exists uri. set_solver.
  - destruct (cards s); [|done]. destruct (existsb _ _); [|done]. simplify_eq.
    simpl. intros Hl. destruct (Hinv Hl) as [u' Hu]. exists u'. set_solver.
  - destruct (cards s) as [[|]|]; [done| |done]. simplify_eq.
    simpl. intros Hl. destruct (Hinv Hl) as [u' Hu]. exists u'. set_solver.
Qed.

(** C33: The page never shows its spinner without a post request in
    flight, whatever order the responses arrive in: the only way to
    clear [loading] is a finished [getPosts], and every [loading = true]
    comes with one. *)
Theorem profile_loading_has_fetch p0 id s :
  reachable (step srv_user srv_posts) (mount p0 id) s →
  loading s = true → ∃ u, FetchPosts u ∈ inflight s.
Proof.
  intros Hr. revert s Hr.
  apply (reachable_invariant (step srv_user srv_posts) loading_inv (mount p0 id)).
  - intros _. exists (post_uri id). simpl. set_solver.
  - apply step_loading_inv.
Qed.


(** The work a request still causes: a delete or like also issues a
    refetch. *)
Definition req_weight (r : request) : nat :=
  match r with GetUser _ | FetchPosts _ => 1 | DeletePost _ _ | LikePost _ _ => 2 end.

Definition weight (rs : list request) : nat := foldr (λ r n, req_weight r + n) 0 rs.

Lemma weight_app rs rs' : weight (rs ++ rs') = weight rs + weight rs'.
Proof. induction rs; simpl; lia. Qed.

(** ** Termination of the network side *)

(** [s'] follows [s] by the completion of one request. *)
Definition completes (s' s : state) : Prop := ∃ k, step srv_user srv_posts s (Complete k) = Some s'.

Lemma weight_delete rs k r :
  rs !! k = Some r → weight (delete k rs) + req_weight r = weight rs.
Proof.
  revert k. induction rs as [|r' rs IH]; intros [|k] Hk; simpl in *; simplify_eq; [lia|].
  specialize (IH k Hk). simpl. lia.
Qed.

Lemma completes_weight s' s : completes s' s → weight (inflight s') < weight (inflight s).
Proof.
  intros [k Hs]. unfold step in Hs. destruct (center_view _ _); [|done].
  unfold complete in Hs. destruct (inflight s !! k) as [r|] eqn:Hk; [|done]. simplify_eq.
  pose proof (weight_delete _ _ _ Hk) as Hw.
  destruct r; simpl; rewrite ?weight_app; simpl in *; lia.
Qed.

(** C15: Without user input the page cannot keep working forever: the
    completion of requests is a well-founded relation, every request
    completes at most once and a completed delete or like issues a single
    refetch. *)
Theorem completions_terminate : well_founded completes.
Proof.
  apply (wf_incl _ _ (λ s' s, weight (inflight s') < weight (inflight s))).
  - intros s' s. apply completes_weight.
  - apply (wf_inverse_image _ _ lt (λ s, weight (inflight s))), lt_wf.
Qed.
(** ** The [.map] crash *)

(** The centre column throws exactly when comparing [length] with 0
    throws, or when the comparison holds of a value that is not an array. *)
Lemma center_view_None b v :
  center_view b v = None ↔
  b = false ∧ (Js.gt_zero (Js.oget v "length") = None ∨
               Js.gt_zero (Js.oget v "length") = Some true ∧ ∀ xs, v ≠ JArr xs).
Proof.
  unfold center_view. destruct b; [naive_solver|].
  destruct (Js.gt_zero _) as [[]|]; [destruct v; naive_solver|naive_solver|naive_solver].
Qed.

(** A crashed page takes no event; a page that renders can always navigate. *)
Lemma step_stuck s :
  (∀ e, step srv_user srv_posts s e = None) ↔ center_view (loading s) (posts s) = None.
Proof.
  unfold step. split; [|intros -> e; done].
  intros H. specialize (H (Navigate (route_id s))). by destruct (center_view _ _).
Qed.

(** C17: Completing a posts request while the page renders stores the
    server's answer, and the page is then dead (no event enabled) exactly
    when comparing the answer's [length] with 0 throws, or the comparison
    holds (as JavaScript converts: a positive number, a string such as
    ["3"], [true], [[5]]) of an answer that is not an array; an error
    object without [length] only shows "No Post Available". *)
Theorem profile_posts_crash s k uri :
  center_view (loading s) (posts s) ≠ None → inflight s !! k = Some (FetchPosts uri) →
  ∃ s', step srv_user srv_posts s (Complete k) = Some s' ∧ posts s' = srv_posts uri ∧
        ((∀ e, step srv_user srv_posts s' e = None) ↔
         Js.gt_zero (Js.oget (srv_posts uri) "length") = None ∨
         Js.gt_zero (Js.oget (srv_posts uri) "length") = Some true ∧ ∀ xs, srv_posts uri ≠ JArr xs).
Proof.
  intros Hr Hk. unfold step at 1. destruct (center_view _ _) as [c|]; [|done].
  unfold complete. rewrite Hk. eexists. split; [done|]. split; [done|].
  rewrite step_stuck, center_view_None. simpl. naive_solver.
Qed.

(** ** The page settles or dies *)

Lemma step_complete_head s r rs :
  center_view (loading s) (posts s) ≠ None → inflight s = r :: rs →
  ∃ s', step srv_user srv_posts s (Complete 0) = Some s' ∧
        S (weight (inflight s')) = weight (inflight s).
Proof.
  intros Hc Hin. unfold step. destruct (center_view _ _); [|done].
  unfold complete. rewrite Hin. simpl. eexists; split; [reflexivity|].
  destruct r; simpl; rewrite ?weight_app; simpl; lia.
Qed.

Lemma drain_from n s :
  weight (inflight s) = n → loading_inv s →
  ∃ m s', run (step srv_user srv_posts) s (replicate m (Complete 0)) = Some s' ∧
          ((inflight s' = [] ∧ loading s' = false ∧ center_view (loading s') (posts s') ≠ None) ∨
           center_view (loading s') (posts s') = None).
Proof.
  revert s. induction n as [|n IH]; intros s Hw Hl;
    (destruct (center_view (loading s) (posts s)) eqn:Hc; [|exists 0, s; by split; [|right]]).
  - exists 0, s. destruct (inflight s) as [|r rs] eqn:Hin; [|destruct r; simpl in Hw; lia].
    split; [done|]. left. split; [done|]. split; [|by rewrite Hc].
    destruct (loading s) eqn:E; [|done]. destruct (Hl E) as [u Hu]. rewrite Hin in Hu. set_solver.
  - destruct (inflight s) as [|r rs] eqn:Hin; [simpl in Hw; lia|].
    destruct (step_complete_head s r rs) as (s1 & Hs1 & Hw1); [by rewrite Hc|done|].
    destruct (IH s1) as (m & s' & Hrun & Hrest); [rewrite Hin in Hw1; lia|by eapply step_loading_inv|].
    exists (S m), s'. simpl. rewrite Hs1. split; [exact Hrun|exact Hrest].
Qed.

(** C5: The page never spins for ever: from any state it reaches,
    delivering the pending responses in order either settles it (nothing
    in flight, no spinner, the centre column renders) or leaves it dead
    on an answer it cannot render (no event enabled), whatever the server
    answers. *)
Theorem profile_requests_drain p0 id s :
  reachable (step srv_user srv_posts) (mount p0 id) s →
  ∃ m s', run (step srv_user srv_posts) s (replicate m (Complete 0)) = Some s' ∧
          ((inflight s' = [] ∧ loading s' = false ∧ center_area (render s') ≠ None) ∨
           ∀ e, step srv_user srv_posts s' e = None).
Proof.
  intros Hreach.
  assert (Hl : loading_inv s).
  { apply (reachable_invariant (step srv_user srv_posts) loading_inv (mount p0 id)); [|apply step_loading_inv|done].
    intros _. exists (post_uri id). simpl. set_solver. }
  destruct (drain_from _ s eq_refl Hl) as (m & s' & Hrun & Hend).
  exists m, s'. split; [done|]. by rewrite step_stuck.
Qed.

End Props.

(** ** Without a session

    [user] is [null] when nobody is logged in.  [getUser()] still sends
    [getUserInfo(user?.token, id)], but [getPosts()] evaluates [user.token]
    before [fetchPosts]: the async function throws, its promise rejects
    unobserved, and [setLoading(false)] never runs.  The handlers of the
    cards would throw the same way, but no card is rendered while the
    spinner is. *)
Definition effect_signed_out (s : state) : state :=
  mk_state (route_id s) (userInfo s) (posts s) true (inflight s ++ [GetUser (route_id s)]).

Definition mount_signed_out (posts0 : jval) (id : string) : state :=
  effect_signed_out (mk_state id JNull posts0 false []).

(** Only the effect differs: navigation runs the signed-out effect, every
    other event is the page's own. *)
Definition step_signed_out (srv_user srv_posts : string → jval) (s : state) (e : event) : option state :=
  match e with
  | Navigate id =>
      match center_view (loading s) (posts s) with
      | None => None
      | Some _ => Some (if decide (id = route_id s) then s
                        else effect_signed_out (mk_state id (userInfo s) (posts s) (loading s) (inflight s)))
      end
  | _ => step srv_user srv_posts s e
  end.

Section SignedOut.
Variable srv_user : string → jval.
Variable srv_posts : string → jval.

Definition spinning (s : state) : Prop := loading s = true ∧ ∀ r, r ∈ inflight s → ∃ id, r = GetUser id.

Lemma step_signed_out_spinning s e s' :
  spinning s → step_signed_out srv_user srv_posts s e = Some s' → spinning s'.
Proof.
  intros [Hl Hin] Hs. unfold step_signed_out, step, cards in Hs. rewrite Hl, center_view_loading in Hs.
  destruct e as [id|k| |]; try done; simplify_eq.
  - case_decide; [done|]. split; [done|]. intros r. cbn [inflight effect_signed_out]. rewrite elem_of_app, list_elem_of_singleton.
    intros [Hr| ->]; eauto.
  - unfold complete in Hs. destruct (inflight s !! k) as [r|] eqn:Hk; [|done]. simplify_eq.
    destruct (Hin r (list_elem_of_lookup_2 _ _ _ Hk)) as [id ->]. split; [done|].
    intros r' Hr'. apply Hin. by apply list_elem_of_delete_inv in Hr'.
Qed.

(** C20: A visitor without a session who opens a profile sees the spinner
    for ever: in every state reachable from the signed-out mount the
    centre column is [<Loading/>] and no posts request is in flight,
    whatever the server answers. *)
Theorem profile_signed_out_spinner p0 id s :
  reachable (step_signed_out srv_user srv_posts) (mount_signed_out p0 id) s →
  center_area (render s) = Some CLoading ∧ ∀ uri, FetchPosts uri ∉ inflight s.
Proof.
  intros Hr.
  assert (Hs : spinning s).
  { apply (reachable_invariant (step_signed_out srv_user srv_posts) spinning (mount_signed_out p0 id));
      [|intros ???; apply step_signed_out_spinning|done].
    split; [done|]. intros r. cbn. rewrite list_elem_of_singleton. eauto. }
  destruct Hs as [Hl Hin]. split; [unfold render; cbn [center_area]; by rewrite Hl, center_view_loading|].
  intros uri Hu. destruct (Hin _ Hu) as [? [=]].
Qed.

End SignedOut.

(** ** Witnesses, against a small server *)

Definition demo_user (id : string) : jval := JObj [("_id", JStr id); ("friends", JArr [])].
Definition demo_posts (uri : string) : jval := JArr [JObj [("_id", JStr "p1"); ("uri", JStr uri)]].

Lemma demo_posts_arr : ∀ u, ∃ xs, demo_posts u = JArr xs.
Proof. intros u. eexists. reflexivity. Qed.

Lemma profile_fifo_user_consistent_witness :
  ∃ s, run (fifo_step demo_user demo_posts) (mount JNull "a")
         [Navigate "b"; Complete 0; Complete 0; Complete 0; Complete 0] = Some s ∧
       userInfo s = demo_user (route_id s).
Proof.
  eexists. split; [vm_compute; reflexivity|].
  apply (profile_fifo_user_consistent demo_user demo_posts JNull "a").
  - apply (run_reachable _ _ [Navigate "b"; Complete 0; Complete 0; Complete 0; Complete 0]).
    vm_compute. reflexivity.
  - set_solver.
Defined.

Lemma profile_stale_after_navigation_witness :
  ∃ s, run (step demo_user demo_posts) (mount JNull "a")
         [Navigate "b"; Complete 2; Complete 0; Complete 1; Complete 0] = Some s ∧
       route_id s = "b" ∧ inflight s = [] ∧ loading s = false ∧
       userInfo s = demo_user "a" ∧ posts s = demo_posts (post_uri "a").
Proof.
  apply (profile_stale_after_navigation demo_user demo_posts JNull "a" "b");
    [discriminate|exact demo_posts_arr].
Defined.

Lemma profile_stale_posts_fifo_witness :
  ∃ s, run (fifo_step demo_user demo_posts) (mount JNull "a")
         [Complete 0; Complete 0; ClickDelete "p1"; Navigate "b";
          Complete 0; Complete 0; Complete 0; Complete 0] = Some s ∧
       route_id s = "b" ∧ inflight s = [] ∧ loading s = false ∧
       userInfo s = demo_user "b" ∧ posts s = demo_posts (post_uri "a").
Proof.
  apply (profile_stale_posts_fifo demo_user demo_posts JNull "a" "b" "p1"
           [JObj [("_id", JStr "p1"); ("uri", JStr (post_uri "a"))]]);
    [discriminate|exact demo_posts_arr|reflexivity|reflexivity].
Defined.

Lemma profile_loading_has_fetch_witness :
  ∃ u, FetchPosts u ∈ inflight (mount JNull "a").
Proof.
  apply (profile_loading_has_fetch demo_user demo_posts JNull "a"); [constructor|reflexivity].
Defined.

Lemma profile_requests_drain_witness :
  ∃ m s', run (step demo_user demo_posts) (mount JNull "a") (replicate m (Complete 0)) = Some s' ∧
          ((inflight s' = [] ∧ loading s' = false ∧ center_area (render s') ≠ None) ∨
           ∀ e, step demo_user demo_posts s' e = None).
Proof. apply (profile_requests_drain demo_user demo_posts JNull "a"). constructor. Defined.

(** The posts route answering an object whose [length] is the string
    ["3"]: [{length: "3"} > 0] holds, and the object has no [map]. *)
Definition odd_posts (uri : string) : jval := JObj [("length", JStr "3")].

Lemma profile_posts_crash_witness :
  ∃ s', step demo_user odd_posts (mount (JArr []) "a") (Complete 1) = Some s' ∧
        posts s' = odd_posts (post_uri "a") ∧ ∀ e, step demo_user odd_posts s' e = None.
Proof.
  destruct (profile_posts_crash demo_user odd_posts (mount (JArr []) "a") 1 (post_uri "a"))
    as (s' & Hs & Hp & Hstuck); [vm_compute; discriminate|reflexivity|].
  exists s'. split; [exact Hs|]. split; [exact Hp|]. apply Hstuck. right.
  split; [vm_compute; reflexivity|]. intros xs. discriminate.
Defined.

(** The signed-out page after the profile answer is in. *)
Definition signed_out_settled : state :=
  mk_state "a" (demo_user "a") JNull true [].

Lemma profile_signed_out_spinner_witness :
  reachable (step_signed_out demo_user demo_posts) (mount_signed_out JNull "a") signed_out_settled ∧
  center_area (render signed_out_settled) = Some CLoading ∧
  ∀ uri, FetchPosts uri ∉ inflight signed_out_settled.
Proof.
  assert (Hr : reachable (step_signed_out demo_user demo_posts) (mount_signed_out JNull "a") signed_out_settled).
  { apply (run_reachable _ _ [Complete 0]). reflexivity. }
  split; [exact Hr|]. exact (profile_signed_out_spinner demo_user demo_posts JNull "a" _ Hr).
Defined.

End ProfilePage.
