(* ===== verification/Server.v ===== *)
(** * Server: [src/server/index.js]

    The entry point builds an Express app, mounts seven middlewares in this
    order: [helmet()], [cors()], [bodyParser.json()],
    [bodyParser.urlencoded({ extended: true })],
    [express.json({ limit: "10mb" })], [express.urlencoded({ extended: true })],
    [morgan("dev")], and listens on [process.env.PORT || 8800].  It mounts
    no router.  The middlewares are modelled by the part of their library
    contract that decides the response: [cors] answers every [OPTIONS]
    request itself with 204; a body parser (body-parser 1.20.3, which
    [express.json]/[express.urlencoded] re-export, reading through
    raw-body 2.5 and iconv-lite 0.4) skips a request whose body an earlier
    parser already read ([req._body]), a request without a body, or one of
    another media type; it refuses a charset it does not accept (JSON: not
    [utf-*]; urlencoded: not [utf-8]) with 415 before reading, and
    otherwise marks the body read and fails, in raw-body's order, with 415
    for an unknown [Content-Encoding], 413 for a declared length over its
    [limit] (default ["100kb"]), 415 for a charset iconv-lite cannot
    decode, 413 for more bytes than the limit, 400 for a zlib error or a
    length mismatch, and then with its parser's errors (400 for
    non-strict JSON; 413 for too many parameters, 400 for a key deeper
    than 32).  The request is described by its headers and by what its
    body turns out to be (its size once read, whether it inflates, is
    strict JSON, its parameter count and key depth), not by its bytes; an
    aborted upload is not modelled.  [morgan] logs the requests that reach
    it; the final handler answers 404 when no route matched and the
    error's status when a middleware failed. *)

From S2P Require Import Prelude Js.
From stdpp Require Import base list strings.
From Stdlib Require Import ZArith Ascii.

Module Server.

(** ** [const PORT = process.env.PORT || 8800;] *)
Definition PORT (env_port : option string) : jval :=
  Js.or (match env_port with Some s => JStr s | None => JUndefined end) (JNum 8800).

(** ** Sizes as the [bytes] package parses them: digits followed by a
    unit [kb], [mb], [gb], [tb] or [pb] (powers of 1024); otherwise
    [parseInt] of the leading digits, in bytes.  Signs, decimals, blanks
    and upper-case units are not modelled: the sources write ["10mb"]
    and the library's default is ["100kb"]. *)
Definition unit_factor (u : string) : option Z :=
  if decide (u = "kb") then Some 1024%Z
  else if decide (u = "mb") then Some (1024 ^ 2)%Z
  else if decide (u = "gb") then Some (1024 ^ 3)%Z
  else if decide (u = "tb") then Some (1024 ^ 4)%Z
  else if decide (u = "pb") then Some (1024 ^ 5)%Z
  else None.

(** The value of the leading decimal digits, the rest of the string, and
    whether there was at least one digit. *)
Fixpoint digits_prefix (s : string) (acc : Z) : Z * string * bool :=
  match s with
  | String c s' =>
      let n := nat_of_ascii c in
      if (48 <=? n) && (n <=? 57) then
        match digits_prefix s' (acc * 10 + Z.of_nat (n - 48))%Z with
        | (v, rest, _) => (v, rest, true)
        end
      else (acc, s, false)
  | EmptyString => (acc, EmptyString, false)
  end.

Definition bytes (s : string) : option Z :=
  match digits_prefix s 0%Z with
  | (v, u, true) => Some (match unit_factor u with Some f => v * f | None => v end)%Z
  | _ => None
  end.

(** ** Requests and the middleware stack

    A request is described by the headers the middlewares read and by
    what its body turns out to be once read; the body's bytes themselves
    are not kept. *)

Record request := mk_request {
  method : string;
  content_type : option string;     (** media type of [Content-Type], lower case *)
  charset : option string;          (** its [charset] parameter, lower case *)
  content_encoding : option string; (** [Content-Encoding], lower case *)
  content_length : option Z;        (** [Content-Length] *)
  chunked : bool;                   (** a [Transfer-Encoding] header is present *)
  received : Z;                     (** bytes of the body as read (inflated if compressed) *)
  inflate_ok : bool;                (** a compressed body inflates without a zlib error *)
  json_valid : bool;                (** the decoded body is strict JSON (an object or array) *)
  params : Z;                       (** [&]-separated parts of a urlencoded body (0 if empty) *)
  key_depth : Z                     (** deepest bracket nesting of a urlencoded key *)
}.

Record ctx := mk_ctx {
  req : request;
  body_read : bool;                 (** [req._body] *)
  headers : list string;            (** response headers set so far *)
  logged : bool
}.

Inductive middleware :=
| Helmet
| Cors
| JsonParser (limit : Z)
| UrlencodedParser (limit parameterLimit : Z)
| Morgan.

Inductive outcome :=
| Next                              (** [next()] *)
| Finish (status : Z)               (** the middleware answered *)
| Error (status : Z).               (** [next(err)] *)

Definition default_limit : Z := default 0%Z (bytes "100kb").

(** [app.use(...)] lines 20-27, in order. *)
Definition app_stack : list middleware :=
  [ Helmet; Cors; JsonParser default_limit;
    UrlencodedParser default_limit 1000%Z;
    JsonParser (default 0%Z (bytes "10mb"));
    UrlencodedParser default_limit 1000%Z;
    Morgan ].

Definition set_read (c : ctx) : ctx := mk_ctx (req c) true (headers c) (logged c).

(** [type-is]'s [hasBody]: a [Transfer-Encoding] or a [Content-Length]. *)
Definition has_body (r : request) : bool :=
  chunked r || bool_decide (content_length r ≠ None).

(** [if (req._body) next(); if (!typeis.hasBody(req)) next(); if (!shouldParse(req)) next();] *)
Definition parses (ty : string) (c : ctx) : bool :=
  negb (body_read c) && has_body (req c) && bool_decide (content_type (req c) = Some ty).

(** The charset a parser reads with: [getCharset(req) || 'utf-8']. *)
Definition charset_of (r : request) : string := default "utf-8" (charset r).

(** [iconv-lite]'s name canonicalisation: a trailing [:dddd] and every
    character that is not a lower-case letter or a digit are dropped. *)
Definition is_digit (a : ascii) : bool := ((48 <=? nat_of_ascii a) && (nat_of_ascii a <=? 57))%nat.
Definition is_lower (a : ascii) : bool := ((97 <=? nat_of_ascii a) && (nat_of_ascii a <=? 122))%nat.

Fixpoint keep_alnum (s : string) : string :=
  match s with
  | EmptyString => EmptyString
  | String a s' => if is_digit a || is_lower a then String a (keep_alnum s') else keep_alnum s'
  end.

Definition drop_year (s : string) : string :=
  let n := String.length s in
  if (5 <=? n)%nat && String.eqb (String.substring (n - 5) 1 s) ":" &&
     forallb is_digit (String.list_ascii_of_string (String.substring (n - 4) 4 s))
  then String.substring 0 (n - 5) s else s.

Definition canonical (cs : string) : string := keep_alnum (drop_year cs).

(** The Unicode decoders of iconv-lite 0.4 (the version raw-body 2.5
    uses); UTF-32 came with iconv-lite 0.5. *)
Definition iconv_exists (cs : string) : bool :=
  bool_decide (canonical cs ∈ ["utf8"; "cesu8"; "unicode11utf8"; "ucs2"; "utf16le"; "utf16be";
                              "utf16"; "utf7"; "unicode11utf7"; "utf7imap"]).

(** [getContentStream]: [Some length] for a stream it can read ([identity]:
    the declared length; [deflate], [gzip]: unknown), [None] for 415. *)
Definition stream_length (r : request) : option (option Z) :=
  let enc := default "identity" (content_encoding r) in
  if decide (enc = "identity") then Some (content_length r)
  else if decide (enc = "deflate" ∨ enc = "gzip") then Some None
  else None.

(** [read(...)] with raw-body's [getBody], in their order: the encoding,
    the declared length against [limit], the decoder for the charset, the
    bytes read against [limit], a zlib error, a length mismatch, then the
    parser's own [parse].  [None]: the body was read and parsed. *)
Definition body_status (limit : Z) (cs : string) (parse : request → option Z) (r : request) : option Z :=
  match stream_length r with
  | None => Some 415%Z
  | Some len =>
      if (match len with Some n => bool_decide (limit < n)%Z | None => false end) then Some 413%Z
      else if negb (iconv_exists cs) then Some 415%Z
      else if bool_decide (limit < received r)%Z then Some 413%Z
      else if bool_decide (len = None) && negb (inflate_ok r) then Some 400%Z
      else if (match len with Some n => bool_decide (received r ≠ n) | None => false end) then Some 400%Z
      else parse r
  end.

(** [json.js]'s [parse]: an empty body is [{}]; otherwise strict JSON. *)
Definition json_parse (r : request) : option Z :=
  if bool_decide (received r = 0%Z) || json_valid r then None else Some 400%Z.

(** [urlencoded.js]'s extended parser: [parameterCount] over the limit is
    413, a key nested deeper than [depth] (32) is 400. *)
Definition url_parse (plimit : Z) (r : request) : option Z :=
  if bool_decide (plimit < params r)%Z then Some 413%Z
  else if bool_decide (32 < key_depth r)%Z then Some 400%Z
  else None.

Definition to_outcome (o : option Z) : outcome :=
  match o with Some st => Error st | None => Next end.

Definition run_middleware (m : middleware) (c : ctx) : ctx * outcome :=
  match m with
  | Helmet =>
      (mk_ctx (req c) (body_read c) (headers c ++ ["Content-Security-Policy"; "X-Content-Type-Options"])
              (logged c), Next)
  | Cors =>
      let c' := mk_ctx (req c) (body_read c) (headers c ++ ["Access-Control-Allow-Origin"]) (logged c) in
      if decide (method (req c) = "OPTIONS") then (c', Finish 204) else (c', Next)
  | JsonParser limit =>
      if parses "application/json" c then
        (* [if (charset.slice(0, 4) !== 'utf-')]: 415 before reading *)
        if String.prefix "utf-" (charset_of (req c))
        then (set_read c, to_outcome (body_status limit (charset_of (req c)) json_parse (req c)))
        else (c, Error 415)
      else (c, Next)
  | UrlencodedParser limit plimit =>
      if parses "application/x-www-form-urlencoded" c then
        (* [if (charset !== 'utf-8')]: 415 before reading *)
        if String.eqb (charset_of (req c)) "utf-8"
        then (set_read c, to_outcome (body_status limit "utf-8" (url_parse plimit) (req c)))
        else (c, Error 415)
      else (c, Next)
  | Morgan => (mk_ctx (req c) (body_read c) (headers c) true, Next)
  end.

(** Express's dispatch: run the stack in order; an answer or an error
    ends it (no error-handling middleware is mounted); a request that
    falls off the end gets [finalhandler]'s 404. *)
Fixpoint handle (stack : list middleware) (c : ctx) : ctx * Z :=
  match stack with
  | [] => (c, 404%Z)
  | m :: rest =>
      match run_middleware m c with
      | (c', Next) => handle rest c'
      | (c', Finish st) => (c', st)
      | (c', Error st) => (c', st)
      end
  end.

Definition serve (r : request) : ctx * Z := handle app_stack (mk_ctx r false [] false).


(** ** What the server answers *)

(** The whole stack, as one decision on the request: [cors] answers a
    preflight, the first parser whose media type matches decides, and
    everything else falls through to 404. *)
Definition serve_ref (r : request) : Z :=
  if decide (method r = "OPTIONS") then 204
  else if negb (has_body r) then 404
  else if decide (content_type r = Some "application/json") then
    if String.prefix "utf-" (charset_of r)
    then default 404%Z (body_status 102400 (charset_of r) json_parse r) else 415
  else if decide (content_type r = Some "application/x-www-form-urlencoded") then
    if String.eqb (charset_of r) "utf-8"
    then default 404%Z (body_status 102400 "utf-8" (url_parse 1000) r) else 415
  else 404.

(** The stack with the two [express.*] parsers left out. *)
Definition app_stack_min : list middleware :=
  [ Helmet; Cors; JsonParser default_limit; UrlencodedParser default_limit 1000%Z; Morgan ].

Lemma default_limit_eq : default_limit = 102400%Z.
Proof. reflexivity. Qed.

Lemma express_json_limit_eq : default 0%Z (bytes "10mb") = 10485760%Z.
Proof. reflexivity. Qed.

Lemma handle_next m rest c c' :
  run_middleware m c = (c', Next) → handle (m :: rest) c = handle rest c'.
Proof. simpl. by intros ->. Qed.

Lemma handle_error m rest c c' st :
  run_middleware m c = (c', Error st) → handle (m :: rest) c = (c', st).
Proof. simpl. by intros ->. Qed.

Lemma parses_true ty c :
  body_read c = false → has_body (req c) = true → content_type (req c) = Some ty →
  parses ty c = true.
Proof. intros Hb Hh Ht. unfold parses. rewrite Hb, Hh, Ht. by rewrite bool_decide_true. Qed.

Lemma parses_false ty c :
  body_read c = true ∨ has_body (req c) = false ∨ content_type (req c) ≠ Some ty →
  parses ty c = false.
Proof.
  unfold parses. intros [Hb|[Hh|Ht]].
  - by rewrite Hb.
  - by rewrite Hh, andb_false_r.
  - rewrite (bool_decide_false (_ = _)) by done. by rewrite andb_false_r.
Qed.

Lemma json_skip l c : parses "application/json" c = false → run_middleware (JsonParser l) c = (c, Next).
Proof. simpl. by intros ->. Qed.

Lemma url_skip l p c :
  parses "application/x-www-form-urlencoded" c = false → run_middleware (UrlencodedParser l p) c = (c, Next).
Proof. simpl. by intros ->. Qed.

(** The statuses a body parser can fail with. *)
Lemma body_status_not_404 l cs parse r st :
  (∀ st', parse r = Some st' → st' ≠ 404%Z) → body_status l cs parse r = Some st → st ≠ 404%Z.
Proof.
  intros Hp. unfold body_status.
  destruct (stream_length r) as [len|]; [|by intros [= <-]].
  repeat case_match; intros Hs; simplify_eq; first [done | by apply Hp].
Qed.

Lemma json_parse_not_404 r st : json_parse r = Some st → st ≠ 404%Z.
Proof. unfold json_parse. case_match; by intros [= <-]. Qed.

Lemma url_parse_not_404 pl r st : url_parse pl r = Some st → st ≠ 404%Z.
Proof. unfold url_parse. repeat case_match; by intros [= <-]. Qed.

#[local] Hint Resolve json_parse_not_404 url_parse_not_404 : nsocial.

(** A body parser that did not read the body lets the request through
    unchanged; once a parser has read it, the later ones do the same. *)
Ltac skip_parser :=
  first
    [ erewrite (handle_next (JsonParser _)) by (apply json_skip, parses_false; simpl; auto)
    | erewrite (handle_next (UrlencodedParser _ _)) by (apply url_skip, parses_false; simpl; auto) ].

Ltac finish_branch :=
  eexists; split; [reflexivity|cbn; split; intros; (done || lia)].

(** A parser that read the body decides: its error, or the 404 of the
    end of the stack. *)
Ltac parser_decides charset_test :=
  unfold handle at 1; unfold run_middleware at 1;
  rewrite parses_true by done; cbn [req];
  destruct charset_test; [|finish_branch];
  destruct (body_status _ _ _ _) as [st|] eqn:Hs; cbn [to_outcome default];
  [ eexists; split; [reflexivity|cbn; split; [done|]];
    intros ->; by eapply body_status_not_404 in Hs; [|eauto with nsocial]
  | repeat skip_parser; finish_branch ].

(** The answer to a request, and whether [morgan] logged it. *)
Lemma serve_spec r :
  ∃ c', serve r = (c', serve_ref r) ∧ (logged c' = true ↔ serve_ref r = 404%Z).
Proof.
  unfold serve_ref, serve, app_stack. rewrite ?default_limit_eq, ?express_json_limit_eq.
  erewrite (handle_next Helmet) by reflexivity.
  destruct (decide (method r = "OPTIONS")) as [Ho|Ho].
  { simpl. rewrite decide_True by done. finish_branch. }
  erewrite (handle_next Cors) by (simpl; by rewrite decide_False).
  destruct (has_body r) eqn:Hb; cbn [negb]; [|repeat skip_parser; finish_branch].
  destruct (decide (content_type r = Some "application/json")) as [Hj|Hj];
    [parser_decides (String.prefix "utf-" (charset_of r))|].
  skip_parser.
  destruct (decide (content_type r = Some "application/x-www-form-urlencoded")) as [Hu|Hu];
    [parser_decides (String.eqb (charset_of r) "utf-8")|].
  repeat skip_parser. finish_branch.
Qed.


(** C6: A JSON body declared over 100kb, sent uncompressed with a
    UTF charset (or none), is refused with 413 whatever its size below the
    10mb that [express.json({ limit: "10mb" })] asks for:
    [bodyParser.json()], mounted first with the default limit, reads it
    first. *)
Theorem json_limit_is_100kb r n :
  method r ≠ "OPTIONS" → content_type r = Some "application/json" →
  String.prefix "utf-" (charset_of r) = true → default "identity" (content_encoding r) = "identity" →
  content_length r = Some n → (102400 < n)%Z → (serve r).2 = 413%Z.
Proof.
  intros Ho Hj Hc He Hl Hn. destruct (serve_spec r) as (c' & -> & _). simpl. unfold serve_ref.
  assert (Hb : has_body r = true) by (unfold has_body; rewrite Hl; by rewrite orb_true_r).
  rewrite decide_False, Hb, decide_True, Hc by done. cbn [negb].
  unfold body_status, stream_length. rewrite He, decide_True, Hl by done.
  by rewrite bool_decide_true by lia.
Qed.

(** C35: [morgan] logs exactly the requests answered 404: those refused by
    [cors] (preflight) or by a body parser never reach it, since it is
    mounted last. *)
Theorem serve_logged r : logged (serve r).1 = true ↔ (serve r).2 = 404%Z.
Proof. destruct (serve_spec r) as (c' & -> & H). exact H. Qed.

Lemma json_next_inv l c c1 :
  run_middleware (JsonParser l) c = (c1, Next) →
  (c1 = c ∧ parses "application/json" c = false) ∨ body_read c1 = true.
Proof.
  simpl. destruct (parses _ c); [|intros [= ->]; by left].
  case_match; [|done]. intros [= <- _]. by right.
Qed.

Lemma url_next_inv l p c c1 :
  run_middleware (UrlencodedParser l p) c = (c1, Next) →
  (c1 = c ∧ parses "application/x-www-form-urlencoded" c = false) ∨ body_read c1 = true.
Proof.
  simpl. destruct (parses _ c); [|intros [= ->]; by left].
  case_match; [|done]. intros [= <- _]. by right.
Qed.

(** Two parsers that are mounted again behind the first pair never act:
    the first pair either read the body or found none of its type. *)
Lemma second_parsers_dead l1 p1 l2 l3 p3 c :
  handle [JsonParser l1; UrlencodedParser l1 p1; JsonParser l2; UrlencodedParser l3 p3; Morgan] c =
  handle [JsonParser l1; UrlencodedParser l1 p1; Morgan] c.
Proof.
  cbn [handle].
  destruct (run_middleware (JsonParser l1) c) as [c1 [|st|st]] eqn:E1; [|done|done].
  destruct (run_middleware (UrlencodedParser l1 p1) c1) as [c2 [|st|st]] eqn:E2; [|done|done].
  assert (Hskip : parses "application/json" c2 = false ∧
                  parses "application/x-www-form-urlencoded" c2 = false).
  { destruct (url_next_inv _ _ _ _ E2) as [[-> Hu]|Hr].
    - split; [|done]. destruct (json_next_inv _ _ _ E1) as [[-> Hj]|Hr]; [done|].
      apply parses_false. by left.
    - split; apply parses_false; by left. }
  destruct Hskip as [Hj Hu].
  rewrite (json_skip l2 c2 Hj), (url_skip l3 p3 c2 Hu). done.
Qed.

(** C34: Removing [express.json({ limit: "10mb" })] and
    [express.urlencoded({ extended: true })] from the stack changes
    nothing the server does: they are dead code. *)
Theorem serve_without_express_parsers r :
  serve r = handle app_stack_min (mk_ctx r false [] false).
Proof.
  unfold serve, app_stack, app_stack_min.
  erewrite !(handle_next Helmet) by reflexivity.
  destruct (decide (method r = "OPTIONS")) as [Ho|Ho].
  - simpl. by rewrite decide_True.
  - erewrite !(handle_next Cors) by (simpl; by rewrite decide_False).
    apply second_parsers_dead.
Qed.

(** ** Witnesses *)

Definition big_json : request :=
  mk_request "POST" (Some "application/json") None None (Some 2000000%Z) false 2000000 true true 0 0.

Lemma json_limit_is_100kb_witness : (serve big_json).2 = 413%Z.
Proof.
  apply (json_limit_is_100kb big_json 2000000); [discriminate|reflexivity..|lia].
Defined.

End Server.
