(* ===== verification/CredentialStore.v ===== *)
(** * CredentialStore: the user table of the backend (spec §4.1)

    The backend is not part of the repository snapshot under [src/]; this
    component is modelled from the specification.  The store keeps user
    records by identifier and hands out identifiers from a counter.  E-mail
    addresses are unique up to ASCII case ([normalize]); a password is kept
    only as [hash salt raw], for an abstract salted hash; the minimum
    password length is a parameter [min_len], which the specification leaves
    open.  Constant-time comparison is a timing property and is not
    modelled. *)

From S2P Require Import Prelude.
From stdpp Require Import base list strings gmap sets.
From Stdlib Require Import Ascii.

Module CredentialStore.

Inductive error :=
| DuplicateEmail
| WeakCredential
| NotFound
| InvalidCredential.

Definition lower_ascii (c : ascii) : ascii :=
  let n := nat_of_ascii c in
  if (65 <=? n) && (n <=? 90) then ascii_of_nat (n + 32) else c.

Fixpoint lower (s : string) : string :=
  match s with
  | EmptyString => EmptyString
  | String c s' => String (lower_ascii c) (lower s')
  end.

(** Case-insensitive comparison key of an e-mail address. *)
Definition normalize (e : string) : string := lower e.

Record profile := mk_profile {
  firstName : string;
  lastName : string;
  bio : string;
  avatar : string
}.

(** The fields an [updateProfile] call supplies. *)
Record profile_update := mk_update {
  set_firstName : option string;
  set_lastName : option string;
  set_bio : option string;
  set_avatar : option string
}.

Record user := mk_user {
  email : string;
  salt : string;
  pwhash : string;
  prof : profile;
  updatedAt : nat
}.

Record store := mk_store {
  users : gmap nat user;
  next_id : nat
}.

Definition empty : store := mk_store ∅ 0.

(** The user whose normalized e-mail is that of [e], if any. *)
Definition find_email (m : gmap nat user) (e : string) : option nat :=
  (λ found, found.2.1) <$> list_find (λ iu, normalize (email iu.2) = normalize e) (map_to_list m).

Definition apply_update (p : profile) (f : profile_update) : profile :=
  mk_profile (default (firstName p) (set_firstName f)) (default (lastName p) (set_lastName f))
             (default (bio p) (set_bio f)) (default (avatar p) (set_avatar f)).

Section Operations.
Context (min_len : nat) (hash : string → string → string).

(** The password policy: non-empty and at least [min_len] characters. *)
Definition weak (raw : string) : bool :=
  bool_decide (raw = "") || (String.length raw <? min_len).

Definition register (s : store) (e raw slt : string) (p : profile) (now : nat)
    : result error (nat * store) :=
  match find_email (users s) e with
  | Some _ => Err DuplicateEmail
  | None =>
      if weak raw then Err WeakCredential
      else let uid := next_id s in
           Ok (uid, mk_store (<[uid := mk_user e slt (hash slt raw) p now]> (users s)) (S uid))
  end.

Definition verify (s : store) (e raw : string) : result error nat :=
  match find_email (users s) e with
  | None => Err NotFound
  | Some uid =>
      match users s !! uid with
      | None => Err NotFound
      | Some u => if String.eqb (hash (salt u) raw) (pwhash u) then Ok uid else Err InvalidCredential
      end
  end.

Definition updateProfile (s : store) (uid : nat) (f : profile_update) (now : nat) : result error store :=
  match users s !! uid with
  | None => Err NotFound
  | Some u =>
      Ok (mk_store (<[uid := mk_user (email u) (salt u) (pwhash u) (apply_update (prof u) f) now]> (users s))
                   (next_id s))
  end.

End Operations.

(** ** The e-mail index *)

Lemma find_email_Some m e uid :
  find_email m e = Some uid → ∃ u, m !! uid = Some u ∧ normalize (email u) = normalize e.
Proof.
  unfold find_email. destruct (list_find _ _) as [[i [uid' u]]|] eqn:Hf; [|done].
  intros [= <-]. apply list_find_Some in Hf as (Hi & Hp & _).
  exists u. split; [apply elem_of_map_to_list, list_elem_of_lookup; eauto|exact Hp].
Qed.

Lemma find_email_None m e :
  find_email m e = None ↔ ∀ uid u, m !! uid = Some u → normalize (email u) ≠ normalize e.
Proof.
  unfold find_email. rewrite fmap_None, list_find_None, Forall_forall. split.
  - intros H uid u Hu. apply (H (uid, u)). by apply elem_of_map_to_list.
  - intros H [uid u] Hin. apply elem_of_map_to_list in Hin. by apply (H uid u).
Qed.

(** ** Well-formed stores *)

(** Normalized e-mails identify users, identifiers are below the counter,
    and no stored hash is empty. *)
Record wf (s : store) : Prop := {
  wf_unique : ∀ i j ui uj, users s !! i = Some ui → users s !! j = Some uj →
                normalize (email ui) = normalize (email uj) → i = j;
  wf_fresh : ∀ i u, users s !! i = Some u → i < next_id s;
  wf_hash : ∀ i u, users s !! i = Some u → pwhash u ≠ ""
}.

Lemma wf_empty : wf empty.
Proof. split; intros i; [intros j ui uj Hi|intros u Hi|intros u Hi]; simpl in Hi; by rewrite lookup_empty in Hi. Qed.

(** [verify] fails only with the two authentication errors. *)
Lemma verify_Err hash s e raw err :
  verify hash s e raw = Err err → err = NotFound ∨ err = InvalidCredential.
Proof.
  unfold verify. repeat case_match; intros [=]; auto.
Qed.

Lemma verify_Ok hash s e raw uid :
  verify hash s e raw = Ok uid →
  ∃ u, users s !! uid = Some u ∧ normalize (email u) = normalize e ∧ hash (salt u) raw = pwhash u.
Proof.
  unfold verify. destruct (find_email _ _) as [uid'|] eqn:Hf; [|done].
  apply find_email_Some in Hf as (u & Hu & He). rewrite Hu.
  case_match eqn:Hh; [|done]. intros [= <-]. apply String.eqb_eq in Hh. eauto.
Qed.

Lemma find_email_unique s e uid u :
  wf s → users s !! uid = Some u → normalize (email u) = normalize e →
  find_email (users s) e = Some uid.
Proof.
  intros Hwf Hu He. destruct (find_email (users s) e) as [uid'|] eqn:Hf.
  - apply find_email_Some in Hf as (u' & Hu' & He'). f_equal.
    eapply (wf_unique _ Hwf); [exact Hu'|exact Hu|congruence].
  - apply find_email_None with (uid := uid) (u := u) in Hf; done.
Qed.

Section Properties.
Context (min_len : nat) (hash : string → string → string).
Hypothesis hash_nonempty : ∀ slt raw, hash slt raw ≠ "".

Lemma register_Ok s e raw slt p now uid s' :
  register min_len hash s e raw slt p now = Ok (uid, s') →
  find_email (users s) e = None ∧ weak min_len raw = false ∧ uid = next_id s ∧
  s' = mk_store (<[uid := mk_user e slt (hash slt raw) p now]> (users s)) (S uid).
Proof.
  unfold register. destruct (find_email _ _); [done|].
  destruct (weak _ _); [done|]. intros [= <- <-]. done.
Qed.

Lemma register_wf s e raw slt p now uid s' :
  wf s → register min_len hash s e raw slt p now = Ok (uid, s') → wf s'.
Proof.
  intros Hwf Hr. apply register_Ok in Hr as (Hnone & _ & -> & ->).
  rewrite find_email_None in Hnone. split; simpl.
  - intros i j ui uj Hi Hj Heq.
    destruct (decide (i = next_id s)) as [->|Hi'], (decide (j = next_id s)) as [->|Hj'];
      simplify_map_eq; [done| | |by eapply (wf_unique _ Hwf)].
    + exfalso. by apply (Hnone j uj).
    + exfalso. by apply (Hnone i ui).
  - intros i u Hi. destruct (decide (i = next_id s)) as [->|Hi']; simplify_map_eq; [lia|].
    apply (wf_fresh _ Hwf) in Hi. lia.
  - intros i u Hi. destruct (decide (i = next_id s)) as [->|Hi']; simplify_map_eq; [done|].
    by apply (wf_hash _ Hwf) in Hi.
Qed.

Lemma updateProfile_wf s uid f now s' :
  wf s → updateProfile s uid f now = Ok s' → wf s'.
Proof.
  unfold updateProfile. intros Hwf Hu. destruct (users s !! uid) as [u|] eqn:Hs; [|done].
  simplify_eq. split; simpl.
  - intros i j ui uj Hi Hj Heq.
    destruct (decide (i = uid)) as [->|Hi'], (decide (j = uid)) as [->|Hj'];
      simplify_map_eq; [done|by eapply (wf_unique _ Hwf)..].
  - intros i v Hi. destruct (decide (i = uid)) as [->|Hi']; simplify_map_eq; by eapply (wf_fresh _ Hwf).
  - intros i v Hi. destruct (decide (i = uid)) as [->|Hi']; simplify_map_eq; by eapply (wf_hash _ Hwf).
Qed.

Lemma register_lookup s e raw slt p now uid s' :
  register min_len hash s e raw slt p now = Ok (uid, s') →
  users s' !! uid = Some (mk_user e slt (hash slt raw) p now).
Proof. intros Hr. apply register_Ok in Hr as (_ & _ & -> & ->). simpl. by simplify_map_eq. Qed.

(** Once an address is registered, registering any address with the
    same normalized form fails with [DuplicateEmail]. *)
Theorem register_duplicate s e raw slt p now uid s' e' raw' slt' p' now' :
  wf s → register min_len hash s e raw slt p now = Ok (uid, s') →
  normalize e' = normalize e →
  register min_len hash s' e' raw' slt' p' now' = Err DuplicateEmail.
Proof.
  intros Hwf Hr He. pose proof (register_wf _ _ _ _ _ _ _ _ Hwf Hr) as Hwf'.
  unfold register at 1. erewrite find_email_unique; [done|exact Hwf'|by eapply register_lookup|done].
Qed.

Lemma register_verify s e raw slt p now uid s' e' :
  wf s → register min_len hash s e raw slt p now = Ok (uid, s') →
  normalize e' = normalize e → verify hash s' e' raw = Ok uid.
Proof.
  intros Hwf Hr He. pose proof (register_wf _ _ _ _ _ _ _ _ Hwf Hr) as Hwf'.
  pose proof (register_lookup _ _ _ _ _ _ _ _ Hr) as Hu.
  unfold verify. erewrite find_email_unique; [|exact Hwf'|exact Hu|done].
  rewrite Hu. simpl. by rewrite String.eqb_refl.
Qed.

(** A registered user is verified with the password it registered with,
    under any capitalisation of its address. *)
Theorem register_then_verify s e raw slt p now uid s' e' :
  wf s → register min_len hash s e raw slt p now = Ok (uid, s') →
  normalize e' = normalize e → verify hash s' e' raw = Ok uid.
Proof. apply register_verify. Qed.

(** With a hash that separates passwords, any other password is
    refused with [InvalidCredential]. *)
Theorem verify_wrong_password s e raw slt p now uid s' raw' :
  (∀ slt, Inj eq eq (hash slt)) →
  wf s → register min_len hash s e raw slt p now = Ok (uid, s') →
  raw' ≠ raw → verify hash s' e raw' = Err InvalidCredential.
Proof.
  intros Hinj Hwf Hr Hne. pose proof (register_wf _ _ _ _ _ _ _ _ Hwf Hr) as Hwf'.
  pose proof (register_lookup _ _ _ _ _ _ _ _ Hr) as Hu.
  unfold verify. erewrite find_email_unique; [|exact Hwf'|exact Hu|done].
  rewrite Hu. simpl. destruct (String.eqb_spec (hash slt raw') (hash slt raw)) as [Heq|]; [|done].
  by apply Hinj in Heq.
Qed.

(** A fresh address with a password shorter than [min_len] (or empty)
    is refused with [WeakCredential] and nothing is stored. *)
Theorem register_weak s e raw slt p now :
  find_email (users s) e = None → String.length raw < min_len →
  register min_len hash s e raw slt p now = Err WeakCredential.
Proof.
  intros Hn Hl. unfold register, weak. rewrite Hn.
  replace (String.length raw <? min_len) with true by (symmetry; apply Nat.ltb_lt; lia).
  by rewrite orb_true_r.
Qed.

End Properties.

(** ** The store as a machine *)

Inductive event :=
| Register (e raw slt : string) (p : profile) (now : nat)
| UpdateProfile (uid : nat) (f : profile_update) (now : nat).

Definition step (min_len : nat) (hash : string → string → string) (s : store) (ev : event) : option store :=
  match ev with
  | Register e raw slt p now =>
      match register min_len hash s e raw slt p now with Ok (_, s') => Some s' | Err _ => None end
  | UpdateProfile uid f now =>
      match updateProfile s uid f now with Ok s' => Some s' | Err _ => None end
  end.

(** Every store reachable from the empty one by registrations and profile
    updates has unique normalized e-mails, identifiers below the counter and
    no empty password hash. *)
Theorem store_wf min_len hash s :
  (∀ slt raw, hash slt raw ≠ "") →
  reachable (step min_len hash) empty s → wf s.
Proof.
  intros Hh. apply reachable_invariant; [apply wf_empty|].
  intros s0 [e raw slt p now|uid f now] s1 Hwf Hs; simpl in Hs.
  - destruct (register _ _ _ _ _ _ _ _) as [[uid s2]|] eqn:Hr; [|done]. simplify_eq.
    by eapply register_wf.
  - destruct (updateProfile _ _ _ _) as [s2|] eqn:Hu; [|done]. simplify_eq.
    by eapply updateProfile_wf.
Qed.

(** ** Witnesses: alice and bob of the specification's scenario *)

Definition demo_hash (slt raw : string) : string := "h:" +:+ slt +:+ ":" +:+ raw.

Lemma demo_hash_inj slt : Inj eq eq (demo_hash slt).
Proof. intros a b H. unfold demo_hash in H. by apply (inj (String.app _)), (inj (String.app _)), (inj (String.app _)) in H. Qed.

Lemma demo_hash_nonempty slt raw : demo_hash slt raw ≠ "".
Proof. unfold demo_hash. discriminate. Qed.

Definition alice : profile := mk_profile "Alice" "A" "" "".

Definition s_alice : store :=
  match register 8 demo_hash empty "alice@x.com" "pw123456" "s1" alice 0 with
  | Ok (_, s) => s | Err _ => empty end.

Lemma register_duplicate_witness :
  register 8 demo_hash s_alice "Alice@X.com" "pw654321" "s2" alice 1 = Err DuplicateEmail.
Proof.
  apply (register_duplicate 8 demo_hash demo_hash_nonempty empty "alice@x.com" "pw123456" "s1" alice 0 0);
    [apply wf_empty|reflexivity|reflexivity].
Defined.

Lemma register_then_verify_witness : verify demo_hash s_alice "ALICE@x.com" "pw123456" = Ok 0.
Proof.
  apply (register_then_verify 8 demo_hash demo_hash_nonempty empty "alice@x.com" "pw123456" "s1" alice 0);
    [apply wf_empty|reflexivity|reflexivity].
Defined.

Lemma verify_wrong_password_witness : verify demo_hash s_alice "alice@x.com" "pw000000" = Err InvalidCredential.
Proof.
  apply (verify_wrong_password 8 demo_hash demo_hash_nonempty empty "alice@x.com" "pw123456" "s1" alice 0 0);
    [apply demo_hash_inj|apply wf_empty|reflexivity|discriminate].
Defined.

Lemma register_weak_witness : register 8 demo_hash empty "bob@x.com" "pw1" "s3" alice 2 = Err WeakCredential.
Proof. apply register_weak; [reflexivity|simpl; lia]. Defined.

Lemma store_wf_witness : wf s_alice.
Proof.
  apply (store_wf 8 demo_hash); [exact demo_hash_nonempty|].
  apply (run_reachable _ _ [Register "alice@x.com" "pw123456" "s1" alice 0]). reflexivity.
Defined.

End CredentialStore.
