(* ===== verification/Authenticator.v ===== *)
(** * Authenticator: sessions of the backend (spec §4.2)

    Modelled from the specification (the backend is not in [src/]).  The
    authenticator depends on the credential store only through the
    [Credentials] interface: a [verify] that resolves an e-mail and a
    password to a user identifier, and a membership test that every
    verified identifier passes.  Sessions map a token to the user and the
    instant the session expires; tokens are drawn from a counter, standing
    for fresh random tokens; the time-to-live is 24 hours, in seconds.  A
    session is valid strictly before its expiry instant. *)

From S2P Require Import Prelude CredentialStore.
From stdpp Require Import base list strings gmap sets.
From Stdlib Require Import ZArith.

(** What a credential store promises the authenticator and the social graph. *)
Class Credentials (S : Type) := {
  cred_verify : S → string → string → result CredentialStore.error nat;
  cred_known : S → nat → bool;
  cred_verify_known : ∀ s e raw uid, cred_verify s e raw = Ok uid → cred_known s uid = true
}.

(** The salted hash the deployment uses. *)
Class Hasher := hash_fn : string → string → string.

(** The credential store discharges the interface. *)
#[export] Program Instance store_credentials `{Hasher} : Credentials CredentialStore.store := {|
  cred_verify := CredentialStore.verify hash_fn;
  cred_known s uid := bool_decide (is_Some (CredentialStore.users s !! uid))
|}.
Next Obligation.
  intros hs s e raw uid. unfold CredentialStore.verify.
  destruct (CredentialStore.find_email _ _); [|done].
  destruct (CredentialStore.users s !! _) eqn:Hu; [|done].
  case_match; [|done]. intros [= <-]. apply bool_decide_eq_true. by rewrite Hu.
Qed.

Module Authenticator.

Inductive error :=
| Cred (e : CredentialStore.error)
| InvalidToken
| SessionExpired.

Definition ttl : Z := 86400.

Record state := mk_state {
  sessions : gmap Z (nat * Z);
  next_token : Z
}.

Definition init : state := mk_state ∅ 0.

Section Operations.
Context {Cs : Type} `{Credentials Cs}.

(** [login(email, rawPassword) -> (UserId, Token, ExpiresAt)] *)
Definition login (c : Cs) (a : state) (e raw : string) (now : Z)
    : result error (nat * Z * Z * state) :=
  match cred_verify c e raw with
  | Err err => Err (Cred err)
  | Ok uid =>
      let tok := next_token a in
      let exp := (now + ttl)%Z in
      Ok (uid, tok, exp, mk_state (<[tok := (uid, exp)]> (sessions a)) (tok + 1)%Z)
  end.

End Operations.

(** [authenticate(token) -> UserId]: a read of the table, nothing changes. *)
Definition authenticate (a : state) (tok now : Z) : result error nat :=
  match sessions a !! tok with
  | None => Err InvalidToken
  | Some (uid, exp) => if Z.ltb now exp then Ok uid else Err SessionExpired
  end.

(** [logout(token)] *)
Definition logout (a : state) (tok : Z) : state :=
  mk_state (delete tok (sessions a)) (next_token a).

(** Removing expired entries (§9: "entries removed on expiry"). *)
Definition expire (a : state) (now : Z) : state :=
  mk_state (filter (λ kv, now < kv.2.2)%Z (sessions a)) (next_token a).

(** Every issued token is below the counter. *)
Definition wf (a : state) : Prop := ∀ tok v, sessions a !! tok = Some v → (tok < next_token a)%Z.

(** ** Properties against the interface *)

Section Properties.
Context {Cs : Type} `{Credentials Cs}.

Lemma login_Ok c a e raw now uid tok exp a' :
  login c a e raw now = Ok (uid, tok, exp, a') →
  cred_verify c e raw = Ok uid ∧ tok = next_token a ∧ exp = (now + ttl)%Z ∧
  a' = mk_state (<[tok := (uid, exp)]> (sessions a)) (tok + 1)%Z.
Proof. unfold login. destruct (cred_verify c e raw); [|done]. by intros [= <- <- <- <-]. Qed.

(** A token returned by [login] authenticates as the user who logged in,
    at any instant before its expiry, 24 hours after the login. *)
Theorem login_then_authenticate c a e raw now uid tok exp a' now' :
  login c a e raw now = Ok (uid, tok, exp, a') → (now' < exp)%Z →
  authenticate a' tok now' = Ok uid ∧ exp = (now + 86400)%Z ∧ cred_known c uid = true.
Proof.
  intros Hl Hn. apply login_Ok in Hl as (Hv & -> & -> & ->).
  split; [|split; [done|by eapply cred_verify_known]].
  unfold authenticate. simpl. rewrite lookup_insert_eq.
  by rewrite (proj2 (Z.ltb_lt _ _) Hn).
Qed.

(** [login] adds exactly one session under a token no live session has:
    every other session is untouched, and the table stays well formed. *)
Theorem login_fresh_session c a e raw now uid tok exp a' :
  wf a → login c a e raw now = Ok (uid, tok, exp, a') →
  sessions a !! tok = None ∧ (∀ t, t ≠ tok → sessions a' !! t = sessions a !! t) ∧ wf a'.
Proof.
  intros Hwf Hl. apply login_Ok in Hl as (_ & -> & -> & ->). split; [|split].
  - destruct (sessions a !! next_token a) eqn:E; [|done]. apply Hwf in E. lia.
  - intros t Ht. simpl. by rewrite lookup_insert_ne.
  - intros t v. simpl. rewrite lookup_insert. case_decide; [lia|]. intros Hs. apply Hwf in Hs. lia.
Qed.

(** A failed credential check is reported as such and opens no session. *)
Theorem login_propagates_error c a e raw now err :
  cred_verify c e raw = Err err → login c a e raw now = Err (Cred err).
Proof. unfold login. by intros ->. Qed.

End Properties.

(** A session is refused with [SessionExpired] from its expiry instant
    on, and with [InvalidToken] once logged out; logging out twice is the
    same as once. *)
Theorem session_end a tok uid exp now :
  sessions a !! tok = Some (uid, exp) →
  ((exp <= now)%Z → authenticate a tok now = Err SessionExpired) ∧
  authenticate (logout a tok) tok now = Err InvalidToken ∧
  logout (logout a tok) tok = logout a tok.
Proof.
  intros Hs. split; [|split].
  - intros Hle. unfold authenticate. rewrite Hs. by rewrite (proj2 (Z.ltb_ge _ _) Hle).
  - unfold authenticate, logout. simpl. by rewrite lookup_delete_eq.
  - unfold logout. simpl. by rewrite delete_delete_eq.
Qed.

(** Purging expired sessions changes no answer of [authenticate] for
    later instants: a purged token was already refused. *)
Theorem expire_sound a now now' tok :
  (now <= now')%Z →
  match authenticate (expire a now) tok now', authenticate a tok now' with
  | Ok u, Ok u' => u = u'
  | Err _, Err _ => True
  | _, _ => False
  end.
Proof.
  intros Hle. unfold authenticate, expire. simpl. rewrite map_lookup_filter.
  destruct (sessions a !! tok) as [[uid exp]|]; simpl; [|done].
  case_guard; simpl.
  - by destruct (Z.ltb now' exp).
  - destruct (Z.ltb_spec now' exp); [lia|done].
Qed.

(** The scenario of the specification, against the credential store:
    after a successful registration, logging in with the same e-mail and
    password yields a token that authenticates as the new user. *)
Theorem register_login_authenticate `{Hasher} min_len cs e raw slt p t uid cs' a now :
  (∀ slt raw, hash_fn slt raw ≠ "") → CredentialStore.wf cs →
  CredentialStore.register min_len hash_fn cs e raw slt p t = Ok (uid, cs') →
  ∃ tok exp a', login cs' a e raw now = Ok (uid, tok, exp, a') ∧ authenticate a' tok now = Ok uid.
Proof.
  intros Hh Hwf Hr.
  assert (Hv : cred_verify cs' e raw = Ok uid)
    by (eapply (CredentialStore.register_verify min_len hash_fn Hh); eauto).
  unfold login. rewrite Hv. do 3 eexists. split; [reflexivity|].
  unfold authenticate. simpl. rewrite lookup_insert_eq.
  replace (Z.ltb now (now + ttl)) with true by (symmetry; apply Z.ltb_lt; unfold ttl; lia). done.
Qed.

(** ** Witnesses *)

#[local] Instance demo_hasher : Hasher := CredentialStore.demo_hash.

Definition s_alice : CredentialStore.store := CredentialStore.s_alice.

Lemma login_then_authenticate_witness :
  authenticate (mk_state {[0%Z := (0, 86500%Z)]} 1) 0 200 = Ok 0 ∧ (86500 = 100 + 86400)%Z ∧
  cred_known s_alice 0 = true.
Proof.
  apply (login_then_authenticate s_alice init "alice@x.com" "pw123456" 100); [reflexivity|lia].
Defined.

Lemma login_fresh_session_witness :
  sessions init !! 0%Z = None ∧
  (∀ t, t ≠ 0%Z → sessions (mk_state {[0%Z := (0, 86500%Z)]} 1) !! t = sessions init !! t) ∧
  wf (mk_state {[0%Z := (0, 86500%Z)]} 1).
Proof.
  apply (login_fresh_session s_alice init "alice@x.com" "pw123456" 100 0 0 86500).
  - intros t v. simpl. by rewrite lookup_empty.
  - reflexivity.
Defined.

Lemma login_propagates_error_witness :
  login s_alice init "alice@x.com" "wrong-pw" 100 = Err (Cred CredentialStore.InvalidCredential).
Proof. apply login_propagates_error. reflexivity. Defined.

Lemma session_end_witness :
  ((86500 <= 90000)%Z → authenticate (mk_state {[0%Z := (0, 86500%Z)]} 1) 0 90000 = Err SessionExpired) ∧
  authenticate (logout (mk_state {[0%Z := (0, 86500%Z)]} 1) 0) 0 90000 = Err InvalidToken ∧
  logout (logout (mk_state {[0%Z := (0, 86500%Z)]} 1) 0) 0 = logout (mk_state {[0%Z := (0, 86500%Z)]} 1) 0.
Proof. apply session_end with (uid := 0). reflexivity. Defined.

Lemma expire_sound_witness :
  match authenticate (expire (mk_state {[0%Z := (0, 86500%Z)]} 1) 90000) 0 95000,
        authenticate (mk_state {[0%Z := (0, 86500%Z)]} 1) 0 95000 with
  | Ok u, Ok u' => u = u' | Err _, Err _ => True | _, _ => False end.
Proof. apply expire_sound. lia. Defined.

Lemma register_login_authenticate_witness :
  ∃ tok exp a', login s_alice init "alice@x.com" "pw123456" 100 = Ok (0, tok, exp, a') ∧
                authenticate a' tok 100 = Ok 0.
Proof.
  apply (register_login_authenticate 8 CredentialStore.empty "alice@x.com" "pw123456" "s1"
           CredentialStore.alice 0 0).
  - exact CredentialStore.demo_hash_nonempty.
  - exact CredentialStore.wf_empty.
  - reflexivity.
Defined.

End Authenticator.
