(* ===== verification/SocialGraph.v ===== *)
(** * SocialGraph: friend requests and friendships (spec §4.3)

    Modelled from the specification (the backend is not in [src/]).  A
    relation is stored once per unordered pair of users, under the
    canonical key [(min a b, max a b)] (§9), with its requester and its
    status.  Identity existence is asked of the credential store through
    the [Credentials] interface. *)

From S2P Require Import Prelude CredentialStore Authenticator.
From stdpp Require Import base list strings gmap sets.

Module SocialGraph.

Inductive error :=
| SelfRequest
| UnknownUser
| AlreadyRequested
| NoSuchRequest
| NoSuchRelation.

Inductive status := Pending | Accepted.

#[export] Instance status_eq_dec : EqDecision status.
Proof. solve_decision. Defined.

Record relation := mk_rel {
  requester : nat;
  rstatus : status
}.

Notation graph := (gmap (nat * nat) relation).

(** The canonical key of the unordered pair {a, b}. *)
Definition key (a b : nat) : nat * nat := (min a b, max a b).

Section Operations.
Context {Cs : Type} `{Credentials Cs}.

Definition sendRequest (c : Cs) (g : graph) (from to : nat) : result error graph :=
  if decide (from = to) then Err SelfRequest
  else if negb (cred_known c from && cred_known c to) then Err UnknownUser
  else match g !! key from to with
       | Some _ => Err AlreadyRequested
       | None => Ok (<[key from to := mk_rel from Pending]> g)
       end.

End Operations.

Definition respond (g : graph) (recipient requesterId : nat) (accept : bool) : result error graph :=
  match g !! key recipient requesterId with
  | Some (mk_rel r Pending) =>
      if decide (r = requesterId) then
        if accept then Ok (<[key recipient requesterId := mk_rel r Accepted]> g)
        else Ok (delete (key recipient requesterId) g)
      else Err NoSuchRequest
  | _ => Err NoSuchRequest
  end.

Definition unfriend (g : graph) (u other : nat) : result error graph :=
  match g !! key u other with
  | Some (mk_rel _ Accepted) => Ok (delete (key u other) g)
  | _ => Err NoSuchRelation
  end.

Definition areFriends (g : graph) (a b : nat) : bool :=
  match g !! key a b with
  | Some (mk_rel _ Accepted) => true
  | _ => false
  end.

(** The other end of an accepted relation of [u], read off one entry. *)
Definition friend_of (u : nat) (kr : (nat * nat) * relation) : option nat :=
  match kr with
  | ((x, y), mk_rel _ Accepted) =>
      if decide (x = u) then Some y else if decide (y = u) then Some x else None
  | _ => None
  end.

Definition listFriends (g : graph) (u : nat) : gset nat :=
  list_to_set (omap (friend_of u) (map_to_list g)).

(** Keys are canonical pairs of distinct users and the requester is one of
    them. *)
Definition wf (g : graph) : Prop :=
  ∀ x y r, g !! (x, y) = Some r → x < y ∧ (requester r = x ∨ requester r = y).

(** ** Properties *)

Lemma key_sym a b : key a b = key b a.
Proof. unfold key. f_equal; lia. Qed.

Lemma key_cases a b : key a b = (a, b) ∧ a ≤ b ∨ key a b = (b, a) ∧ b ≤ a.
Proof. unfold key. destruct (Nat.le_ge_cases a b); [left|right]; split; try f_equal; lia. Qed.

#[export] Hint Resolve key_sym : nsocial.

(** Friendship is symmetric: [areFriends a b] and [areFriends b a]
    always agree, since both read the same canonical entry. *)
Theorem areFriends_symmetric g a b : areFriends g a b = areFriends g b a.
Proof. unfold areFriends. by rewrite key_sym. Qed.

Section WithCredentials.
Context {Cs : Type} `{Credentials Cs}.

Lemma sendRequest_Ok c g a b g' :
  sendRequest c g a b = Ok g' →
  a ≠ b ∧ cred_known c a = true ∧ cred_known c b = true ∧ g !! key a b = None ∧
  g' = <[key a b := mk_rel a Pending]> g.
Proof.
  unfold sendRequest. case_decide; [done|].
  destruct (cred_known c a) eqn:Ha, (cred_known c b) eqn:Hb; simpl; try done.
  destruct (g !! key a b) eqn:Hk; [done|]. by intros [= <-].
Qed.

(** After [sendRequest(A, B)], the recipient's acceptance
    [respond(B, A, true)] succeeds and makes A and B friends both ways. *)
Theorem send_then_accept c g a b g1 :
  sendRequest c g a b = Ok g1 →
  ∃ g2, respond g1 b a true = Ok g2 ∧ areFriends g2 a b = true ∧ areFriends g2 b a = true.
Proof.
  intros Hs. apply sendRequest_Ok in Hs as (_ & _ & _ & _ & ->).
  unfold respond. rewrite (key_sym b a), lookup_insert_eq, decide_True by done.
  eexists; split; [reflexivity|]. unfold areFriends.
  rewrite (key_sym b a), lookup_insert_eq. done.
Qed.

(** A request in the opposite direction of a pending one is refused
    with [AlreadyRequested]: both directions share one canonical entry. *)
Theorem send_opposite_already c g a b g1 :
  sendRequest c g a b = Ok g1 → sendRequest c g1 b a = Err AlreadyRequested.
Proof.
  intros Hs. pose proof Hs as Hs'. apply sendRequest_Ok in Hs as (Hne & Ha & Hb & _ & ->).
  unfold sendRequest. rewrite decide_False by congruence. rewrite Ha, Hb. simpl.
  by rewrite (key_sym b a), lookup_insert_eq.
Qed.

(** Only the recipient can answer a request: the requester's own
    [respond(A, B, _)] on its request to B fails with [NoSuchRequest]. *)
Theorem requester_cannot_respond c g a b g1 acc :
  sendRequest c g a b = Ok g1 → respond g1 a b acc = Err NoSuchRequest.
Proof.
  intros Hs. apply sendRequest_Ok in Hs as (Hne & _ & _ & _ & ->).
  unfold respond. rewrite lookup_insert_eq. by rewrite decide_False.
Qed.

End WithCredentials.

(** Either friend may end a friendship; afterwards neither sees the
    other as a friend. *)
Theorem unfriend_either g a b :
  areFriends g a b = true →
  ∃ g', unfriend g b a = Ok g' ∧ areFriends g' a b = false ∧ areFriends g' b a = false.
Proof.
  unfold areFriends, unfriend. rewrite (key_sym b a).
  destruct (g !! key a b) as [[r [|]]|] eqn:Hk; [done| |done]. intros _.
  eexists; split; [reflexivity|]. rewrite lookup_delete_eq. done.
Qed.

Lemma elem_of_listFriends g u v :
  v ∈ listFriends g u ↔ ∃ k r, g !! k = Some r ∧ friend_of u (k, r) = Some v.
Proof.
  unfold listFriends. rewrite elem_of_list_to_set, list_elem_of_omap. split.
  - intros ([k r] & Hin & Hf). apply elem_of_map_to_list in Hin. eauto.
  - intros (k & r & Hk & Hf). exists (k, r). split; [by apply elem_of_map_to_list|done].
Qed.

Lemma listFriends_areFriends g u v : wf g → v ∈ listFriends g u ↔ areFriends g u v = true.
Proof.
  intros Hwf. rewrite elem_of_listFriends. unfold areFriends. split.
  - intros ([x y] & [r st] & Hk & Hf). destruct st; [done|]. simpl in Hf.
    pose proof (Hwf x y _ Hk) as [Hxy _].
    case_decide; simplify_eq.
    + destruct (key_cases u v) as [[-> ?]|[-> ?]]; [by rewrite Hk|lia].
    + case_decide; simplify_eq. destruct (key_cases u v) as [[-> ?]|[-> ?]]; [lia|by rewrite Hk].
  - destruct (g !! key u v) as [[r [|]]|] eqn:Hk; [done| |done]. intros _.
    destruct (key_cases u v) as [[Hkey ?]|[Hkey ?]]; rewrite Hkey in Hk;
      pose proof (Hwf _ _ _ Hk) as [Hlt _]; exists (key u v), (mk_rel r Accepted);
      rewrite Hkey; split; try done; simpl.
    + by rewrite decide_True.
    + rewrite decide_False by lia. by rewrite decide_True.
Qed.

(** ** Well-formedness is an invariant *)

Lemma wf_delete g k : wf g → wf (delete k g).
Proof. intros Hwf x y r Hk. apply lookup_delete_Some in Hk as [_ Hk]. by apply (Hwf x y r). Qed.

Lemma wf_insert_key g a b r :
  wf g → a ≠ b → (requester r = a ∨ requester r = b) → wf (<[key a b := r]> g).
Proof.
  intros Hwf Hne Hr x y r' Hk. apply lookup_insert_Some in Hk as [[Heq <-]|[_ Hk]].
  - unfold key in Heq. injection Heq as <- <-. split; lia.
  - by apply (Hwf x y r').
Qed.

Lemma wf_update g k r0 r :
  wf g → g !! k = Some r0 → requester r = requester r0 → wf (<[k := r]> g).
Proof.
  intros Hwf Hk0 Hr x y r' Hk. apply lookup_insert_Some in Hk as [[-> <-]|[_ Hk]].
  - rewrite Hr. by apply (Hwf _ _ r0).
  - by apply (Hwf x y r').
Qed.

Inductive event :=
| Send (from to : nat)
| Respond (recipient requesterId : nat) (accept : bool)
| Unfriend (u other : nat).

Definition of_result {E A} (r : result E A) : option A := match r with Ok a => Some a | Err _ => None end.

Definition step {Cs} `{Credentials Cs} (c : Cs) (g : graph) (ev : event) : option graph :=
  of_result match ev with
  | Send a b => sendRequest c g a b
  | Respond r q acc => respond g r q acc
  | Unfriend u o => unfriend g u o
  end.

(** Every graph reachable from the empty one by requests, answers and
    unfriendings stores each relation once, under the canonical key of two
    distinct users, with one of them as requester. *)
Theorem graph_wf {Cs} `{Credentials Cs} (c : Cs) g : reachable (step c) ∅ g → wf g.
Proof.
  apply reachable_invariant; [intros x y r; by rewrite lookup_empty|].
  intros g0 [a b|rc q acc|u o] g1 Hwf Hs; unfold step, of_result in Hs.
  - destruct (sendRequest c g0 a b) eqn:E; [|done]. simplify_eq.
    apply sendRequest_Ok in E as (Hne & _ & _ & _ & ->). apply wf_insert_key; auto.
  - unfold respond in Hs. destruct (g0 !! key rc q) as [[r [|]]|] eqn:Hk; try done.
    case_decide; [|done]. destruct acc; simplify_eq.
    + by eapply wf_update.
    + by apply wf_delete.
  - unfold unfriend in Hs. destruct (g0 !! key u o) as [[r [|]]|]; try done. simplify_eq. by apply wf_delete.
Qed.

(** ** Witnesses: alice (0) and bob (1) of the specification's scenario *)

#[local] Instance demo_hasher : Hasher := CredentialStore.demo_hash.

Definition users2 : CredentialStore.store :=
  match CredentialStore.register 8 CredentialStore.demo_hash CredentialStore.s_alice
          "bob@x.com" "pw123456" "s2" CredentialStore.alice 1 with
  | Ok (_, s) => s | Err _ => CredentialStore.s_alice end.

Definition g_req : graph := <[key 0 1 := mk_rel 0 Pending]> ∅.

Lemma send_then_accept_witness :
  ∃ g2, respond g_req 1 0 true = Ok g2 ∧ areFriends g2 0 1 = true ∧ areFriends g2 1 0 = true.
Proof. apply (send_then_accept users2 ∅). reflexivity. Defined.

Lemma send_opposite_already_witness : sendRequest users2 g_req 1 0 = Err AlreadyRequested.
Proof. apply (send_opposite_already users2 ∅). reflexivity. Defined.

Lemma requester_cannot_respond_witness : respond g_req 0 1 true = Err NoSuchRequest.
Proof. apply (requester_cannot_respond users2 ∅). reflexivity. Defined.

Definition g_friends : graph := <[key 0 1 := mk_rel 0 Accepted]> ∅.

Lemma unfriend_either_witness :
  ∃ g', unfriend g_friends 1 0 = Ok g' ∧ areFriends g' 0 1 = false ∧ areFriends g' 1 0 = false.
Proof. apply unfriend_either. reflexivity. Defined.

Lemma g_friends_wf : wf g_friends.
Proof.
  intros x y r. unfold g_friends, key. simpl.
  rewrite lookup_insert_Some, lookup_empty. intros [[[= <- <-] <-]|[_ ?]]; [simpl; lia|done].
Qed.

Lemma graph_wf_witness : wf g_friends.
Proof.
  apply (graph_wf users2).
  apply (run_reachable _ _ [Send 0 1; Respond 1 0 true]). reflexivity.
Defined.

(** [listFriends u] is exactly the set of users [v] with
    [areFriends u v], in every well-formed graph. *)
Theorem listFriends_spec g u v : wf g → v ∈ listFriends g u ↔ areFriends g u v = true.
Proof. apply listFriends_areFriends. Qed.

Lemma listFriends_spec_witness : 1 ∈ listFriends g_friends 0 ↔ areFriends g_friends 0 1 = true.
Proof. apply listFriends_spec. exact g_friends_wf. Defined.

End SocialGraph.
