(* ===== verification/PostStore.v ===== *)
(** * PostStore: posts and their likes (spec §4.4)

    Modelled from the specification (the backend is not in [src/]).  Posts
    are kept by identifier, drawn from a counter, so a larger identifier
    means a later insertion.  The set of likers is a [gset]: liking is
    membership, hence idempotent.  The author's existence is asked of the
    credential store through the [Credentials] interface.  Listings are
    newest first: by creation time, then by identifier. *)

From S2P Require Import Prelude CredentialStore Authenticator.
From stdpp Require Import base list strings gmap sets sorting.
From Stdlib Require Import ZArith.

Module PostStore.

Inductive error :=
| UnknownUser
| NotFound
| Forbidden.

Record post := mk_post {
  author : nat;
  content : string;
  attachment : option string;
  created : Z;
  likes : gset nat
}.

Record state := mk_state {
  posts : gmap nat post;
  next_post : nat
}.

Definition init : state := mk_state ∅ 0.

Definition with_likes (p : post) (ls : gset nat) : post :=
  mk_post (author p) (content p) (attachment p) (created p) ls.

Section WithCredentials.
Context {Cs : Type} `{Credentials Cs}.

(** [create(authorId, content, attachment?) -> PostId] *)
Definition create (c : Cs) (s : state) (a : nat) (body : string) (att : option string) (now : Z)
    : result error (nat * state) :=
  if cred_known c a then
    let pid := next_post s in
    Ok (pid, mk_state (<[pid := mk_post a body att now ∅]> (posts s)) (S pid))
  else Err UnknownUser.

End WithCredentials.

Definition get (s : state) (pid : nat) : result error post :=
  match posts s !! pid with Some p => Ok p | None => Err NotFound end.

(** [delete(postId, requesterId)]: the author only. *)
Definition delete (s : state) (pid requester : nat) : result error state :=
  match posts s !! pid with
  | None => Err NotFound
  | Some p =>
      if decide (author p = requester)
      then Ok (mk_state (base.delete pid (posts s)) (next_post s))
      else Err Forbidden
  end.

Definition set_likes (s : state) (pid : nat) (f : gset nat → gset nat) : result error state :=
  match posts s !! pid with
  | None => Err NotFound
  | Some p => Ok (mk_state (<[pid := with_likes p (f (likes p))]> (posts s)) (next_post s))
  end.

Definition like (s : state) (pid u : nat) : result error state := set_likes s pid (λ ls, {[u]} ∪ ls).

Definition unlike (s : state) (pid u : nat) : result error state := set_likes s pid (λ ls, ls ∖ {[u]}).

(** Newest first: a later creation time, or the same time and a larger
    identifier. *)
Definition newer (x y : nat * post) : Prop :=
  (created y.2 < created x.2)%Z ∨ (created x.2 = created y.2 ∧ y.1 ≤ x.1).

#[export] Instance newer_dec : RelDecision newer.
Proof. intros x y. unfold newer. apply _. Defined.

(** [listByAuthor(authorId)], newest first. *)
Definition listByAuthor (s : state) (a : nat) : list (nat * post) :=
  merge_sort newer (filter (λ ip, author ip.2 = a) (map_to_list (posts s))).

(** ** Properties *)

Lemma set_likes_Ok s pid f s' :
  set_likes s pid f = Ok s' →
  ∃ p, posts s !! pid = Some p ∧
       s' = mk_state (<[pid := with_likes p (f (likes p))]> (posts s)) (next_post s).
Proof. unfold set_likes. destruct (posts s !! pid) as [p|]; [|done]. intros [= <-]. eauto. Qed.

Lemma with_likes_twice p ls ls' : with_likes (with_likes p ls) ls' = with_likes p ls'.
Proof. done. Qed.

Lemma with_likes_id p ls : ls = likes p → with_likes p ls = p.
Proof. intros ->. by destruct p. Qed.

(** Liking is idempotent: liking the same post twice leaves the same
    store as liking it once (and a missing post is [NotFound] both times). *)
Theorem like_idempotent s pid u : rbind (like s pid u) (λ s', like s' pid u) = like s pid u.
Proof.
  unfold like, set_likes. destruct (posts s !! pid) as [p|] eqn:Hp; simpl; [|done].
  rewrite lookup_insert_eq. simpl. rewrite insert_insert_eq. do 3 f_equal.
  unfold with_likes. simpl. f_equal. set_solver.
Qed.

(** [unlike] undoes [like] for a user who had not liked the post:
    the store is back to what it was. *)
Theorem like_then_unlike s pid u p :
  posts s !! pid = Some p → u ∉ likes p →
  rbind (like s pid u) (λ s', unlike s' pid u) = Ok s.
Proof.
  intros Hp Hu. unfold like, unlike, set_likes. rewrite Hp. simpl.
  rewrite lookup_insert_eq. simpl. rewrite insert_insert_eq.
  rewrite with_likes_twice, with_likes_id by set_solver. rewrite insert_id by done. by destruct s.
Qed.

(** Only the author deletes a post: anyone else gets [Forbidden] and
    the store is unchanged; the author's delete makes the post [NotFound]. *)
Theorem delete_ownership s pid p x :
  posts s !! pid = Some p →
  (x ≠ author p → delete s pid x = Err Forbidden) ∧
  (∀ s', delete s pid (author p) = Ok s' → get s' pid = Err NotFound).
Proof.
  intros Hp. unfold delete. rewrite Hp. split.
  - intros Hx. by rewrite decide_False by congruence.
  - rewrite decide_True by done. intros s' [= <-]. unfold get. simpl. by rewrite lookup_delete_eq.
Qed.

#[export] Instance newer_total : Total newer.
Proof. intros [i p] [j q]. unfold newer. simpl. lia. Qed.

(** [listByAuthor a] lists exactly the posts whose author is [a], each
    once, newest first. *)
Theorem listByAuthor_spec s a :
  (∀ i p, (i, p) ∈ listByAuthor s a ↔ posts s !! i = Some p ∧ author p = a) ∧
  NoDup (listByAuthor s a).*1 ∧ Sorted newer (listByAuthor s a).
Proof.
  unfold listByAuthor. split; [|split].
  - intros i p. rewrite (merge_sort_Permutation _ _), list_elem_of_filter, elem_of_map_to_list. simpl. tauto.
  - eapply NoDup_fst_filter_map, merge_sort_Permutation.
  - apply Sorted_merge_sort, _.
Qed.

(** ** Witnesses *)

Definition demo_post : post := mk_post 1 "hello" None 10 ∅.
Definition s_one : state := mk_state {[0 := demo_post]} 1.

Lemma like_then_unlike_witness : rbind (like s_one 0 0) (λ s', unlike s' 0 0) = Ok s_one.
Proof. apply (like_then_unlike s_one 0 0 demo_post); [reflexivity|set_solver]. Defined.

Lemma delete_ownership_witness :
  (0 ≠ author demo_post → delete s_one 0 0 = Err Forbidden) ∧
  (∀ s', delete s_one 0 (author demo_post) = Ok s' → get s' 0 = Err NotFound).
Proof. apply delete_ownership. reflexivity. Defined.

End PostStore.
