(* ===== verification/Feed.v ===== *)
(** * Feed: the feed composer (spec §4.5)

    Modelled from the specification (the backend is not in [src/]).  The
    feed is not stored: [getFeed] composes it at read time from the post
    store and the friendship relation, so it reflects the current state by
    construction.  The composer asks the social graph only through the
    [Friendships] interface (a symmetric [areFriends]); the graph of
    [SocialGraph] discharges it. *)

From S2P Require Import Prelude CredentialStore Authenticator SocialGraph PostStore.
From stdpp Require Import base list strings gmap sets sorting.
From Stdlib Require Import ZArith.

(** What the social graph promises the feed composer. *)
Class Friendships (G : Type) := {
  friends : G → nat → nat → bool;
  friends_sym : ∀ g a b, friends g a b = friends g b a
}.

#[export] Instance graph_friendships : Friendships SocialGraph.graph := {|
  friends := SocialGraph.areFriends;
  friends_sym := SocialGraph.areFriends_symmetric
|}.

Module Feed.
Import PostStore.

Section Composer.
Context {G : Type} `{Friendships G}.

(** A post is visible to [r] when [r] wrote it or is a friend of its author. *)
Definition visible (g : G) (r : nat) (ip : nat * post) : Prop :=
  author ip.2 = r ∨ friends g r (author ip.2) = true.

#[export] Instance visible_dec g r : ∀ ip, Decision (visible g r ip).
Proof. intros ip. unfold visible. apply _. Defined.

(** [getFeed(requesterId)]: own and friends' posts, newest first. *)
Definition getFeed (g : G) (s : PostStore.state) (r : nat) : list (nat * post) :=
  merge_sort newer (filter (visible g r) (map_to_list (posts s))).

(** The authorization gate of [likeOnFeed]/[unlikeOnFeed]: the author or a
    friend of the author. *)
Definition gate (g : G) (s : PostStore.state) (pid u : nat)
    (k : PostStore.state → nat → nat → result PostStore.error PostStore.state) :
    result PostStore.error PostStore.state :=
  match posts s !! pid with
  | None => Err NotFound
  | Some p => if decide (u = author p ∨ friends g u (author p) = true) then k s pid u else Err Forbidden
  end.

Definition likeOnFeed (g : G) (s : PostStore.state) (pid u : nat) := gate g s pid u like.
Definition unlikeOnFeed (g : G) (s : PostStore.state) (pid u : nat) := gate g s pid u unlike.

(** [deleteFromFeed]: the post store's ownership rule, unchanged. *)
Definition deleteFromFeed (s : PostStore.state) (pid u : nat) := PostStore.delete s pid u.

End Composer.

(** ** Properties against the interface *)

Section Properties.
Context {G : Type} `{Friendships G}.

Lemma elem_of_getFeed g s r i p :
  (i, p) ∈ getFeed g s r ↔ posts s !! i = Some p ∧ visible g r (i, p).
Proof.
  unfold getFeed. rewrite (merge_sort_Permutation _ _), list_elem_of_filter, elem_of_map_to_list. tauto.
Qed.

(** The feed lists each visible post once, newest first (creation
    time, then insertion order). *)
Theorem getFeed_ordered g s r : NoDup (getFeed g s r).*1 ∧ Sorted newer (getFeed g s r).
Proof.
  split; [eapply NoDup_fst_filter_map, merge_sort_Permutation|apply Sorted_merge_sort, _].
Qed.

(** Liking through the feed is allowed to the author and the author's
    friends, and is then exactly the post store's [like]; anyone else gets
    [Forbidden]. *)
Theorem likeOnFeed_gate g s pid u p :
  posts s !! pid = Some p →
  likeOnFeed g s pid u =
    if decide (u = author p ∨ friends g u (author p) = true) then like s pid u else Err Forbidden.
Proof. intros Hp. unfold likeOnFeed, gate. by rewrite Hp. Qed.

(** A deleted post disappears from every feed: the feed is derived from
    the store at read time. *)
Theorem delete_leaves_feeds g s pid u s' :
  deleteFromFeed s pid u = Ok s' → ∀ r p, (pid, p) ∉ getFeed g s' r.
Proof.
  unfold deleteFromFeed, PostStore.delete. destruct (posts s !! pid) as [q|]; [|done].
  case_decide; [|done]. intros [= <-] r p. rewrite elem_of_getFeed. simpl.
  rewrite lookup_delete_eq. naive_solver.
Qed.

End Properties.

(** Feed completeness against the social graph: the feed of [r] holds
    exactly [r]'s own posts and the posts of every user in
    [listFriends r], and no others. *)
Theorem getFeed_complete (g : SocialGraph.graph) s r i p :
  SocialGraph.wf g →
  (i, p) ∈ getFeed g s r ↔ posts s !! i = Some p ∧ (author p = r ∨ author p ∈ SocialGraph.listFriends g r).
Proof.
  intros Hwf. rewrite elem_of_getFeed. unfold visible. simpl.
  rewrite (SocialGraph.listFriends_areFriends g r (author p) Hwf). tauto.
Qed.

(** ** The scenario of the specification (§8)

    alice (0) and bob (1) register; alice asks bob, bob accepts; bob posts
    "hello"; alice sees it, likes it, unlikes it. *)

#[local] Instance demo_hasher : Hasher := CredentialStore.demo_hash.

Definition scenario : option (bool * list (nat * post) * gset nat * gset nat) :=
  match SocialGraph.sendRequest SocialGraph.users2 ∅ 0 1 with
  | Err _ => None
  | Ok g1 =>
    match SocialGraph.respond g1 1 0 true with
    | Err _ => None
    | Ok g2 =>
      match PostStore.create SocialGraph.users2 PostStore.init 1 "hello" None 10 with
      | Err _ => None
      | Ok (pid, s1) =>
        match likeOnFeed g2 s1 pid 0 with
        | Err _ => None
        | Ok s2 =>
          match unlikeOnFeed g2 s2 pid 0 with
          | Err _ => None
          | Ok s3 =>
            Some (SocialGraph.areFriends g2 0 1, getFeed g2 s1 0,
                  default ∅ (likes <$> posts s2 !! pid), default ∅ (likes <$> posts s3 !! pid))
          end
        end
      end
    end
  end.

(** The concrete scenario of the specification runs to the end: alice
    and bob are friends, bob's post is alice's whole feed, alice's like
    gives the liker set {alice} and her unlike empties it again. *)
Theorem scenario_outcome :
  scenario = Some (true, [(0, mk_post 1 "hello" None 10 ∅)], {[0]}, ∅).
Proof. vm_compute. reflexivity. Qed.

(** ** Witnesses *)

Definition g_ab : SocialGraph.graph := SocialGraph.g_friends.
Definition s_bob : PostStore.state := PostStore.mk_state {[0 := mk_post 1 "hello" None 10 ∅]} 1.

Lemma likeOnFeed_gate_witness :
  likeOnFeed g_ab s_bob 0 0 =
    if decide (0 = author (mk_post 1 "hello" None 10 ∅) ∨ friends g_ab 0 (author (mk_post 1 "hello" None 10 ∅)) = true)
    then like s_bob 0 0 else Err Forbidden.
Proof. apply likeOnFeed_gate. reflexivity. Defined.

Lemma delete_leaves_feeds_witness : ∀ r p, (0, p) ∉ getFeed g_ab (PostStore.mk_state ∅ 1) r.
Proof. apply (delete_leaves_feeds g_ab s_bob 0 1). reflexivity. Defined.

Lemma getFeed_complete_witness :
  (0, mk_post 1 "hello" None 10 ∅) ∈ getFeed g_ab s_bob 0 ↔
  posts s_bob !! 0 = Some (mk_post 1 "hello" None 10 ∅) ∧
  (author (mk_post 1 "hello" None 10 ∅) = 0 ∨ author (mk_post 1 "hello" None 10 ∅) ∈ SocialGraph.listFriends g_ab 0).
Proof. apply getFeed_complete. exact SocialGraph.g_friends_wf. Defined.

End Feed.
