(* ===== verification/EndToEnd.v ===== *)
(** * EndToEnd: the pages of [src/project/src/pages] against the specified backend

    The pages talk to the server through [apiRequest], [getUserInfo] and
    [fetchPosts]; the routes behind them are not in [src/] (the server of
    [src/server/index.js] mounts none, see [Server.serve_status]).  This
    file models, from the specification (§6: request fields [email],
    [password], [firstName], [lastName], token carried with the request),
    the transport that would serve them from the backend of §4:

    - [Transport]: identifiers and tokens as decimal strings (with their
      round trips), the JSON the routes answer, and the routes
      [/auth/login], [/auth/register], [/users/find/:id] and
      [/posts/get-user-post/:id] over a [world] holding the four stores;
    - [LoginSystem], [RegisterSystem]: a page and the world as one machine;
      the page's UI events are its own, [Deliver] runs the route on the
      body the page is waiting for and hands the answer to the page, and
      [Drop] is a network failure;
    - the profile page run against [Transport.user_route] and
      [Transport.posts_route].

    The failure answer is [{status: "failed", message}], the shape both
    authentication pages test for; e-mail not found and wrong password
    give the same message (§7). *)

From S2P Require Import Prelude Js Form Pages LoginPage RegisterPage ProfilePage.
From S2P Require Import CredentialStore Authenticator SocialGraph PostStore.
From stdpp Require Import base list strings gmap sets.
From Stdlib Require Import ZArith Sorted DecimalString DecimalNat DecimalZ.

Module Transport.

(** ** Identifiers and tokens on the wire *)

Definition enc_id (n : nat) : string := NilEmpty.string_of_uint (Nat.to_uint n).
Definition dec_id (s : string) : option nat := Nat.of_uint <$> NilEmpty.uint_of_string s.

Definition enc_tok (t : Z) : string := NilEmpty.string_of_int (Z.to_int t).
Definition dec_tok (s : string) : option Z := Z.of_int <$> NilEmpty.int_of_string s.

Lemma dec_enc_id n : dec_id (enc_id n) = Some n.
Proof. unfold dec_id, enc_id. rewrite NilEmpty.usu. simpl. by rewrite DecimalNat.Unsigned.of_to. Qed.

Lemma dec_enc_tok t : dec_tok (enc_tok t) = Some t.
Proof. unfold dec_tok, enc_tok. rewrite NilEmpty.isi. simpl. by rewrite DecimalZ.of_to. Qed.

(** The rest of a path after a fixed prefix. *)
Fixpoint strip_prefix (p s : string) : option string :=
  match p, s with
  | EmptyString, _ => Some s
  | String c p', String d s' => if Ascii.eqb c d then strip_prefix p' s' else None
  | String _ _, EmptyString => None
  end.

Lemma strip_prefix_app p s : strip_prefix p (p +:+ s) = Some s.
Proof. induction p as [|c p IH]; simpl; [done|]. by rewrite Ascii.eqb_refl. Qed.

(** ** The backend behind the routes *)

Record world := mk_world {
  creds : CredentialStore.store;
  auth : Authenticator.state;
  friendships : gmap (nat * nat) SocialGraph.relation;
  posts_db : PostStore.state;
  clock : Z
}.

(** A string field of a request body; a missing field reads as [""]. *)
Definition field (b : jval) (k : string) : string :=
  match Js.oget b k with JStr v => v | _ => "" end.

Definition failed (msg : string) : jval :=
  JObj [("status", JStr "failed"); ("message", JStr msg)].

Definition succeeded (msg : string) (extra : list (string * jval)) : jval :=
  JObj ([("status", JStr "success"); ("message", JStr msg)] ++ extra).

(** §7: unknown e-mail and wrong password are one message. *)
Definition cred_message (e : CredentialStore.error) : string :=
  match e with
  | CredentialStore.DuplicateEmail => "Email Address already exists"
  | CredentialStore.WeakCredential => "Password does not meet the policy"
  | CredentialStore.NotFound | CredentialStore.InvalidCredential => "Invalid email or password"
  end.

Definition ids (xs : gset nat) : jval := JArr ((λ v, JStr (enc_id v)) <$> elements xs).

(** The user object the routes answer with: no password hash, no token. *)
Definition enc_user (w : world) (uid : nat) : jval :=
  match CredentialStore.users (creds w) !! uid with
  | Some u =>
      let p := CredentialStore.prof u in
      JObj [("_id", JStr (enc_id uid)); ("email", JStr (CredentialStore.email u));
            ("firstName", JStr (CredentialStore.firstName p));
            ("lastName", JStr (CredentialStore.lastName p));
            ("friends", ids (SocialGraph.listFriends (friendships w) uid))]
  | None => JUndefined
  end.

Definition enc_post (ip : nat * PostStore.post) : jval :=
  JObj [("_id", JStr (enc_id ip.1)); ("userId", JStr (enc_id (PostStore.author ip.2)));
        ("description", JStr (PostStore.content ip.2));
        ("image", match PostStore.attachment ip.2 with Some a => JStr a | None => JUndefined end);
        ("likes", ids (PostStore.likes ip.2)); ("createdAt", JNum (PostStore.created ip.2))].

Section Routes.
Context `{Hasher} (min_len : nat).

(** [POST /auth/login]: §4.2 [login], the user and the token in the answer. *)
Definition login_route (w : world) (body : jval) : jval * world :=
  match Authenticator.login (creds w) (auth w) (field body "email") (field body "password") (clock w) with
  | Ok (uid, tok, _, a') =>
      (succeeded "Login successfully" [("user", enc_user w uid); ("token", JStr (enc_tok tok))],
       mk_world (creds w) a' (friendships w) (posts_db w) (clock w))
  | Err (Authenticator.Cred e) => (failed (cred_message e), w)
  | Err _ => (failed "Invalid email or password", w)
  end.

(** [POST /auth/register]: §4.1 [register]; the salt is drawn per user. *)
Definition register_route (w : world) (body : jval) : jval * world :=
  let cs := creds w in
  let prof := CredentialStore.mk_profile (field body "firstName") (field body "lastName") "" "" in
  match CredentialStore.register min_len hash_fn cs (field body "email") (field body "password")
          (enc_id (CredentialStore.next_id cs)) prof (Z.to_nat (clock w)) with
  | Ok (_, cs') =>
      (succeeded "Account created successfully" [],
       mk_world cs' (auth w) (friendships w) (posts_db w) (clock w))
  | Err e => (failed (cred_message e), w)
  end.

(** The login route on the body the login page sends. *)
Lemma login_route_Ok w em pw uid :
  CredentialStore.verify hash_fn (creds w) em pw = Ok uid →
  login_route w (JObj [("email", JStr em); ("password", JStr pw)]) =
    (succeeded "Login successfully"
       [("user", enc_user w uid); ("token", JStr (enc_tok (Authenticator.next_token (auth w))))],
     mk_world (creds w)
       (Authenticator.mk_state
          (<[Authenticator.next_token (auth w) := (uid, (clock w + Authenticator.ttl)%Z)]>
             (Authenticator.sessions (auth w)))
          (Authenticator.next_token (auth w) + 1))
       (friendships w) (posts_db w) (clock w)).
Proof. intros Hv. unfold login_route, field. simpl. unfold Authenticator.login. simpl. by rewrite Hv. Qed.

Lemma login_route_Err w em pw err :
  CredentialStore.verify hash_fn (creds w) em pw = Err err →
  login_route w (JObj [("email", JStr em); ("password", JStr pw)]) =
    (failed "Invalid email or password", w).
Proof.
  intros Hv. unfold login_route, field. simpl. unfold Authenticator.login. simpl. rewrite Hv.
  by destruct (CredentialStore.verify_Err _ _ _ _ _ Hv) as [-> | ->].
Qed.

End Routes.

(** [getUserInfo(token, id)]: the user, [undefined] when there is none. *)
Definition user_route (w : world) (id : string) : jval :=
  match dec_id id with Some uid => enc_user w uid | None => JUndefined end.

(** [fetchPosts(token, dispatch, "/posts/get-user-post/" + id)]: §4.4
    [listByAuthor], newest first. *)
Definition posts_route (w : world) (uri : string) : jval :=
  match strip_prefix "/posts/get-user-post/" uri ≫= dec_id with
  | Some uid => JArr (enc_post <$> PostStore.listByAuthor (posts_db w) uid)
  | None => JArr []
  end.

End Transport.

(** ** The login page and the backend *)
Module LoginSystem.
Import Transport.

Record sys := mk_sys { page : LoginPage.state; world : Transport.world }.

Inductive event :=
| UI (e : LoginPage.event)
| Deliver
| Drop.

Section Machine.
Context `{Hasher}.

(** Answers and failures come from the network, not from the user. *)
Definition step (x : sys) (e : event) : option sys :=
  match e with
  | UI (LoginPage.Response _) | UI LoginPage.Failure => None
  | UI ev => (λ p, mk_sys p (world x)) <$> LoginPage.step (page x) ev
  | Deliver =>
      match LoginPage.pending (page x) with
      | Some body =>
          let '(res, w') := login_route (world x) body in
          (λ p, mk_sys p w') <$> LoginPage.step (page x) (LoginPage.Response res)
      | None => None
      end
  | Drop => (λ p, mk_sys p (world x)) <$> LoginPage.step (page x) LoginPage.Failure
  end.

(** The body a valid submit sends, read back by the route. *)
Lemma login_submit_deliver s w em pw :
  LoginPage.location s = LoginPage.path → LoginPage.isSubmitting s = false →
  Form.value_of (Form.vals (LoginPage.form s)) "email" = em → em ≠ "" →
  Form.value_of (Form.vals (LoginPage.form s)) "password" = pw → pw ≠ "" →
  ∃ s1, run step (mk_sys s w) [UI LoginPage.Submit; Deliver] =
          (let '(res, w') := login_route w (JObj [("email", JStr em); ("password", JStr pw)]) in
           Some (mk_sys (LoginPage.onResponse s1 res) w')) ∧
        LoginPage.user s1 = LoginPage.user s ∧ LoginPage.location s1 = LoginPage.path.
Proof.
  intros Hl Hs He Hem Hp Hpw.
  pose proof (LoginPage.login_submit_step s em pw Hl Hs He Hem Hp Hpw) as Hstep.
  eexists (LoginPage.mk_state _ (JStr "") true _ (LoginPage.user s) LoginPage.path).
  split; [|split; reflexivity].
  simpl. rewrite Hstep. simpl.
  unfold field; simpl. destruct (login_route _ _) as [res w'] eqn:Hr.
  reflexivity.
Qed.

(** Valid credentials: the page stores the user with the token of a new
    session of that user and leaves for ["/"]. *)
Lemma login_accepts s w em pw uid :
  LoginPage.location s = LoginPage.path → LoginPage.isSubmitting s = false →
  Form.value_of (Form.vals (LoginPage.form s)) "email" = em → em ≠ "" →
  Form.value_of (Form.vals (LoginPage.form s)) "password" = pw → pw ≠ "" →
  CredentialStore.verify hash_fn (creds w) em pw = Ok uid →
  ∃ x, run step (mk_sys s w) [UI LoginPage.Submit; Deliver] = Some x ∧
       LoginPage.location (page x) = "/" ∧
       ∃ u str tok, LoginPage.user (page x) = Some u ∧ Js.oget u "token" = JStr str ∧
                    dec_tok str = Some tok ∧ Js.oget u "_id" = JStr (enc_id uid) ∧
                    Authenticator.authenticate (auth (world x)) tok (clock w) = Ok uid.
Proof.
  intros Hl Hs He Hem Hp Hpw Hv.
  destruct (login_submit_deliver s w em pw) as (s1 & Hrun & _ & _); [done..|].
  rewrite (login_route_Ok w em pw uid Hv) in Hrun.
  eexists. split; [exact Hrun|]. split; [reflexivity|].
  destruct (CredentialStore.verify_Ok _ _ _ _ _ Hv) as (u & Hu & _).
  do 3 eexists. split; [reflexivity|]. unfold LoginPage.newData, enc_user. rewrite Hu.
  split; [reflexivity|]. split; [apply dec_enc_tok|]. split; [reflexivity|].
  unfold Authenticator.authenticate. simpl. rewrite lookup_insert_eq.
  unfold Authenticator.ttl. by rewrite (proj2 (Z.ltb_lt _ _)) by lia.
Qed.

(** C8: A login the backend refuses, for an unknown e-mail or a wrong
    password alike, shows the same message, stores no user, stays on the
    page and creates no session. *)
Theorem login_rejected_uniform s w em pw err :
  LoginPage.location s = LoginPage.path → LoginPage.isSubmitting s = false →
  Form.value_of (Form.vals (LoginPage.form s)) "email" = em → em ≠ "" →
  Form.value_of (Form.vals (LoginPage.form s)) "password" = pw → pw ≠ "" →
  CredentialStore.verify hash_fn (creds w) em pw = Err err →
  ∃ x, run step (mk_sys s w) [UI LoginPage.Submit; Deliver] = Some x ∧ world x = w ∧
       LoginPage.errMsg (page x) = failed "Invalid email or password" ∧
       Pages.alert_view (LoginPage.errMsg (page x)) = Pages.Alert true (JStr "Invalid email or password") ∧
       LoginPage.user (page x) = LoginPage.user s ∧
       LoginPage.location (page x) = LoginPage.path ∧ LoginPage.isSubmitting (page x) = false.
Proof.
  intros Hl Hs He Hem Hp Hpw Hv.
  destruct (login_submit_deliver s w em pw) as (s1 & Hrun & Hu & Hl1); [done..|].
  rewrite (login_route_Err w em pw err Hv) in Hrun.
  eexists. split; [exact Hrun|]. by repeat split.
Qed.

(** C12: When the request fails in the network, the [catch] only logs it:
    the page shows no message at all (the submit cleared it), stores no
    user and offers the button again. *)
Theorem login_network_failure_silent s w em pw :
  LoginPage.location s = LoginPage.path → LoginPage.isSubmitting s = false →
  Form.value_of (Form.vals (LoginPage.form s)) "email" = em → em ≠ "" →
  Form.value_of (Form.vals (LoginPage.form s)) "password" = pw → pw ≠ "" →
  ∃ x, run step (mk_sys s w) [UI LoginPage.Submit; Drop] = Some x ∧ world x = w ∧
       Pages.alert_view (LoginPage.errMsg (page x)) = Pages.NoAlert ∧
       LoginPage.user (page x) = LoginPage.user s ∧
       LoginPage.location (page x) = LoginPage.path ∧
       Pages.submit_view (LoginPage.isSubmitting (page x)) "Login" = Pages.ShowButton "Login".
Proof.
  intros Hl Hs He Hem Hp Hpw. simpl.
  rewrite (LoginPage.login_submit_step s em pw Hl Hs He Hem Hp Hpw). simpl.
  eexists. by repeat split.
Qed.

(** Typing an e-mail and a password into a fresh login page. *)
Lemma typed_login w em pw :
  run step (mk_sys LoginPage.init w) [UI (LoginPage.Change "email" em); UI (LoginPage.Change "password" pw)] =
    Some (mk_sys (LoginPage.change (LoginPage.change LoginPage.init "email" em) "password" pw) w) ∧
  Form.value_of (Form.vals (LoginPage.form (LoginPage.change (LoginPage.change LoginPage.init "email" em) "password" pw))) "email" = em ∧
  Form.value_of (Form.vals (LoginPage.form (LoginPage.change (LoginPage.change LoginPage.init "email" em) "password" pw))) "password" = pw.
Proof.
  split; [reflexivity|]. unfold LoginPage.change. simpl. autorewrite with nsocial_rw.
  split; [|done]. rewrite Form.value_of_set_ne by done. by autorewrite with nsocial_rw.
Qed.

End Machine.
End LoginSystem.

(** ** The register page and the backend *)
Module RegisterSystem.
Import Transport.

Record sys := mk_sys { page : RegisterPage.state; world : Transport.world }.

Inductive event :=
| UI (e : RegisterPage.event)
| Deliver
| Drop.

Section Machine.
Context `{Hasher} (min_len : nat).

Definition step (x : sys) (e : event) : option sys :=
  match e with
  | UI (RegisterPage.Response _) | UI RegisterPage.Failure => None
  | UI ev => (λ p, mk_sys p (world x)) <$> RegisterPage.step (page x) ev
  | Deliver =>
      match RegisterPage.pending (page x) with
      | Some body =>
          let '(res, w') := register_route min_len (world x) body in
          (λ p, mk_sys p w') <$> RegisterPage.step (page x) (RegisterPage.Response res)
      | None => None
      end
  | Drop => (λ p, mk_sys p (world x)) <$> RegisterPage.step (page x) RegisterPage.Failure
  end.

(** The five inputs of a valid submit, as the route reads them. *)
Definition typed (s : RegisterPage.state) (k : string) : string :=
  Form.value_of (Form.vals (RegisterPage.form s)) k.

Definition filled (s : RegisterPage.state) : Prop :=
  RegisterPage.location s = RegisterPage.path ∧ RegisterPage.isSubmitting s = false ∧
  typed s "firstName" ≠ "" ∧ typed s "lastName" ≠ "" ∧ typed s "email" ≠ "" ∧
  typed s "password" ≠ "" ∧ typed s "cPassword" = typed s "password".

(** The registration the route performs for a filled page. *)
Definition backend_register (s : RegisterPage.state) (w : Transport.world) :=
  CredentialStore.register min_len hash_fn (creds w) (typed s "email") (typed s "password")
    (enc_id (CredentialStore.next_id (creds w)))
    (CredentialStore.mk_profile (typed s "firstName") (typed s "lastName") "" "")
    (Z.to_nat (clock w)).

Lemma register_submit_deliver s w :
  filled s →
  run step (mk_sys s w) [UI RegisterPage.Submit; Deliver] =
    match backend_register s w with
    | Ok (_, cs') =>
        Some (mk_sys (RegisterPage.mk_state (Form.mk_state (Form.vals (RegisterPage.form s)) [])
                        (succeeded "Account created successfully" []) false None
                        (S (RegisterPage.intervals s)) RegisterPage.path)
                     (mk_world cs' (auth w) (friendships w) (posts_db w) (clock w)))
    | Err e =>
        Some (mk_sys (RegisterPage.mk_state (Form.mk_state (Form.vals (RegisterPage.form s)) [])
                        (failed (cred_message e)) false None
                        (RegisterPage.intervals s) RegisterPage.path) w)
    end.
Proof.
  intros (Hl & Hs & H1 & H2 & H3 & H4 & H5).
  simpl. rewrite (RegisterPage.register_submit_step s Hl Hs H1 H2 H3 H4 H5). simpl.
  unfold register_route, field, backend_register, typed. simpl.
  by destruct (CredentialStore.register _ _ _ _ _ _ _ _) as [[uid cs']|e].
Qed.

End Machine.
End RegisterSystem.

(** ** End-to-end properties *)
Section EndToEndProps.
Context `{Hasher} (min_len : nat).
Import Transport.

(** C10: Registering an e-mail that is already taken, in any
    capitalisation, shows the backend's [DuplicateEmail] message, arms no
    redirect and leaves the backend unchanged. *)
Theorem register_duplicate_shown s w uid :
  RegisterSystem.filled s →
  CredentialStore.find_email (CredentialStore.users (creds w)) (RegisterSystem.typed s "email") = Some uid →
  ∃ x, run (RegisterSystem.step min_len) (RegisterSystem.mk_sys s w)
         [RegisterSystem.UI RegisterPage.Submit; RegisterSystem.Deliver] = Some x ∧
       RegisterSystem.world x = w ∧
       RegisterPage.errMsg (RegisterSystem.page x) = failed "Email Address already exists" ∧
       RegisterPage.intervals (RegisterSystem.page x) = RegisterPage.intervals s.
Proof.
  intros Hf Hdup. rewrite (RegisterSystem.register_submit_deliver min_len s w Hf).
  unfold RegisterSystem.backend_register, CredentialStore.register. rewrite Hdup.
  eexists. by repeat split.
Qed.

(** C11: The register page only checks that the password is not empty: a
    short password is sent, the backend refuses it with [WeakCredential],
    and the page shows that message and arms no redirect. *)
Theorem register_weak_password_refused s w :
  RegisterSystem.filled s →
  CredentialStore.find_email (CredentialStore.users (creds w)) (RegisterSystem.typed s "email") = None →
  CredentialStore.weak min_len (RegisterSystem.typed s "password") = true →
  ∃ x, run (RegisterSystem.step min_len) (RegisterSystem.mk_sys s w)
         [RegisterSystem.UI RegisterPage.Submit; RegisterSystem.Deliver] = Some x ∧
       RegisterSystem.world x = w ∧
       RegisterPage.errMsg (RegisterSystem.page x) = failed "Password does not meet the policy" ∧
       RegisterPage.intervals (RegisterSystem.page x) = RegisterPage.intervals s.
Proof.
  intros Hf Hnew Hweak. rewrite (RegisterSystem.register_submit_deliver min_len s w Hf).
  unfold RegisterSystem.backend_register, CredentialStore.register. rewrite Hnew, Hweak.
  eexists. by repeat split.
Qed.

(** C7: A visitor who fills the register page with a new e-mail and an
    acceptable password, waits for the redirect and logs in on a fresh
    login page with the same e-mail and password ends on ["/"] holding a
    token of a live session of the user just created (§9: registration
    is immediately login-capable). *)
Theorem register_then_login s w :
  (∀ slt raw, hash_fn slt raw ≠ "") → CredentialStore.wf (creds w) →
  RegisterSystem.filled s →
  CredentialStore.find_email (CredentialStore.users (creds w)) (RegisterSystem.typed s "email") = None →
  CredentialStore.weak min_len (RegisterSystem.typed s "password") = false →
  ∃ x, run (RegisterSystem.step min_len) (RegisterSystem.mk_sys s w)
         [RegisterSystem.UI RegisterPage.Submit; RegisterSystem.Deliver;
          RegisterSystem.UI RegisterPage.IntervalFires] = Some x ∧
       RegisterPage.location (RegisterSystem.page x) = LoginPage.path ∧
       ∃ y, run LoginSystem.step (LoginSystem.mk_sys LoginPage.init (RegisterSystem.world x))
              [LoginSystem.UI (LoginPage.Change "email" (RegisterSystem.typed s "email"));
               LoginSystem.UI (LoginPage.Change "password" (RegisterSystem.typed s "password"));
               LoginSystem.UI LoginPage.Submit; LoginSystem.Deliver] = Some y ∧
            LoginPage.location (LoginSystem.page y) = "/" ∧
            ∃ u str tok, LoginPage.user (LoginSystem.page y) = Some u ∧
              Js.oget u "token" = JStr str ∧ dec_tok str = Some tok ∧
              Js.oget u "_id" = JStr (enc_id (CredentialStore.next_id (creds w))) ∧
              Authenticator.authenticate (auth (LoginSystem.world y)) tok (clock w) =
                Ok (CredentialStore.next_id (creds w)).
Proof.
  intros Hh Hwf Hf Hnone Hweak.
  pose proof (RegisterSystem.register_submit_deliver min_len s w Hf) as Hsd.
  destruct (RegisterSystem.backend_register min_len s w) as [[uid cs']|e] eqn:Hr; last first.
  { unfold RegisterSystem.backend_register, CredentialStore.register in Hr.
    by rewrite Hnone, Hweak in Hr. }
  assert (Hv := CredentialStore.register_verify _ _ Hh _ _ _ _ _ _ _ _ (RegisterSystem.typed s "email") Hwf Hr eq_refl).
  apply CredentialStore.register_Ok in Hr as (_ & _ & -> & _).
  eexists. split.
  { change [RegisterSystem.UI RegisterPage.Submit; RegisterSystem.Deliver;
            RegisterSystem.UI RegisterPage.IntervalFires]
      with ([RegisterSystem.UI RegisterPage.Submit; RegisterSystem.Deliver] ++
            [RegisterSystem.UI RegisterPage.IntervalFires]).
    rewrite run_app, Hsd. reflexivity. }
  split; [reflexivity|].
  destruct Hf as (_ & _ & _ & _ & Hem & Hpw & _).
  match goal with |- context [LoginSystem.mk_sys LoginPage.init ?w1] =>
    destruct (LoginSystem.typed_login w1 (RegisterSystem.typed s "email") (RegisterSystem.typed s "password"))
      as (Hty & He & Hp);
    destruct (LoginSystem.login_accepts
                (LoginPage.change (LoginPage.change LoginPage.init "email" (RegisterSystem.typed s "email"))
                   "password" (RegisterSystem.typed s "password"))
                w1 _ _ _ eq_refl eq_refl He Hem Hp Hpw Hv) as (y & Hy & Hrest)
  end.
  exists y. split; [|exact Hrest].
  change [LoginSystem.UI (LoginPage.Change "email" (RegisterSystem.typed s "email"));
          LoginSystem.UI (LoginPage.Change "password" (RegisterSystem.typed s "password"));
          LoginSystem.UI LoginPage.Submit; LoginSystem.Deliver]
    with ([LoginSystem.UI (LoginPage.Change "email" (RegisterSystem.typed s "email"));
           LoginSystem.UI (LoginPage.Change "password" (RegisterSystem.typed s "password"))] ++
          [LoginSystem.UI LoginPage.Submit; LoginSystem.Deliver]).
  by rewrite run_app, Hty.
Qed.

(** The page after a successful registration keeps its inputs: it is still
    filled, with the same values. *)
Lemma filled_after_success s msg :
  RegisterSystem.filled s →
  let s1 := RegisterPage.mk_state (Form.mk_state (Form.vals (RegisterPage.form s)) []) msg false None
              (S (RegisterPage.intervals s)) RegisterPage.path in
  RegisterSystem.filled s1 ∧ ∀ k, RegisterSystem.typed s1 k = RegisterSystem.typed s k.
Proof. intros (_ & _ & ?) s1. split; [by split|done]. Qed.

(** C19: Submitting the register page again after a successful
    registration, before the redirect fires, sends the same e-mail again:
    the backend refuses it as a duplicate and keeps the account created
    first, the page replaces the success message with "Email Address
    already exists", and the redirect armed by the first answer still
    takes the visitor to ["/login"]. *)
Theorem register_resubmit_before_redirect s w :
  (∀ slt raw, hash_fn slt raw ≠ "") → CredentialStore.wf (creds w) → RegisterSystem.filled s →
  CredentialStore.find_email (CredentialStore.users (creds w)) (RegisterSystem.typed s "email") = None →
  CredentialStore.weak min_len (RegisterSystem.typed s "password") = false →
  ∃ x, run (RegisterSystem.step min_len) (RegisterSystem.mk_sys s w)
         [RegisterSystem.UI RegisterPage.Submit; RegisterSystem.Deliver;
          RegisterSystem.UI RegisterPage.Submit; RegisterSystem.Deliver;
          RegisterSystem.UI RegisterPage.IntervalFires] = Some x ∧
       RegisterPage.errMsg (RegisterSystem.page x) = failed "Email Address already exists" ∧
       RegisterPage.location (RegisterSystem.page x) = LoginPage.path ∧
       RegisterPage.intervals (RegisterSystem.page x) = S (RegisterPage.intervals s) ∧
       CredentialStore.find_email (CredentialStore.users (creds (RegisterSystem.world x)))
         (RegisterSystem.typed s "email") = Some (CredentialStore.next_id (creds w)).
Proof.
  intros Hh Hwf Hf Hnone Hweak.
  pose proof (RegisterSystem.register_submit_deliver min_len s w Hf) as Hsd.
  destruct (RegisterSystem.backend_register min_len s w) as [[uid cs']|e] eqn:Hr; last first.
  { unfold RegisterSystem.backend_register, CredentialStore.register in Hr.
    by rewrite Hnone, Hweak in Hr. }
  destruct (filled_after_success s (succeeded "Account created successfully" []) Hf) as [Hf1 Hty].
  pose proof (RegisterSystem.register_submit_deliver min_len _
                (mk_world cs' (auth w) (friendships w) (posts_db w) (clock w)) Hf1) as Hsd2.
  unfold RegisterSystem.backend_register in Hsd2 at 1. rewrite !Hty in Hsd2.
  unfold RegisterSystem.backend_register in Hr.
  erewrite (CredentialStore.register_duplicate _ _ Hh) in Hsd2; [|exact Hwf|exact Hr|reflexivity].
  pose proof (CredentialStore.register_lookup _ _ _ _ _ _ _ _ _ _ Hr) as Hu.
  pose proof (CredentialStore.register_wf _ _ Hh _ _ _ _ _ _ _ _ Hwf Hr) as Hwf'.
  apply CredentialStore.register_Ok in Hr as (_ & _ & -> & _).
  eexists. split.
  { change [RegisterSystem.UI RegisterPage.Submit; RegisterSystem.Deliver;
            RegisterSystem.UI RegisterPage.Submit; RegisterSystem.Deliver;
            RegisterSystem.UI RegisterPage.IntervalFires]
      with ([RegisterSystem.UI RegisterPage.Submit; RegisterSystem.Deliver] ++
            [RegisterSystem.UI RegisterPage.Submit; RegisterSystem.Deliver] ++
            [RegisterSystem.UI RegisterPage.IntervalFires]).
    rewrite run_app, Hsd, run_app, Hsd2. reflexivity. }
  do 3 (split; [reflexivity|]). simpl.
  by eapply CredentialStore.find_email_unique.
Qed.

(** The profile of [uid] once both answers are in, and what it renders. *)
Definition settled_profile (w : world) (uid : nat) : ProfilePage.state :=
  ProfilePage.mk_state (enc_id uid) (user_route w (enc_id uid))
    (posts_route w (ProfilePage.post_uri (enc_id uid))) false [].

Lemma profile_settles w uid posts0 :
  run (ProfilePage.fifo_step (user_route w) (posts_route w)) (ProfilePage.mount posts0 (enc_id uid))
    [ProfilePage.Complete 0; ProfilePage.Complete 0] = Some (settled_profile w uid).
Proof. reflexivity. Qed.

Lemma settled_friends_card w uid usr :
  CredentialStore.users (creds w) !! uid = Some usr →
  ProfilePage.friends_card (ProfilePage.render (settled_profile w uid)) =
    ids (SocialGraph.listFriends (friendships w) uid).
Proof. intros Hu. unfold ProfilePage.render, settled_profile, user_route. simpl. rewrite dec_enc_id. unfold enc_user. by rewrite Hu. Qed.

Lemma elem_of_ids (xs : gset nat) v : JStr (enc_id v) ∈ ((λ v, JStr (enc_id v)) <$> elements xs : list jval) ↔ v ∈ xs.
Proof.
  rewrite list_elem_of_fmap. split.
  - intros (v' & Heq & Hin). injection Heq as Heq.
    assert (v = v') as -> by (apply (inj Some); by rewrite <-!dec_enc_id, Heq).
    by apply elem_of_elements.
  - intros Hin. exists v. split; [done|]. by apply elem_of_elements.
Qed.

(** C9: Opening the profile of a registered user and receiving the two
    answers in the order they were requested shows that user's card and
    friend list as the backend has them, and exactly the user's posts,
    each once and newest first (or the empty message); nothing is left in
    flight. *)
Theorem profile_shows_backend w uid usr posts0 :
  CredentialStore.users (creds w) !! uid = Some usr →
  ∃ x l, run (ProfilePage.fifo_step (user_route w) (posts_route w)) (ProfilePage.mount posts0 (enc_id uid))
           [ProfilePage.Complete 0; ProfilePage.Complete 0] = Some x ∧
         ProfilePage.inflight x = [] ∧
         ProfilePage.render x =
           ProfilePage.mk_view (enc_user w uid) (ids (SocialGraph.listFriends (friendships w) uid))
             (Some (match l with [] => ProfilePage.CNoPost | _ => ProfilePage.CCards (enc_post <$> l) end)) "-" ∧
         (∀ i p, (i, p) ∈ l ↔ PostStore.posts (posts_db w) !! i = Some p ∧ PostStore.author p = uid) ∧
         NoDup l.*1 ∧ Sorted PostStore.newer l.
Proof.
  intros Hu. exists (settled_profile w uid), (PostStore.listByAuthor (posts_db w) uid).
  split; [apply profile_settles|]. split; [reflexivity|]. split.
  - unfold ProfilePage.render. simpl. unfold user_route, posts_route, ProfilePage.post_uri.
    rewrite strip_prefix_app. simpl. rewrite !dec_enc_id, ProfilePage.center_view_arr.
    unfold enc_user. rewrite Hu. simpl. by destruct (PostStore.listByAuthor _ _).
  - apply PostStore.listByAuthor_spec.
Qed.

(** C24: On a settled profile of a registered user, the friends card lists
    exactly the users the social graph has as that user's friends. *)
Theorem profile_friends_card w uid usr posts0 :
  SocialGraph.wf (friendships w) → CredentialStore.users (creds w) !! uid = Some usr →
  ∃ x fs, run (ProfilePage.fifo_step (user_route w) (posts_route w)) (ProfilePage.mount posts0 (enc_id uid))
            [ProfilePage.Complete 0; ProfilePage.Complete 0] = Some x ∧
          ProfilePage.friends_card (ProfilePage.render x) = JArr fs ∧
          ∀ v, JStr (enc_id v) ∈ fs ↔ SocialGraph.areFriends (friendships w) uid v = true.
Proof.
  intros Hwf Hu. eexists (settled_profile w uid), _.
  split; [apply profile_settles|]. split; [by apply (settled_friends_card w uid usr)|].
  intros v. rewrite elem_of_ids. by apply SocialGraph.listFriends_areFriends.
Qed.

End EndToEndProps.

(** ** Witnesses: alice is registered; bob registers, then logs in *)
Module Witnesses.
Import Transport.

#[local] Instance demo_hasher : Hasher := CredentialStore.demo_hash.

Definition alice_posts : PostStore.state :=
  match PostStore.create CredentialStore.s_alice PostStore.init 0 "hello" None 10 with
  | Ok (_, p) => p | Err _ => PostStore.init end.

Definition w_alice : world := mk_world CredentialStore.s_alice Authenticator.init ∅ alice_posts 100.
Definition w_empty : world := mk_world CredentialStore.empty Authenticator.init ∅ PostStore.init 100.

Definition w_friends : world :=
  mk_world SocialGraph.users2 Authenticator.init SocialGraph.g_friends alice_posts 100.

Definition login_typed (em pw : string) : LoginPage.state :=
  LoginPage.change (LoginPage.change LoginPage.init "email" em) "password" pw.

Definition register_typed (em pw : string) : RegisterPage.state :=
  fold_left (λ st nv, RegisterPage.change st nv.1 nv.2)
    [("firstName", "Alice"); ("lastName", "A"); ("email", em);
     ("password", pw); ("cPassword", pw)] RegisterPage.init.

Lemma login_rejected_uniform_witness :
  ∃ x, run LoginSystem.step (LoginSystem.mk_sys (login_typed "alice@x.com" "pw000000") w_alice)
         [LoginSystem.UI LoginPage.Submit; LoginSystem.Deliver] = Some x ∧
       LoginSystem.world x = w_alice ∧
       LoginPage.errMsg (LoginSystem.page x) = failed "Invalid email or password" ∧
       Pages.alert_view (LoginPage.errMsg (LoginSystem.page x)) = Pages.Alert true (JStr "Invalid email or password") ∧
       LoginPage.user (LoginSystem.page x) = None ∧
       LoginPage.location (LoginSystem.page x) = LoginPage.path ∧
       LoginPage.isSubmitting (LoginSystem.page x) = false.
Proof.
  apply (LoginSystem.login_rejected_uniform (login_typed "alice@x.com" "pw000000") w_alice
           "alice@x.com" "pw000000" CredentialStore.InvalidCredential);
    first [reflexivity | discriminate].
Defined.

Lemma login_network_failure_silent_witness :
  ∃ x, run LoginSystem.step (LoginSystem.mk_sys (login_typed "alice@x.com" "pw123456") w_alice)
         [LoginSystem.UI LoginPage.Submit; LoginSystem.Drop] = Some x ∧
       LoginSystem.world x = w_alice ∧
       Pages.alert_view (LoginPage.errMsg (LoginSystem.page x)) = Pages.NoAlert ∧
       LoginPage.user (LoginSystem.page x) = None ∧
       LoginPage.location (LoginSystem.page x) = LoginPage.path ∧
       Pages.submit_view (LoginPage.isSubmitting (LoginSystem.page x)) "Login" = Pages.ShowButton "Login".
Proof.
  apply (LoginSystem.login_network_failure_silent (login_typed "alice@x.com" "pw123456") w_alice
           "alice@x.com" "pw123456"); first [reflexivity | discriminate].
Defined.

Lemma register_duplicate_shown_witness :
  ∃ x, run (RegisterSystem.step 8) (RegisterSystem.mk_sys (register_typed "ALICE@x.com" "pw654321") w_alice)
         [RegisterSystem.UI RegisterPage.Submit; RegisterSystem.Deliver] = Some x ∧
       RegisterSystem.world x = w_alice ∧
       RegisterPage.errMsg (RegisterSystem.page x) = failed "Email Address already exists" ∧
       RegisterPage.intervals (RegisterSystem.page x) = 0.
Proof.
  apply (register_duplicate_shown 8 (register_typed "ALICE@x.com" "pw654321") w_alice 0).
  - repeat split; vm_compute; first [reflexivity | discriminate].
  - reflexivity.
Defined.

Lemma register_weak_password_refused_witness :
  ∃ x, run (RegisterSystem.step 8) (RegisterSystem.mk_sys (register_typed "carol@x.com" "pw1") w_empty)
         [RegisterSystem.UI RegisterPage.Submit; RegisterSystem.Deliver] = Some x ∧
       RegisterSystem.world x = w_empty ∧
       RegisterPage.errMsg (RegisterSystem.page x) = failed "Password does not meet the policy" ∧
       RegisterPage.intervals (RegisterSystem.page x) = 0.
Proof.
  apply (register_weak_password_refused 8 (register_typed "carol@x.com" "pw1") w_empty).
  - repeat split; vm_compute; first [reflexivity | discriminate].
  - reflexivity.
  - reflexivity.
Defined.

Lemma register_then_login_witness :
  ∃ x, run (RegisterSystem.step 8) (RegisterSystem.mk_sys (RegisterPage.typed "pw123456") w_empty)
         [RegisterSystem.UI RegisterPage.Submit; RegisterSystem.Deliver;
          RegisterSystem.UI RegisterPage.IntervalFires] = Some x ∧
       RegisterPage.location (RegisterSystem.page x) = LoginPage.path ∧
       ∃ y, run LoginSystem.step (LoginSystem.mk_sys LoginPage.init (RegisterSystem.world x))
              [LoginSystem.UI (LoginPage.Change "email" "bob@x.com");
               LoginSystem.UI (LoginPage.Change "password" "pw123456");
               LoginSystem.UI LoginPage.Submit; LoginSystem.Deliver] = Some y ∧
            LoginPage.location (LoginSystem.page y) = "/" ∧
            ∃ u str tok, LoginPage.user (LoginSystem.page y) = Some u ∧
              Js.oget u "token" = JStr str ∧ dec_tok str = Some tok ∧
              Js.oget u "_id" = JStr (enc_id 0) ∧
              Authenticator.authenticate (auth (LoginSystem.world y)) tok 100 = Ok 0.
Proof.
  apply (register_then_login 8 (RegisterPage.typed "pw123456") w_empty).
  - exact CredentialStore.demo_hash_nonempty.
  - exact CredentialStore.wf_empty.
  - repeat split; vm_compute; first [reflexivity | discriminate].
  - reflexivity.
  - reflexivity.
Defined.

Lemma register_resubmit_before_redirect_witness :
  ∃ x, run (RegisterSystem.step 8) (RegisterSystem.mk_sys (RegisterPage.typed "pw123456") w_empty)
         [RegisterSystem.UI RegisterPage.Submit; RegisterSystem.Deliver;
          RegisterSystem.UI RegisterPage.Submit; RegisterSystem.Deliver;
          RegisterSystem.UI RegisterPage.IntervalFires] = Some x ∧
       RegisterPage.errMsg (RegisterSystem.page x) = failed "Email Address already exists" ∧
       RegisterPage.location (RegisterSystem.page x) = LoginPage.path ∧
       RegisterPage.intervals (RegisterSystem.page x) = 1 ∧
       CredentialStore.find_email (CredentialStore.users (creds (RegisterSystem.world x))) "bob@x.com" = Some 0.
Proof.
  apply (register_resubmit_before_redirect 8 (RegisterPage.typed "pw123456") w_empty).
  - exact CredentialStore.demo_hash_nonempty.
  - exact CredentialStore.wf_empty.
  - repeat split; vm_compute; first [reflexivity | discriminate].
  - reflexivity.
  - reflexivity.
Defined.

Lemma profile_shows_backend_witness :
  ∃ x l, run (ProfilePage.fifo_step (user_route w_alice) (posts_route w_alice))
           (ProfilePage.mount (JArr []) (enc_id 0))
           [ProfilePage.Complete 0; ProfilePage.Complete 0] = Some x ∧
         ProfilePage.inflight x = [] ∧
         ProfilePage.render x =
           ProfilePage.mk_view (enc_user w_alice 0) (ids (SocialGraph.listFriends ∅ 0))
             (Some (match l with [] => ProfilePage.CNoPost | _ => ProfilePage.CCards (enc_post <$> l) end)) "-" ∧
         (∀ i p, (i, p) ∈ l ↔ PostStore.posts alice_posts !! i = Some p ∧ PostStore.author p = 0) ∧
         NoDup l.*1 ∧ Sorted PostStore.newer l.
Proof. eapply (profile_shows_backend w_alice 0 _ (JArr [])). reflexivity. Defined.

Lemma profile_friends_card_witness :
  ∃ x fs, run (ProfilePage.fifo_step (user_route w_friends) (posts_route w_friends))
            (ProfilePage.mount JNull (enc_id 0))
            [ProfilePage.Complete 0; ProfilePage.Complete 0] = Some x ∧
          ProfilePage.friends_card (ProfilePage.render x) = JArr fs ∧
          ∀ v, JStr (enc_id v) ∈ fs ↔ SocialGraph.areFriends SocialGraph.g_friends 0 v = true.
Proof.
  eapply (profile_friends_card w_friends 0 _ JNull).
  - exact SocialGraph.g_friends_wf.
  - reflexivity.
Defined.

End Witnesses.
