(* ===== verification/ProfileFlow.v ===== *)
(** * ProfileFlow: the delete and like buttons of the profile page against the backend

    [handleDelete] and [handleLikePost] of [src/project/src/pages/Profile.jsx]
    await [deletePost(id, user.token)] or [likePost({uri, token})] and then
    [getPosts()].  Here the page runs against the backend of [EndToEnd]:
    the viewer is the session named by [user.token]; when a request
    completes, the server first performs it on the world ([serve]: §4.4
    [delete] and [like], refused requests change nothing) and the page
    then reads its answers from the new world.  The like route takes the
    post id from the URI the card passes ([/posts/like/:id]). *)

From S2P Require Import Prelude Js ProfilePage CredentialStore Authenticator PostStore EndToEnd.
From stdpp Require Import base list strings gmap sets.
From Stdlib Require Import ZArith.

Module ProfileFlow.
Import Transport.

(** The user a token string names, while its session is live. *)
Definition viewer (w : world) (tok : string) : option nat :=
  match dec_tok tok with
  | Some t =>
      match Authenticator.authenticate (auth w) t (clock w) with Ok u => Some u | Err _ => None end
  | None => None
  end.

Definition with_posts (w : world) (ps : PostStore.state) : world :=
  mk_world (creds w) (auth w) (friendships w) ps (clock w).

(** [deletePost(id, token)]: §4.4 [delete] on behalf of the viewer. *)
Definition delete_route (w : world) (tok pid : string) : world :=
  match viewer w tok, dec_id pid with
  | Some me, Some p =>
      match PostStore.delete (posts_db w) p me with Ok ps => with_posts w ps | Err _ => w end
  | _, _ => w
  end.

Definition like_prefix : string := "/posts/like/".

(** [likePost({ uri, token })]: §4.4 [like] of the post the URI names. *)
Definition like_route (w : world) (tok uri : string) : world :=
  match viewer w tok, strip_prefix like_prefix uri ≫= dec_id with
  | Some me, Some p =>
      match PostStore.like (posts_db w) p me with Ok ps => with_posts w ps | Err _ => w end
  | _, _ => w
  end.

(** What the server does with a request before answering it. *)
Definition serve (w : world) (tok : string) (r : ProfilePage.request) : world :=
  match r with
  | ProfilePage.DeletePost pid _ => delete_route w tok pid
  | ProfilePage.LikePost u _ => like_route w tok u
  | ProfilePage.GetUser _ | ProfilePage.FetchPosts _ => w
  end.

Record sys := mk_sys { page : ProfilePage.state; world : Transport.world; token : string }.

(** A completion is served on the world of its arrival, then answered. *)
Definition step (x : sys) (e : ProfilePage.event) : option sys :=
  let w' := match e with
            | ProfilePage.Complete k =>
                default (world x) (serve (world x) (token x) <$> ProfilePage.inflight (page x) !! k)
            | _ => world x
            end in
  (λ p, mk_sys p w' (token x)) <$> ProfilePage.step (user_route w') (posts_route w') (page x) e.

(** A settled page: nothing in flight, no spinner, the posts of the world. *)
Definition loaded (x : sys) : Prop :=
  ProfilePage.inflight (page x) = [] ∧ ProfilePage.loading (page x) = false ∧
  ProfilePage.posts (page x) = posts_route (world x) (ProfilePage.post_uri (ProfilePage.route_id (page x))).

(** The [_id]s of the cards on screen. *)
Definition card_ids (pg : ProfilePage.state) : list jval :=
  match ProfilePage.cards pg with Some xs => (λ c, Js.oget c "_id") <$> xs | None => [] end.

(** The page after the refetch that ends both handlers. *)
Definition refreshed (x : sys) (w' : Transport.world) : sys :=
  let pg := page x in
  mk_sys (ProfilePage.mk_state (ProfilePage.route_id pg) (ProfilePage.userInfo pg)
            (posts_route w' (ProfilePage.post_uri (ProfilePage.route_id pg))) false [])
         w' (token x).

(** ** The page between two requests *)

Lemma posts_route_arr w u : ∃ xs, posts_route w u = JArr xs.
Proof. unfold posts_route. case_match; eauto. Qed.

Lemma posts_route_author w a :
  posts_route w (ProfilePage.post_uri (enc_id a)) = JArr (enc_post <$> PostStore.listByAuthor (posts_db w) a).
Proof. unfold posts_route, ProfilePage.post_uri. rewrite strip_prefix_app. simpl. by rewrite dec_enc_id. Qed.

(** The ids on screen of a settled profile of [a]: those of [listByAuthor]. *)
Lemma card_ids_loaded x a :
  loaded x → ProfilePage.route_id (page x) = enc_id a →
  card_ids (page x) = (λ ip, JStr (enc_id ip.1)) <$> PostStore.listByAuthor (posts_db (world x)) a.
Proof.
  intros (_ & Hl & Hp) Ha. unfold card_ids, ProfilePage.cards.
  rewrite Hl, Hp, Ha, posts_route_author, ProfilePage.center_view_arr.
  destruct (PostStore.listByAuthor _ _) as [|ip l]; [done|].
  simpl. f_equal. induction l as [|ip' l IH]; [done|]. simpl. by f_equal.
Qed.

Lemma elem_of_card_ids (l : list (nat * PostStore.post)) pid :
  JStr (enc_id pid) ∈ ((λ ip : nat * PostStore.post, JStr (enc_id ip.1)) <$> l : list jval) ↔
  ∃ p, (pid, p) ∈ l.
Proof.
  rewrite list_elem_of_fmap. split.
  - intros ([i p] & Heq & Hin). injection Heq as Heq.
    assert (pid = i) as -> by (apply (inj Some); by rewrite <-!dec_enc_id, Heq). eauto.
  - intros (p & Hin). by exists (pid, p).
Qed.

Lemma click_delete x pid :
  JStr pid ∈ card_ids (page x) →
  step x (ProfilePage.ClickDelete pid) =
    Some (mk_sys (ProfilePage.issue (page x)
                    (ProfilePage.DeletePost pid (ProfilePage.post_uri (ProfilePage.route_id (page x)))))
                 (world x) (token x)).
Proof.
  unfold card_ids, step, ProfilePage.step, ProfilePage.cards. simpl.
  destruct (ProfilePage.center_view _ _) as [[|xs|]|]; intros Hin; try set_solver.
  replace (existsb _ xs) with true; [done|symmetry].
  apply existsb_exists. apply list_elem_of_fmap in Hin as (c & Hcid & Hc').
  exists c. split; [by apply list_elem_of_In|]. rewrite <-Hcid. simpl. apply String.eqb_refl.
Qed.

Lemma click_like x u :
  card_ids (page x) ≠ [] →
  step x (ProfilePage.ClickLike u) =
    Some (mk_sys (ProfilePage.issue (page x)
                    (ProfilePage.LikePost u (ProfilePage.post_uri (ProfilePage.route_id (page x)))))
                 (world x) (token x)).
Proof.
  unfold card_ids, step, ProfilePage.step, ProfilePage.cards. simpl.
  destruct (ProfilePage.center_view _ _) as [[|xs|]|]; intros Hne; try done.
  by destruct xs.
Qed.

(** The requests of [handleDelete] and [handleLikePost] on a page. *)
Definition handler_request (r : ProfilePage.request) (uri : string) : Prop :=
  match r with
  | ProfilePage.DeletePost _ u | ProfilePage.LikePost _ u => u = uri
  | ProfilePage.GetUser _ | ProfilePage.FetchPosts _ => False
  end.

(** A handler's request and its refetch complete in order: the server
    performs the request, and the page shows the posts of the new world. *)
Lemma complete_refresh x r :
  loaded x → handler_request r (ProfilePage.post_uri (ProfilePage.route_id (page x))) →
  run step (mk_sys (ProfilePage.issue (page x) r) (world x) (token x))
    [ProfilePage.Complete 0; ProfilePage.Complete 0] =
  Some (refreshed x (serve (world x) (token x) r)).
Proof.
  destruct x as [pg w tok]. intros (Hin & Hl & Hp) Hr. simpl in *.
  destruct (posts_route_arr w (ProfilePage.post_uri (ProfilePage.route_id pg))) as [xs Hxs].
  rewrite Hxs in Hp.
  destruct (ProfilePage.center_view_JArr false xs) as [c Hc].
  destruct r as [|uri|pid u|lu u]; simpl in Hr; try done; subst u;
    unfold run, step, ProfilePage.step, ProfilePage.complete; simpl; rewrite Hin; simpl;
    rewrite Hl, Hp, Hc; simpl; rewrite Hc; reflexivity.
Qed.

Lemma refreshed_loaded x w' : loaded (refreshed x w').
Proof. done. Qed.

Lemma refreshed_same x : loaded x → refreshed x (world x) = x.
Proof.
  destruct x as [[rid ui ps ld inf] w tok]. intros (Hin & Hl & Hp). simpl in *. by subst.
Qed.

(** ** What the routes do for a live viewer *)
Section Routes.
Context (x : sys) (me pid : nat) (p : PostStore.post).
Hypothesis Hviewer : viewer (world x) (token x) = Some me.
Hypothesis Hpost : PostStore.posts (posts_db (world x)) !! pid = Some p.

Lemma delete_route_author :
  PostStore.author p = me →
  delete_route (world x) (token x) (enc_id pid) =
    with_posts (world x) (PostStore.mk_state (delete pid (PostStore.posts (posts_db (world x))))
                            (PostStore.next_post (posts_db (world x)))).
Proof.
  intros Ha. unfold delete_route. rewrite Hviewer, dec_enc_id.
  unfold PostStore.delete. rewrite Hpost. by rewrite decide_True.
Qed.

Lemma delete_route_other :
  PostStore.author p ≠ me → delete_route (world x) (token x) (enc_id pid) = world x.
Proof.
  intros Ha. unfold delete_route. rewrite Hviewer, dec_enc_id.
  unfold PostStore.delete. rewrite Hpost. by rewrite decide_False.
Qed.

Lemma like_route_Ok :
  like_route (world x) (token x) (like_prefix +:+ enc_id pid) =
    with_posts (world x)
      (PostStore.mk_state (<[pid := PostStore.with_likes p ({[me]} ∪ PostStore.likes p)]>
                             (PostStore.posts (posts_db (world x))))
         (PostStore.next_post (posts_db (world x)))).
Proof.
  unfold like_route. rewrite Hviewer, strip_prefix_app. simpl. rewrite dec_enc_id.
  unfold PostStore.like, PostStore.set_likes. by rewrite Hpost.
Qed.

End Routes.

(** The card of a post of the profile's owner is on a settled page. *)
Lemma card_of_post x a pid p :
  loaded x → ProfilePage.route_id (page x) = enc_id a →
  PostStore.posts (posts_db (world x)) !! pid = Some p → PostStore.author p = a →
  JStr (enc_id pid) ∈ card_ids (page x).
Proof.
  intros Hx Hr Hp Ha. rewrite (card_ids_loaded x a) by done.
  apply elem_of_card_ids. exists p. by apply PostStore.listByAuthor_spec.
Qed.

(** ** Deleting and liking through the page *)

(** C23: The author deletes a post from their own profile: once the delete
    and the refetch have completed, the post is gone from the backend and
    its card from the page. *)
Theorem delete_own_post x me pid p :
  loaded x → viewer (world x) (token x) = Some me → ProfilePage.route_id (page x) = enc_id me →
  PostStore.posts (posts_db (world x)) !! pid = Some p → PostStore.author p = me →
  ∃ y, run step x [ProfilePage.ClickDelete (enc_id pid); ProfilePage.Complete 0; ProfilePage.Complete 0] = Some y ∧
       loaded y ∧ PostStore.get (posts_db (world y)) pid = Err PostStore.NotFound ∧
       JStr (enc_id pid) ∉ card_ids (page y).
Proof.
  intros Hx Hv Hr Hp Ha.
  rewrite run_cons, (click_delete x) by (eapply card_of_post; eauto).
  rewrite complete_refresh by done. simpl serve.
  rewrite (delete_route_author x me pid p) by done.
  eexists. split; [reflexivity|]. split; [apply refreshed_loaded|].
  split; [unfold PostStore.get; simpl; by rewrite lookup_delete_eq|].
  rewrite (card_ids_loaded _ me) by done. rewrite elem_of_card_ids.
  intros (p' & Hin). apply PostStore.listByAuthor_spec in Hin as [Hin _].
  simpl in Hin. by rewrite lookup_delete_eq in Hin.
Qed.

(** C21: Anyone else's delete button is refused by the backend: after the
    delete and the refetch complete, the system is exactly as before, the
    card still on screen. *)
Theorem delete_other_post x me a pid p :
  loaded x → viewer (world x) (token x) = Some me → ProfilePage.route_id (page x) = enc_id a →
  PostStore.posts (posts_db (world x)) !! pid = Some p → PostStore.author p = a → a ≠ me →
  run step x [ProfilePage.ClickDelete (enc_id pid); ProfilePage.Complete 0; ProfilePage.Complete 0] = Some x ∧
  JStr (enc_id pid) ∈ card_ids (page x).
Proof.
  intros Hx Hv Hr Hp Ha Hne.
  assert (Hc : JStr (enc_id pid) ∈ card_ids (page x)) by (eapply card_of_post; eauto).
  split; [|done].
  rewrite run_cons, (click_delete x) by done. rewrite complete_refresh by done. simpl serve.
  rewrite (delete_route_other x me pid p) by (done || congruence). by rewrite refreshed_same.
Qed.

Lemma viewer_with_posts w ps tok : viewer (with_posts w ps) tok = viewer w tok.
Proof. done. Qed.

(** One click on a like button and its completions. *)
Lemma like_once x me a pid p :
  loaded x → viewer (world x) (token x) = Some me → ProfilePage.route_id (page x) = enc_id a →
  PostStore.posts (posts_db (world x)) !! pid = Some p → PostStore.author p = a →
  run step x [ProfilePage.ClickLike (like_prefix +:+ enc_id pid); ProfilePage.Complete 0; ProfilePage.Complete 0] =
    Some (refreshed x (with_posts (world x)
      (PostStore.mk_state (<[pid := PostStore.with_likes p ({[me]} ∪ PostStore.likes p)]>
                             (PostStore.posts (posts_db (world x))))
         (PostStore.next_post (posts_db (world x)))))).
Proof.
  intros Hx Hv Hr Hp Ha.
  assert (Hc : JStr (enc_id pid) ∈ card_ids (page x)) by (eapply card_of_post; eauto).
  rewrite run_cons, (click_like x) by (intros Hnil; rewrite Hnil in Hc; set_solver).
  rewrite complete_refresh by done. simpl serve. by rewrite (like_route_Ok x me pid p).
Qed.

(** C22: Liking a post twice through its card leaves the page and the
    backend exactly as liking it once; the card then lists the viewer
    among the likers, once. *)
Theorem like_twice_as_once x me a pid p :
  loaded x → viewer (world x) (token x) = Some me → ProfilePage.route_id (page x) = enc_id a →
  PostStore.posts (posts_db (world x)) !! pid = Some p → PostStore.author p = a →
  let clicks := [ProfilePage.ClickLike (like_prefix +:+ enc_id pid); ProfilePage.Complete 0;
                 ProfilePage.Complete 0] in
  run step x (clicks ++ clicks) = run step x clicks ∧
  ∃ y, run step x clicks = Some y ∧ loaded y ∧
       PostStore.posts (posts_db (world y)) !! pid =
         Some (PostStore.with_likes p ({[me]} ∪ PostStore.likes p)).
Proof.
  intros Hx Hv Hr Hp Ha clicks. subst clicks.
  assert (Hy := like_once x me a pid p Hx Hv Hr Hp Ha).
  set (y := refreshed x _) in Hy.
  assert (Hpy : PostStore.posts (posts_db (world y)) !! pid =
                  Some (PostStore.with_likes p ({[me]} ∪ PostStore.likes p)))
    by (simpl; by rewrite lookup_insert_eq).
  split; [|by exists y].
  rewrite run_app, Hy. cbv beta iota.
  rewrite (like_once y me a pid _) by done.
  assert (E : {[me]} ∪ PostStore.likes (PostStore.with_likes p ({[me]} ∪ PostStore.likes p)) =
              {[me]} ∪ PostStore.likes p) by (simpl; set_solver).
  rewrite E, PostStore.with_likes_twice. unfold y, refreshed. simpl.
  by rewrite insert_insert_eq.
Qed.

Lemma viewer_expired w tok t u exp :
  dec_tok tok = Some t → Authenticator.sessions (auth w) !! t = Some (u, exp) →
  (exp <= clock w)%Z → viewer w tok = None.
Proof.
  intros Ht Hs Hexp. unfold viewer, Authenticator.authenticate. rewrite Ht, Hs.
  by rewrite (proj2 (Z.ltb_ge _ _)) by lia.
Qed.

(** C25: A like sent with a token whose session has expired (§4.2
    [SessionExpired]) changes nothing: once it and the refetch complete,
    the page and the backend are exactly as they were. *)
Theorem like_expired_session x t u exp lu :
  loaded x → card_ids (page x) ≠ [] →
  dec_tok (token x) = Some t → Authenticator.sessions (auth (world x)) !! t = Some (u, exp) →
  (exp <= clock (world x))%Z →
  run step x [ProfilePage.ClickLike lu; ProfilePage.Complete 0; ProfilePage.Complete 0] = Some x.
Proof.
  intros Hx Hc Ht Hs Hexp.
  rewrite run_cons, (click_like x) by done. rewrite complete_refresh by done. simpl serve.
  unfold like_route. rewrite (viewer_expired _ _ t u exp) by done. by rewrite refreshed_same.
Qed.

End ProfileFlow.

(** ** Witnesses: alice (0) posts; alice and bob (1) are logged in *)
Module ProfileFlowWitnesses.
Import Transport ProfileFlow.

#[local] Instance demo_hasher : Hasher := CredentialStore.demo_hash.

Definition creds_ab : CredentialStore.store :=
  match CredentialStore.register 8 CredentialStore.demo_hash CredentialStore.s_alice
          "bob@x.com" "pw123456" "s2" (CredentialStore.mk_profile "Bob" "B" "" "") 0 with
  | Ok (_, s) => s | Err _ => CredentialStore.s_alice end.

Definition auth_ab : Authenticator.state :=
  match Authenticator.login creds_ab Authenticator.init "alice@x.com" "pw123456" 100 with
  | Ok (_, _, _, a) =>
      match Authenticator.login creds_ab a "bob@x.com" "pw123456" 100 with
      | Ok (_, _, _, a') => a' | Err _ => a end
  | Err _ => Authenticator.init end.

Definition posts_a : PostStore.state :=
  match PostStore.create creds_ab PostStore.init 0 "hello" None 10 with
  | Ok (_, p) => p | Err _ => PostStore.init end.

Definition w_ab : Transport.world := mk_world creds_ab auth_ab ∅ posts_a 200.

Definition hello : PostStore.post := PostStore.mk_post 0 "hello" None 10 ∅.

(** The profile of alice, settled, seen with the token of [viewer_tok]. *)
Definition at_alice (viewer_tok : Z) : sys :=
  mk_sys (ProfilePage.mk_state (enc_id 0) (user_route w_ab (enc_id 0))
            (posts_route w_ab (ProfilePage.post_uri (enc_id 0))) false [])
         w_ab (enc_tok viewer_tok).

Lemma delete_own_post_witness :
  ∃ y, run step (at_alice 0)
         [ProfilePage.ClickDelete (enc_id 0); ProfilePage.Complete 0; ProfilePage.Complete 0] = Some y ∧
       loaded y ∧ PostStore.get (posts_db (world y)) 0 = Err PostStore.NotFound ∧
       JStr (enc_id 0) ∉ card_ids (page y).
Proof. apply (delete_own_post (at_alice 0) 0 0 hello); first [repeat split | reflexivity]. Defined.

Lemma delete_other_post_witness :
  run step (at_alice 1)
    [ProfilePage.ClickDelete (enc_id 0); ProfilePage.Complete 0; ProfilePage.Complete 0] = Some (at_alice 1) ∧
  JStr (enc_id 0) ∈ card_ids (page (at_alice 1)).
Proof. apply (delete_other_post (at_alice 1) 1 0 0 hello); first [discriminate | repeat split | reflexivity]. Defined.

Lemma like_twice_as_once_witness :
  let clicks := [ProfilePage.ClickLike (like_prefix +:+ enc_id 0); ProfilePage.Complete 0;
                 ProfilePage.Complete 0] in
  run step (at_alice 1) (clicks ++ clicks) = run step (at_alice 1) clicks ∧
  ∃ y, run step (at_alice 1) clicks = Some y ∧ loaded y ∧
       PostStore.posts (posts_db (world y)) !! 0 =
         Some (PostStore.with_likes hello ({[1]} ∪ PostStore.likes hello)).
Proof. apply (like_twice_as_once (at_alice 1) 1 0 0 hello); first [repeat split | reflexivity]. Defined.

(** Alice's session, expired a day later. *)
Definition at_alice_late : sys :=
  mk_sys (page (at_alice 0)) (mk_world creds_ab auth_ab ∅ posts_a 86500) (enc_tok 0).

Lemma like_expired_session_witness :
  run step at_alice_late
    [ProfilePage.ClickLike (like_prefix +:+ enc_id 0); ProfilePage.Complete 0; ProfilePage.Complete 0] =
  Some at_alice_late.
Proof.
  apply (like_expired_session at_alice_late 0 0 86500); first [discriminate | repeat split | reflexivity | vm_compute; lia].
Defined.

End ProfileFlowWitnesses.
