(* ===== verification/ServerBoot.v ===== *)
(** * ServerBoot: the start-up sequence of [src/server/index.js]

    Before serving, the entry point runs, in order: [dotenv.config()],
    [const PORT = process.env.PORT || 8800], [dbConnection()] (not
    awaited), the seven [app.use(...)] of [Server.app_stack], and
    [app.listen(PORT, () => console.log(`Server running on port: ${PORT}`))].
    [dotenv.config()] parses the [.env] file (a later line for the same
    variable wins) and adds to [process.env] only the variables it does
    not define yet.  The sequence is modelled as the trace of its effects;
    the database connection is an effect whose outcome nothing waits for. *)

From S2P Require Import Prelude Js Server.
From stdpp Require Import base list strings sets.
From Stdlib Require Import ZArith.

Module ServerBoot.
Import Server.

Notation env := (list (string * string)).

(** [dotenv.parse]: the file's assignments, the last one of a variable winning. *)
Definition dotenv_parse (file : env) : env := foldl (λ acc kv, alist_set kv.1 kv.2 acc) [] file.

(** [dotenv.config()]: populate [process.env] without overriding it. *)
Definition dotenv_config (env0 file : env) : env :=
  foldl (λ acc kv, match alist_get kv.1 acc with Some _ => acc | None => acc ++ [kv] end)
    env0 (dotenv_parse file).

Inductive effect :=
| LoadEnv
| ConnectDb
| Use (m : middleware)
| Listen (port : jval)
| Log (line : string).

(** Lines 11-31 in order; the [listen] callback logs once the server is up. *)
Definition start (env0 file : env) : env * list effect :=
  let e := dotenv_config env0 file in
  let port := PORT (alist_get "PORT" e) in
  (e, [LoadEnv; ConnectDb] ++ (Use <$> app_stack) ++
      [Listen port; Log ("Server running on port: " +:+ Js.to_string port)]).

(** ** Lemmas *)

Lemma alist_get_app_r k (l : env) kv :
  alist_get k (l ++ [kv]) = match alist_get k l with
                            | Some v => Some v
                            | None => if decide (k = kv.1) then Some kv.2 else None
                            end.
Proof.
  destruct kv as [k' v']. induction l as [|[k'' v''] l IH]; simpl; [done|].
  destruct (decide (k = k'')); simpl; [done|exact IH].
Qed.

Lemma populate_get k (acc l : env) :
  NoDup l.*1 →
  alist_get k (foldl (λ acc kv, match alist_get kv.1 acc with Some _ => acc | None => acc ++ [kv] end) acc l) =
  match alist_get k acc with Some v => Some v | None => alist_get k l end.
Proof.
  revert acc. induction l as [|[k' v'] l IH]; intros acc Hnd; simpl; [by destruct (alist_get k acc)|].
  apply NoDup_cons in Hnd as [Hnotin Hnd]. rewrite IH by done.
  destruct (alist_get k' acc) as [v0|] eqn:Hk'.
  - destruct (alist_get k acc) eqn:Hk; [done|]. case_decide; [congruence|done].
  - rewrite alist_get_app_r. simpl. destruct (alist_get k acc) eqn:Hk; [done|].
    case_decide as Heq; [subst k'|done].
    destruct (alist_get k l) eqn:Hl; [|done].
    exfalso. apply Hnotin. by apply alist_get_Some_in in Hl.
Qed.

Lemma dotenv_parse_NoDup file : NoDup (dotenv_parse file).*1.
Proof.
  unfold dotenv_parse. assert (H0 : NoDup (@nil (string * string)).*1) by constructor.
  revert H0. generalize (@nil (string * string)) as acc.
  induction file as [|kv file IH]; intros acc Hnd; simpl; [done|].
  apply IH. by apply alist_set_NoDup.
Qed.

(** The variable as [process.env] has it after [dotenv.config()]. *)
Lemma dotenv_config_get k env0 file :
  alist_get k (dotenv_config env0 file) =
  match alist_get k env0 with Some v => Some v | None => alist_get k (dotenv_parse file) end.
Proof. apply populate_get, dotenv_parse_NoDup. Qed.

(** [PORT] and what the log line prints for it. *)
Lemma PORT_choice (v : option string) :
  PORT v = (match v with Some p => if String.eqb p "" then JNum 8800 else JStr p | None => JNum 8800 end) ∧
  Js.to_string (PORT v) = (match v with Some p => if String.eqb p "" then "8800" else p | None => "8800" end).
Proof. unfold PORT, Js.or. destruct v as [p|]; [|done]. simpl. by destruct (String.eqb p ""). Qed.

(** C16: The server listens on, and logs, the shell's [PORT] when it is set,
    otherwise the last [PORT] of the [.env] file, otherwise 8800; a [PORT]
    set to the empty string is falsy and gives 8800, and it still hides
    the [.env] value, which [dotenv] never writes over a defined variable. *)
Theorem start_port env0 file :
  let chosen := match alist_get "PORT" env0 with
                | Some v => Some v
                | None => alist_get "PORT" (dotenv_parse file) end in
  Listen (match chosen with Some p => if String.eqb p "" then JNum 8800 else JStr p | None => JNum 8800 end)
    ∈ (start env0 file).2 ∧
  Log ("Server running on port: " +:+
       match chosen with Some p => if String.eqb p "" then "8800" else p | None => "8800" end)
    ∈ (start env0 file).2.
Proof.
  intros chosen. unfold start. cbn [snd]. rewrite dotenv_config_get. fold chosen.
  destruct (PORT_choice chosen) as [-> ->]. set_solver.
Qed.

End ServerBoot.
